(** * OpenAlexExtractor: bibliometric report generator

    A shallow embedding of [extractor_datos_openalex.py].  The script is a
    single class, [OpenAlexExtractor], whose methods query the OpenAlex REST
    API, derive percentages, dump JSON files under [datos/] and save charts
    under [visualizaciones/].

    - Python values are the type [json]; Python [None] is [JNull].
    - Python floats are rationals; every float operation rounds its exact
      result with [fl], a parameter of the development; [binary64] is the
      rounding of IEEE doubles.  Results are kept in lowest terms ([Qred]).
    - A method is a function from [state] to an [outcome] and a new state.
      The state holds the fields of [self], the files on disk and the trace
      of outside effects (HTTP requests, files written, charts saved).
    - The API is an oracle [server]: it answers a request knowing the
      requests made before it.
    - [print] calls are left out: none of them can raise here. *)

From Stdlib Require Import ZArith QArith Qabs Qround Qpower String List Lia Lqa.
From stdpp Require Import gmap strings pretty.
Import ListNotations.
Local Open Scope string_scope.

Create HintDb py_safe.

(** ** Python values *)

#[local] Unset Elimination Schemes.
Inductive json : Type :=
| JNull
| JBool (b : bool)
| JInt (n : Z)
| JFloat (x : Q)
| JNaN
| JStr (s : string)
| JList (l : list json)
| JDict (d : list (string * json)).
#[local] Set Elimination Schemes.

(** A Python [dict] with string keys, in insertion order. *)
Abbreviation dict := (list (string * json)).

Inductive exn : Type :=
| ZeroDivisionError
| KeyError (k : string)
| TypeError
| AttributeError
| ValueError
| ConnectionError
| JSONDecodeError
| FileNotFoundError.

(** The result of running Python code: a value, a Python exception, or
    [Unmodelled] when the run leaves what this embedding covers (a
    dictionary key that is not a string, arithmetic on NaN, ill-typed data
    handed to pandas or matplotlib).  [Unmodelled] is not an exception: no
    [except] clause catches it. *)
Inductive outcome (A : Type) : Type :=
| Ret (a : A)
| Raise (e : exn)
| Unmodelled.
Arguments Ret {A} a.
Arguments Raise {A} e.
Arguments Unmodelled {A}.

Definition obind {A B} (r : outcome A) (k : A -> outcome B) : outcome B :=
  match r with
  | Ret a => k a
  | Raise e => Raise e
  | Unmodelled => Unmodelled
  end.

Declare Scope py_scope.
Delimit Scope py_scope with py.
Notation "x <-- e ;; k" := (obind e (fun x => k))
  (at level 100, e at next level, right associativity) : py_scope.
Local Open Scope py_scope.

(** [d[k]] on a dict, as an option. *)
Fixpoint dict_lookup (k : string) (d : dict) : option json :=
  match d with
  | [] => None
  | (k', v) :: d' => if String.eqb k k' then Some v else dict_lookup k d'
  end.

(** [d[k] = v]: an existing key keeps its position, a new one goes last. *)
Fixpoint dict_set (d : dict) (k : string) (v : json) : dict :=
  match d with
  | [] => [(k, v)]
  | (k', v') :: d' =>
      if String.eqb k k' then (k', v) :: d' else (k', v') :: dict_set d' k v
  end.

Definition keys (d : dict) : list string := map fst d.
Definition values (d : dict) : list json := map snd d.

Definition is_empty {A} (l : list A) : bool :=
  match l with [] => true | _ => false end.

Definition is_some {A} (o : option A) : bool :=
  match o with Some _ => true | None => false end.

(** [bool(x)]. *)
Definition truthy (x : json) : bool :=
  match x with
  | JNull => false
  | JBool b => b
  | JInt n => negb (n =? 0)%Z
  | JFloat q => negb (Qeq_bool q 0)
  | JNaN => true
  | JStr s => negb (String.eqb s "")
  | JList l => negb (is_empty l)
  | JDict d => negb (is_empty d)
  end.

Definition is_str (k : string) (x : json) : bool :=
  match x with JStr s => String.eqb s k | _ => false end.

(** [k in x] for a string [k]. *)
Definition contains (k : string) (x : json) : outcome bool :=
  match x with
  | JDict d => Ret (is_some (dict_lookup k d))
  | JList l => Ret (existsb (is_str k) l)
  | JStr s => Ret (is_some (String.index 0 k s))
  | _ => Raise TypeError
  end.

(** [x and k in x], the guard of every extraction step. *)
Definition present (x : json) (k : string) : outcome bool :=
  if truthy x then contains k x else Ret false.

(** [x[k]] for a string [k]. *)
Definition getitem (x : json) (k : string) : outcome json :=
  match x with
  | JDict d => match dict_lookup k d with
               | Some v => Ret v
               | None => Raise (KeyError k)
               end
  | _ => Raise TypeError
  end.

(** [x.get(k, default)]. *)
Definition get (x : json) (k : string) (default : json) : outcome json :=
  match x with
  | JDict d => match dict_lookup k d with
               | Some v => Ret v
               | None => Ret default
               end
  | _ => Raise AttributeError
  end.

Definition chars (s : string) : list json :=
  map (fun c => JStr (String c EmptyString)) (list_ascii_of_string s).

(** The items a [for] loop sees. *)
Definition iter (x : json) : outcome (list json) :=
  match x with
  | JList l => Ret l
  | JDict d => Ret (map JStr (keys d))
  | JStr s => Ret (chars s)
  | _ => Raise TypeError
  end.

(** [x[:n]], then iterated.  A dict cannot be sliced: [TypeError] (from
    Python 3.12 on a [KeyError] with the slice as key). *)
Definition slice_to (n : nat) (x : json) : outcome (list json) :=
  match x with
  | JList l => Ret (firstn n l)
  | JStr s => Ret (firstn n (chars s))
  | _ => Raise TypeError
  end.

(** [x.items()]. *)
Definition items (x : json) : outcome dict :=
  match x with
  | JDict d => Ret d
  | _ => Raise AttributeError
  end.

(** Dictionary keys taken from API data.  Lists and dicts are unhashable;
    keys that are numbers, booleans or [None] are not modelled. *)
Definition as_key (x : json) : outcome string :=
  match x with
  | JStr s => Ret s
  | JList _ | JDict _ => Raise TypeError
  | _ => Unmodelled
  end.

(** ** Arithmetic *)

Inductive number : Type := Num (q : Q) | NaN | NotANumber.

Definition as_number (x : json) : number :=
  match x with
  | JBool b => Num (if b then 1 else 0)
  | JInt n => Num (inject_Z n)
  | JFloat q => Num q
  | JNaN => NaN
  | _ => NotANumber
  end.

Definition is_zero (x : json) : bool :=
  match as_number x with Num q => Qeq_bool q 0 | _ => false end.

(** ** Rounding to the nearest double *)

(** [x] rounded to the nearest integer, a tie to the even one. *)
Definition round_half_even (x : Q) : Z :=
  let f := Qfloor x in
  match Qcompare (x - inject_Z f) (1 # 2) with
  | Lt => f
  | Gt => (f + 1)%Z
  | Eq => if Z.even f then f else (f + 1)%Z
  end.

(** The exponent [e] with [2^e <= |q| < 2^(e+1)], for [q] other than 0. *)
Definition binade (q : Q) : Z :=
  let k := (Z.log2 (Z.abs (Qnum q)) - Z.log2 (Z.pos (Qden q)))%Z in
  if Qle_bool (2 ^ k) (Qabs q) then k else (k - 1)%Z.

(** The double nearest to [q]: 53 significant bits, ties to even.  The
    exponent is not bounded here: a double overflows from [2^1024] on and
    loses precision under [2^-1022]. *)
Definition binary64 (q : Q) : Q :=
  if Qeq_bool q 0 then 0%Q
  else
    let ulp := (2 ^ (binade q - 52))%Q in
    Qred (inject_Z (round_half_even (q / ulp)) * ulp).

(** [2^-53], the largest relative error of [binary64]. *)
Definition half_ulp : Q := 1 # 9007199254740992.

Section Extractor.

(** Rounding of an exact result to the nearest float. *)
Variable fl : Q -> Q.

(** [a / b], Python's true division.  Numbers beyond the range of a
    double, for which Python raises [OverflowError], are not modelled. *)
Definition truediv (a b : json) : outcome json :=
  match as_number a, as_number b with
  | NotANumber, _ | _, NotANumber => Raise TypeError
  | NaN, _ | _, NaN => Unmodelled
  | Num x, Num y =>
      if Qeq_bool y 0 then Raise ZeroDivisionError
      else Ret (JFloat (fl (Qred (x / y))))
  end.

(** [a * b] on numbers; the product of two ints is an int. *)
Definition mul (a b : json) : outcome json :=
  match a, b with
  | JInt m, JInt n => Ret (JInt (m * n))
  | _, _ =>
      match as_number a, as_number b with
      | Num x, Num y => Ret (JFloat (fl (Qred (x * y))))
      | _, _ => Unmodelled
      end
  end.

(** [(count / total) * 100]. *)
Definition percentage_of (count total : json) : outcome json :=
  q <-- truediv count total ;;
  mul q (JInt 100).

(** ** State and effects *)

Record extractor : Type := {
  email : string;
  base_url : string;
  current_year : Z;
  five_years_ago : Z;
  period : string;
  total_publications : json
}.

(** [OpenAlexExtractor.__init__]; [now_year] is [datetime.now().year]. *)
Definition init (email : string) (now_year : Z) : extractor :=
  {| email := email;
     base_url := "https://api.openalex.org";
     current_year := now_year;
     five_years_ago := now_year - 5;
     period := pretty (now_year - 5)%Z +:+ "-" +:+ pretty now_year;
     total_publications := JInt 0 |}.

Definition default_email : string := "freddy.sumba@cedia.org.ec".

Definition request : Type := string * dict.

Record response : Type := { status_code : Z; body : option json }.

(** What [requests.get] gives: a response, or no answer at all
    ([ConnectionError]). *)
Inductive http_result : Type :=
| Answer (r : response)
| NoAnswer.

(** A file holds a JSON document or something [json.load] rejects, an
    image for one. *)
Inductive file : Type :=
| Document (j : json)
| Garbage.

Inductive event : Type :=
| EGet (url : string) (params : dict)
| EWrite (path : string) (content : json)
| ERender (path : string).

Record state : Type := {
  self : extractor;
  files : gmap string file;
  trace : list event
}.

Definition requests_of (tr : list event) : list request :=
  flat_map (fun e => match e with EGet u p => [(u, p)] | _ => [] end) tr.

Definition writes_of (tr : list event) : list (string * json) :=
  flat_map (fun e => match e with EWrite f c => [(f, c)] | _ => [] end) tr.

Definition renders_of (tr : list event) : list string :=
  flat_map (fun e => match e with ERender f => [f] | _ => [] end) tr.

(** The API: its answer to a request, given the requests before it. *)
Variable server : list request -> request -> http_result.

(** [datetime.now().strftime('%Y-%m-%d')]. *)
Variable today : string.

Definition M (A : Type) : Type := state -> outcome A * state.

Definition ret {A} (a : A) : M A := fun s => (Ret a, s).

Definition bind {A B} (m : M A) (k : A -> M B) : M B :=
  fun s =>
    match m s with
    | (Ret a, s') => k a s'
    | (Raise e, s') => (Raise e, s')
    | (Unmodelled, s') => (Unmodelled, s')
    end.

Definition lift {A} (r : outcome A) : M A := fun s => (r, s).

(** [try: m except: h] with a bare [except]. *)
Definition try_except {A} (m h : M A) : M A :=
  fun s =>
    match m s with
    | (Raise _, s') => h s'
    | r => r
    end.

Notation "x <- m ;; k" := (bind m (fun x => k))
  (at level 100, m at next level, right associativity) : py_scope.
Notation "m ;;; k" := (bind m (fun _ => k))
  (at level 100, right associativity) : py_scope.

Definition get_self : M extractor := fun s => (Ret (self s), s).

Definition set_total_publications (v : json) : M unit :=
  fun s =>
    let e := self s in
    (Ret tt,
     {| self := {| email := email e; base_url := base_url e;
                   current_year := current_year e;
                   five_years_ago := five_years_ago e;
                   period := period e; total_publications := v |};
        files := files s; trace := trace s |}).

(** An event joins the trace; a chart that is saved also replaces the file
    at its path, by an image. *)
Definition emit (e : event) (s : state) : state :=
  {| self := self s;
     files := match e with
              | ERender path => <[path := Garbage]> (files s)
              | _ => files s
              end;
     trace := trace s ++ [e] |}.

(** [requests.get(url, params=params)]. *)
Definition requests_get (url : string) (params : dict) : M response :=
  fun s =>
    match server (requests_of (trace s)) (url, params) with
    | Answer r => (Ret r, emit (EGet url params) s)
    | NoAnswer => (Raise ConnectionError, emit (EGet url params) s)
    end.

(** [response.json()]. *)
Definition response_json (r : response) : outcome json :=
  match body r with
  | Some j => Ret j
  | None => Raise JSONDecodeError
  end.

Definition DATA_DIR : string := "datos".
Definition VIZ_DIR : string := "visualizaciones".
Definition path_join (dir name : string) : string := dir +:+ "/" +:+ name.

(** [with open(path, 'w') as f: json.dump(obj, f, indent=2)]. *)
Definition json_dump (path : string) (obj : json) : M unit :=
  fun s =>
    (Ret tt,
     {| self := self s;
        files := <[path := Document obj]> (files s);
        trace := trace s ++ [EWrite path obj] |}).

(** [with open(path, 'r') as f: json.load(f)]. *)
Definition json_load (path : string) : M json :=
  fun s =>
    match files s !! path with
    | Some (Document j) => (Ret j, s)
    | Some Garbage => (Raise JSONDecodeError, s)
    | None => (Raise FileNotFoundError, s)
    end.

(** [plt.savefig(path, ...)]: the chart is written to [path]. *)
Definition savefig (path : string) : M unit :=
  fun s => (Ret tt, emit (ERender path) s).

(** ** [query_api] *)

Definition query_api (endpoint : string) (params : option dict) : M json :=
  me <- get_self ;;
  let url := base_url me +:+ "/" +:+ endpoint in
  let params := match params with None => [] | Some p => p end in
  let params := dict_set params "mailto" (JStr (email me)) in
  response <- requests_get url params ;;
  if (status_code response =? 200)%Z
  then lift (response_json response)
  else ret JNull.

Definition country_filter (me : extractor) : string :=
  "authorships.institutions.country_code:EC,publication_year:" +:+ period me.

(** ** [get_general_stats] *)

Definition get_general_stats : M json :=
  me <- get_self ;;
  let params := [("filter", JStr (country_filter me)); ("per_page", JInt 1)] in
  results <- query_api "works" (Some params) ;;
  ok <- lift (present results "meta") ;;
  if ok then
    meta <- lift (getitem results "meta") ;;
    count <- lift (getitem meta "count") ;;
    set_total_publications count ;;;
    let metadata := JDict [("total_publicaciones", count);
                           ("periodo", JStr (period me));
                           ("fecha_consulta", JStr today)] in
    json_dump (path_join DATA_DIR "metadatos_generales.json") metadata ;;;
    ret metadata
  else ret JNull.

(** ** pandas and matplotlib

    A [DataFrame] built from a list of records: the columns are the keys in
    order of first appearance, a record without a column holds NaN there.
    What is modelled of both libraries is what the script relies on:
    a label that is not a column raises [KeyError], [int] of NaN raises
    [ValueError], a pie with a negative size or with nothing to show raises
    [ValueError].  Other drawing calls on well-typed data succeed;
    ill-typed data is [Unmodelled]. *)

Record DataFrame : Type := { columns : list string; rows : list dict }.

Definition has_column (c : string) (df : DataFrame) : bool :=
  existsb (String.eqb c) (columns df).

Fixpoint add_columns (cols : list string) (ks : list string) : list string :=
  match ks with
  | [] => cols
  | k :: ks' =>
      add_columns (if existsb (String.eqb k) cols then cols else cols ++ [k]) ks'
  end.

Definition as_record (x : json) : outcome dict :=
  match x with JDict d => Ret d | _ => Unmodelled end.

Fixpoint omap {A B} (f : A -> outcome B) (l : list A) : outcome (list B) :=
  match l with
  | [] => Ret []
  | a :: l' => b <-- f a ;; bs <-- omap f l' ;; Ret (b :: bs)
  end.

Fixpoint ofold {A B} (f : B -> A -> outcome B) (l : list A) (b : B) : outcome B :=
  match l with
  | [] => Ret b
  | a :: l' => b' <-- f b a ;; ofold f l' b'
  end.

(** [pd.DataFrame(records)]. *)
Definition DataFrame_of (records : list json) : outcome DataFrame :=
  rs <-- omap as_record records ;;
  Ret {| columns := fold_left (fun cols r => add_columns cols (keys r)) rs [];
         rows := rs |}.

(** [pd.DataFrame()]. *)
Definition DataFrame_empty : DataFrame := {| columns := []; rows := [] |}.

Definition cell (c : string) (r : dict) : json :=
  match dict_lookup c r with Some v => v | None => JNaN end.

(** [df.empty]. *)
Definition empty (df : DataFrame) : bool :=
  is_empty (rows df) || is_empty (columns df).

(** [df.head(n)]. *)
Definition head (n : nat) (df : DataFrame) : DataFrame :=
  {| columns := columns df; rows := firstn n (rows df) |}.

(** [df[c]]. *)
Definition column (c : string) (df : DataFrame) : outcome (list json) :=
  if has_column c df then Ret (map (cell c) (rows df)) else Raise (KeyError c).

(** Sort keys: a number, or [None] for NaN, which sorts last. *)
Definition sort_key (v : json) : outcome (option Q) :=
  match as_number v with
  | Num q => Ret (Some q)
  | NaN => Ret None
  | NotANumber => Unmodelled
  end.

Definition key_gt (a b : option Q) : bool :=
  match a, b with
  | Some x, Some y => negb (Qle_bool x y)
  | Some _, None => true
  | None, _ => false
  end.

Fixpoint insert_desc (k : option Q) (r : dict) (l : list (option Q * dict))
  : list (option Q * dict) :=
  match l with
  | [] => [(k, r)]
  | (k', r') :: l' =>
      if key_gt k' k then (k', r') :: insert_desc k r l' else (k, r) :: l
  end.

(** [df.sort_values(c, ascending=False)].  Rows with equal keys keep their
    order here; pandas leaves their order open. *)
Definition sort_values (c : string) (df : DataFrame) : outcome DataFrame :=
  if has_column c df then
    ks <-- omap (fun r => k <-- sort_key (cell c r) ;; Ret (k, r)) (rows df) ;;
    Ret {| columns := columns df;
           rows := map snd (fold_right (fun kr => insert_desc (fst kr) (snd kr)) [] ks) |}
  else Raise (KeyError c).

(** [df[cs].to_dict('records')]. *)
Definition to_records (cs : list string) (df : DataFrame) : outcome (list json) :=
  match List.filter (fun c => negb (has_column c df)) cs with
  | [] => Ret (map (fun r => JDict (map (fun c => (c, cell c r)) cs)) (rows df))
  | c :: _ => Raise (KeyError c)
  end.

Definition as_label (x : json) : outcome string :=
  match x with JStr s => Ret s | _ => Unmodelled end.

Definition as_size (x : json) : outcome number :=
  match as_number x with
  | NotANumber => Unmodelled
  | n => Ret n
  end.

(** [plt.barh(labels, widths)]: the widths of the bars drawn. *)
Definition barh (labels widths : list json) : outcome (list number) :=
  _ <-- omap as_label labels ;;
  omap as_size widths.

(** [int(width)] for each bar, to label it. *)
Definition int_labels (bars : list number) : outcome unit :=
  if existsb (fun n => match n with Num _ => false | _ => true end) bars
  then Raise ValueError else Ret tt.

Definition total_size (sizes : list number) : Q :=
  fold_right (fun n acc => match n with Num q => (q + acc)%Q | _ => acc end) 0%Q sizes.

(** [plt.pie(sizes, labels=labels, ...)].  matplotlib refuses a negative
    size ("Wedge sizes 'x' must be non negative values") and sizes that sum
    to zero, those of an empty list among them ("All wedge sizes are
    zero").  A pie with a NaN size is not modelled. *)
Definition pie (sizes labels : list json) : outcome unit :=
  ns <-- omap as_size sizes ;;
  if existsb (fun n => match n with Num q => negb (Qle_bool 0 q) | _ => false end) ns
  then Raise ValueError
  else if existsb (fun n => match n with Num _ => false | _ => true end) ns
  then Unmodelled
  else if Qeq_bool (total_size ns) 0 then Raise ValueError
  else Ret tt.

(** [plt.scatter(xs, ys)]. *)
Definition scatter (xs ys : list json) : outcome unit :=
  _ <-- omap as_size xs ;;
  _ <-- omap as_size ys ;;
  Ret tt.

(** [s.replace(old, new)] for a non-empty [old]; [skip] counts the
    characters of a match still to drop. *)
Fixpoint replace_from (old new : string) (skip : nat) (s : string) : string :=
  match s with
  | EmptyString => EmptyString
  | String c s' =>
      match skip with
      | S n => replace_from old new n s'
      | O =>
          if String.prefix old s
          then new +:+ replace_from old new (String.length old - 1) s'
          else String c (replace_from old new 0 s')
      end
  end.

Definition replace (old new s : string) : string := replace_from old new 0 s.

(** [pd.DataFrame(x)] for a value read from the API or from a file. *)
Definition DataFrame_from (x : json) : outcome DataFrame :=
  match x with
  | JList l => DataFrame_of l
  | _ => Unmodelled
  end.

(** [series.sum()]. *)
Definition series_sum (cells : list json) : outcome json :=
  ns <-- omap as_size cells ;;
  Ret (JFloat (Qred (total_size ns))).

(** [pd.concat([a, b])]. *)
Definition concat (a b : DataFrame) : DataFrame :=
  {| columns := add_columns (columns a) (columns b);
     rows := rows a ++ rows b |}.

(** [len(x)]. *)
Definition len (x : json) : outcome json :=
  match x with
  | JList l => Ret (JInt (Z.of_nat (length l)))
  | JDict d => Ret (JInt (Z.of_nat (length d)))
  | JStr s => Ret (JInt (Z.of_nat (String.length s)))
  | _ => Raise TypeError
  end.

(** ** Rendering *)

Definition visualize_oa_types (oa_types_data : json) : M unit :=
  d <- lift (items oa_types_data) ;;
  let labels := map JStr (keys d) in
  sizes <- lift (omap (fun data => getitem data "count") (values d)) ;;
  lift (pie sizes labels) ;;;
  savefig (path_join VIZ_DIR "distribucion_tipos_oa.png").

(** One pass of the loop that fills [areas_list]. *)
Definition area_info (entry : string * json) : outcome json :=
  let '(field_id, data) := entry in
  nombre <-- getitem data "nombre" ;;
  publicaciones <-- getitem data "publicaciones" ;;
  porcentaje <-- getitem data "porcentaje" ;;
  let info := [("id", JStr field_id); ("nombre", nombre);
               ("publicaciones", publicaciones); ("porcentaje", porcentaje)] in
  has_oa <-- contains "porcentaje_oa" data ;;
  info <-- (if has_oa
            then v <-- getitem data "porcentaje_oa" ;;
                 Ret (dict_set info "porcentaje_oa" v)
            else Ret info) ;;
  has_status <-- contains "oa_status" data ;;
  info <-- (if has_status
            then status <-- getitem data "oa_status" ;;
                 types <-- items status ;;
                 ofold (fun info t =>
                          v <-- getitem (snd t) "percentage" ;;
                          Ret (dict_set info ("oa_" +:+ fst t) v))
                       types info
            else Ret info) ;;
  Ret (JDict info).

Definition visualize_fields_data (fields_data : json) : M unit :=
  entries <- lift (items fields_data) ;;
  areas_list <- lift (omap area_info entries) ;;
  df_areas <- lift (DataFrame_of areas_list) ;;
  df_areas <- lift (sort_values "publicaciones" df_areas) ;;
  (* 1. bar chart of the main areas *)
  let top_areas := head 10 df_areas in
  names <- lift (column "nombre" top_areas) ;;
  widths <- lift (column "publicaciones" top_areas) ;;
  bars <- lift (barh names widths) ;;
  lift (int_labels bars) ;;;
  savefig (path_join VIZ_DIR "areas_conocimiento_principales.png") ;;;
  (* 2. open-access share per area *)
  (if has_column "porcentaje_oa" df_areas then
     sorted <- lift (sort_values "porcentaje_oa" df_areas) ;;
     let top_areas_oa := head 10 sorted in
     names <- lift (column "nombre" top_areas_oa) ;;
     widths <- lift (column "porcentaje_oa" top_areas_oa) ;;
     lift (barh names widths) ;;;
     savefig (path_join VIZ_DIR "areas_mayor_acceso_abierto.png")
   else ret tt) ;;;
  (* 3. pie of the eight main areas and the rest *)
  pie_data <-
    (if (8 <? length (rows df_areas))%nat then
       let rest := {| columns := columns df_areas; rows := skipn 8 (rows df_areas) |} in
       rest_pubs <- lift (column "publicaciones" rest) ;;
       sum_pubs <- lift (series_sum rest_pubs) ;;
       rest_pcts <- lift (column "porcentaje" rest) ;;
       sum_pcts <- lift (series_sum rest_pcts) ;;
       other_areas <- lift (DataFrame_of
         [JDict [("nombre", JStr "Otras áreas"); ("publicaciones", sum_pubs);
                 ("porcentaje", sum_pcts)]]) ;;
       ret (concat (head 8 df_areas) other_areas)
     else ret df_areas) ;;
  sizes <- lift (column "publicaciones" pie_data) ;;
  names <- lift (column "nombre" pie_data) ;;
  lift (pie sizes names) ;;;
  savefig (path_join VIZ_DIR "distribucion_areas_conocimiento.png").

(** The last chart annotates the authors above a median; on columns that
    [scatter] accepted, the comparisons and [annotate] cannot raise. *)
Definition visualize_top_authors (top_authors : json) : M unit :=
  df_authors <- lift (DataFrame_from top_authors) ;;
  sorted <- lift (sort_values "publicaciones_total" df_authors) ;;
  let df_authors := head 15 sorted in
  names <- lift (column "nombre" df_authors) ;;
  widths <- lift (column "publicaciones_total" df_authors) ;;
  bars <- lift (barh names widths) ;;
  lift (int_labels bars) ;;;
  savefig (path_join VIZ_DIR "autores_mas_productivos.png") ;;;
  sorted <- lift (sort_values "citas" df_authors) ;;
  let df_authors_citas := head 15 sorted in
  names <- lift (column "nombre" df_authors_citas) ;;
  widths <- lift (column "citas" df_authors_citas) ;;
  bars <- lift (barh names widths) ;;
  lift (int_labels bars) ;;;
  savefig (path_join VIZ_DIR "autores_mas_citados.png") ;;;
  xs <- lift (column "publicaciones_total" df_authors) ;;
  ys <- lift (column "citas" df_authors) ;;
  lift (scatter xs ys) ;;;
  savefig (path_join VIZ_DIR "productividad_vs_impacto.png").

Definition visualize_top_institutions (top_institutions : json) : M unit :=
  df_institutions <- lift (DataFrame_from top_institutions) ;;
  sorted <- lift (sort_values "publicaciones" df_institutions) ;;
  let df_institutions := head 10 sorted in
  names <- lift (column "nombre" df_institutions) ;;
  widths <- lift (column "publicaciones" df_institutions) ;;
  bars <- lift (barh names widths) ;;
  lift (int_labels bars) ;;;
  savefig (path_join VIZ_DIR "instituciones_mas_productivas.png").

Definition country_prefix : string := "https://openalex.org/countries/".

(** One pass of the loop that fills [collab_list]. *)
Definition collab_row (entry : string * json) : outcome json :=
  let '(country, data) := entry in
  count <-- getitem data "count" ;;
  percentage <-- getitem data "percentage" ;;
  Ret (JDict [("pais", JStr (replace country_prefix "" country));
              ("publicaciones", count); ("porcentaje", percentage)]).

Definition visualize_international_collaboration (collab_data : json) : M unit :=
  entries <- lift (items collab_data) ;;
  collab_list <- lift (omap collab_row entries) ;;
  df_collab <- lift (DataFrame_of collab_list) ;;
  sorted <- lift (sort_values "publicaciones" df_collab) ;;
  let df_collab := head 15 sorted in
  names <- lift (column "pais" df_collab) ;;
  widths <- lift (column "publicaciones" df_collab) ;;
  bars <- lift (barh names widths) ;;
  lift (int_labels bars) ;;;
  savefig (path_join VIZ_DIR "colaboracion_internacional.png").

(** ** [get_oa_stats] *)

Definition count_entry (count percentage : json) : json :=
  JDict [("count", count); ("percentage", percentage)].

(** One pass of [for item in results_oa_types['group_by']]; the same loop
    fills [oa_data] in [get_data_by_field], with the area's count as
    [total]. *)
Definition oa_type_entry (total : json) (oa_types_data : dict) (item : json)
  : outcome dict :=
  oa_type <-- getitem item "key" ;;
  count <-- getitem item "count" ;;
  percentage <-- percentage_of count total ;;
  k <-- as_key oa_type ;;
  Ret (dict_set oa_types_data k (count_entry count percentage)).

Definition oa_types_path : string := path_join DATA_DIR "datos_tipos_oa.json".

Definition get_oa_stats : M json :=
  me <- get_self ;;
  let params_oa :=
    [("filter", JStr (country_filter me +:+ ",is_oa:true")); ("per_page", JInt 1)] in
  results_oa <- query_api "works" (Some params_oa) ;;
  ok <- lift (present results_oa "meta") ;;
  if ok then
    meta <- lift (getitem results_oa "meta") ;;
    total_oa <- lift (getitem meta "count") ;;
    percentage_oa <- lift (percentage_of total_oa (total_publications me)) ;;
    let params_oa_types :=
      [("filter", JStr (country_filter me)); ("group_by", JStr "oa_status")] in
    results_oa_types <- query_api "works" (Some params_oa_types) ;;
    ok <- lift (present results_oa_types "group_by") ;;
    if ok then
      group_by <- lift (getitem results_oa_types "group_by") ;;
      group <- lift (iter group_by) ;;
      oa_types_data <- lift (ofold (oa_type_entry (total_publications me)) group []) ;;
      json_dump oa_types_path (JDict oa_types_data) ;;;
      visualize_oa_types (JDict oa_types_data) ;;;
      ret (JDict [("total_oa", total_oa); ("percentage_oa", percentage_oa);
                  ("oa_types", JDict oa_types_data)])
    else ret JNull
  else ret JNull.

(** ** [get_data_by_field] *)

Definition areas_conocimiento : list (string * string) :=
  [("https://openalex.org/C41008148", "Computer science");
   ("https://openalex.org/C86803240", "Biology");
   ("https://openalex.org/C185592680", "Chemistry");
   ("https://openalex.org/C127313418", "Engineering");
   ("https://openalex.org/C71924100", "Medicine");
   ("https://openalex.org/C33923547", "Physics");
   ("https://openalex.org/C144133560", "Mathematics");
   ("https://openalex.org/C162324750", "Economics");
   ("https://openalex.org/C17744445", "Political science");
   ("https://openalex.org/C138885662", "Education");
   ("https://openalex.org/C39432304", "Environmental science");
   ("https://openalex.org/C15744967", "Psychology");
   ("https://openalex.org/C121332964", "Sociology")].

Fixpoint mfold {A B} (f : A -> B -> M B) (l : list A) (b : B) : M B :=
  match l with
  | [] => ret b
  | a :: l' => b' <- f a b ;; mfold f l' b'
  end.

Definition area_filter (me : extractor) (area_id : string) : string :=
  country_filter me +:+ ",concepts.id:" +:+ area_id.

(** One pass of [for area in areas_conocimiento]. *)
Definition area_step (area : string * string) (fields_data : dict) : M dict :=
  let '(area_id, area_nombre) := area in
  me <- get_self ;;
  let params_area :=
    [("filter", JStr (area_filter me area_id)); ("per_page", JInt 1)] in
  results_area <- query_api "works" (Some params_area) ;;
  ok <- lift (present results_area "meta") ;;
  if ok then
    meta <- lift (getitem results_area "meta") ;;
    count <- lift (getitem meta "count") ;;
    percentage <- lift (percentage_of count (total_publications me)) ;;
    let entry := [("nombre", JStr area_nombre); ("publicaciones", count);
                  ("porcentaje", percentage)] in
    let fields_data := dict_set fields_data area_id (JDict entry) in
    let params_area_oa :=
      [("filter", JStr (area_filter me area_id +:+ ",is_oa:true"));
       ("per_page", JInt 1)] in
    results_area_oa <- query_api "works" (Some params_area_oa) ;;
    ok <- lift (present results_area_oa "meta") ;;
    if ok then
      meta <- lift (getitem results_area_oa "meta") ;;
      count_oa <- lift (getitem meta "count") ;;
      percentage_oa <- lift (percentage_of count_oa count) ;;
      let entry := dict_set entry "publicaciones_oa" count_oa in
      let entry := dict_set entry "porcentaje_oa" percentage_oa in
      let fields_data := dict_set fields_data area_id (JDict entry) in
      let params_area_oa_types :=
        [("filter", JStr (area_filter me area_id)); ("group_by", JStr "oa_status")] in
      results_area_oa_types <- query_api "works" (Some params_area_oa_types) ;;
      ok <- lift (present results_area_oa_types "group_by") ;;
      if ok then
        group_by <- lift (getitem results_area_oa_types "group_by") ;;
        group <- lift (iter group_by) ;;
        oa_data <- lift (ofold (oa_type_entry count) group []) ;;
        let entry := dict_set entry "oa_status" (JDict oa_data) in
        ret (dict_set fields_data area_id (JDict entry))
      else ret fields_data
    else ret fields_data
  else ret fields_data.

Definition fields_path : string := path_join DATA_DIR "datos_por_areas.json".

Definition get_data_by_field : M json :=
  fields_data <- mfold area_step areas_conocimiento [] ;;
  json_dump fields_path (JDict fields_data) ;;;
  visualize_fields_data (JDict fields_data) ;;;
  ret (JDict fields_data).

(** ** [get_top_authors] and [get_top_institutions] *)

(** One pass of [for author in results_authors['results'][:20]]. *)
Definition author_data (author : json) : outcome json :=
  id <-- get author "id" JNull ;;
  nombre <-- get author "display_name" JNull ;;
  orcid <-- get author "orcid" JNull ;;
  institution <-- get author "last_known_institution" (JDict []) ;;
  institucion <-- get institution "display_name" (JStr "Desconocida") ;;
  institution <-- get author "last_known_institution" (JDict []) ;;
  institucion_id <-- get institution "id" (JStr "") ;;
  publicaciones_total <-- get author "works_count" (JInt 0) ;;
  citas <-- get author "cited_by_count" (JInt 0) ;;
  Ret (JDict [("id", id); ("nombre", nombre); ("orcid", orcid);
              ("institucion", institucion); ("institucion_id", institucion_id);
              ("publicaciones_total", publicaciones_total); ("citas", citas)]).

Definition authors_path : string := path_join DATA_DIR "autores_destacados.json".

Definition get_top_authors : M json :=
  let params_authors :=
    [("filter", JStr "last_known_institution.country_code:EC");
     ("sort", JStr "works_count:desc"); ("per_page", JInt 50)] in
  results_authors <- query_api "authors" (Some params_authors) ;;
  ok <- lift (present results_authors "results") ;;
  if ok then
    results <- lift (getitem results_authors "results") ;;
    first <- lift (slice_to 20 results) ;;
    top_authors <- lift (omap author_data first) ;;
    json_dump authors_path (JList top_authors) ;;;
    visualize_top_authors (JList top_authors) ;;;
    ret (JList top_authors)
  else ret (JList []).

(** One pass of [for inst in results_institutions['results'][:15]]. *)
Definition inst_data (inst : json) : outcome json :=
  id <-- get inst "id" JNull ;;
  nombre <-- get inst "display_name" JNull ;;
  tipo <-- get inst "type" JNull ;;
  publicaciones <-- get inst "works_count" (JInt 0) ;;
  citas <-- get inst "cited_by_count" (JInt 0) ;;
  Ret (JDict [("id", id); ("nombre", nombre); ("tipo", tipo);
              ("publicaciones", publicaciones); ("citas", citas)]).

Definition institutions_path : string :=
  path_join DATA_DIR "instituciones_destacadas.json".

Definition get_top_institutions : M json :=
  let params_institutions :=
    [("filter", JStr "country_code:EC");
     ("sort", JStr "works_count:desc"); ("per_page", JInt 25)] in
  results_institutions <- query_api "institutions" (Some params_institutions) ;;
  ok <- lift (present results_institutions "results") ;;
  if ok then
    results <- lift (getitem results_institutions "results") ;;
    first <- lift (slice_to 15 results) ;;
    top_institutions <- lift (omap inst_data first) ;;
    json_dump institutions_path (JList top_institutions) ;;;
    visualize_top_institutions (JList top_institutions) ;;;
    ret (JList top_institutions)
  else ret (JList []).

(** ** [get_international_collaboration] *)

(** One pass of [for item in results_collab['group_by']]. *)
Definition collab_entry (total : json) (collab_data : dict) (item : json)
  : outcome dict :=
  country <-- getitem item "key" ;;
  if is_str "EC" country then Ret collab_data
  else
    count <-- getitem item "count" ;;
    percentage <-- percentage_of count total ;;
    k <-- as_key country ;;
    Ret (dict_set collab_data k (count_entry count percentage)).

Definition collab_path : string :=
  path_join DATA_DIR "colaboracion_internacional.json".

Definition get_international_collaboration : M json :=
  me <- get_self ;;
  let params_collab :=
    [("filter", JStr (country_filter me));
     ("group_by", JStr "authorships.countries")] in
  results_collab <- query_api "works" (Some params_collab) ;;
  ok <- lift (present results_collab "group_by") ;;
  if ok then
    group_by <- lift (getitem results_collab "group_by") ;;
    group <- lift (iter group_by) ;;
    collab_data <- lift (ofold (collab_entry (total_publications me)) group []) ;;
    json_dump collab_path (JDict collab_data) ;;;
    visualize_international_collaboration (JDict collab_data) ;;;
    ret (JDict collab_data)
  else ret (JDict []).

(** ** [create_summary_analysis] *)

Definition load_authors : M (json * DataFrame * DataFrame) :=
  try_except
    (top_authors <- json_load authors_path ;;
     df_authors <- lift (DataFrame_from top_authors) ;;
     df_authors_citas <- lift (sort_values "citas" df_authors) ;;
     ret (top_authors, df_authors, df_authors_citas))
    (ret (JList [], DataFrame_empty, DataFrame_empty)).

Definition load_institutions : M (json * DataFrame) :=
  try_except
    (top_institutions <- json_load institutions_path ;;
     df_institutions <- lift (DataFrame_from top_institutions) ;;
     ret (top_institutions, df_institutions))
    (ret (JList [], DataFrame_empty)).

Definition load_collaboration : M (json * DataFrame) :=
  try_except
    (collab_data <- json_load collab_path ;;
     entries <- lift (items collab_data) ;;
     collab_list <- lift (omap collab_row entries) ;;
     df_collab <- lift (DataFrame_of collab_list) ;;
     ret (collab_data, df_collab))
    (ret (JDict [], DataFrame_empty)).

(** [df[cs].to_dict('records') if not df.empty else []]. *)
Definition records_or_nothing (cs : list string) (df : DataFrame) : outcome json :=
  if negb (empty df) then rs <-- to_records cs df ;; Ret (JList rs)
  else Ret (JList []).

Definition summary_path : string := path_join DATA_DIR "analisis_resumido.json".

Definition create_summary_analysis : M json :=
  a <- load_authors ;;
  let '(top_authors, df_authors, df_authors_citas) := a in
  i <- load_institutions ;;
  let '(top_institutions, df_institutions) := i in
  c <- load_collaboration ;;
  let '(collab_data, df_collab) := c in
  total_analizados <- lift (len top_authors) ;;
  mas_productivos <- lift (records_or_nothing
    ["nombre"; "institucion"; "publicaciones_total"] df_authors) ;;
  mas_citados <- lift (records_or_nothing
    ["nombre"; "institucion"; "citas"] df_authors_citas) ;;
  total_analizadas <- lift (len top_institutions) ;;
  mas_productivas <- lift (records_or_nothing
    ["nombre"; "publicaciones"; "citas"] df_institutions) ;;
  total_paises <- lift (len collab_data) ;;
  principales_colaboradores <- lift (records_or_nothing
    ["pais"; "publicaciones"; "porcentaje"] df_collab) ;;
  let analysis_results :=
    JDict [("autores_destacados",
            JDict [("total_analizados", total_analizados);
                   ("mas_productivos", mas_productivos);
                   ("mas_citados", mas_citados)]);
           ("instituciones_destacadas",
            JDict [("total_analizadas", total_analizadas);
                   ("mas_productivas", mas_productivas)]);
           ("colaboracion_internacional",
            JDict [("total_paises", total_paises);
                   ("principales_colaboradores", principales_colaboradores)])] in
  json_dump summary_path analysis_results ;;;
  ret analysis_results.

(** ** [run_full_analysis] *)

Definition run_full_analysis : M unit :=
  get_general_stats ;;;
  get_oa_stats ;;;
  get_data_by_field ;;;
  get_top_authors ;;;
  get_top_institutions ;;;
  get_international_collaboration ;;;
  create_summary_analysis ;;;
  ret tt.

(** * The vocabulary of the properties *)

(** ** Requests and the states they lead to *)

(** What [query_api] hands back for an answer of the API. *)
Definition answer (h : http_result) : outcome json :=
  match h with
  | Answer r => if (status_code r =? 200)%Z then response_json r else Ret JNull
  | NoAnswer => Raise ConnectionError
  end.

Definition url_of (me : extractor) (endpoint : string) : string :=
  base_url me +:+ "/" +:+ endpoint.

Definition sent_params (me : extractor) (params : option dict) : dict :=
  dict_set (match params with None => [] | Some p => p end)
           "mailto" (JStr (email me)).

(** The request [query_api] issues, and the API's answer to it. *)
Definition query (s : state) (endpoint : string) (params : option dict) : request :=
  (url_of (self s) endpoint, sent_params (self s) params).

Definition asked (s : state) (endpoint : string) (params : option dict) : state :=
  emit (EGet (url_of (self s) endpoint) (sent_params (self s) params)) s.

Definition dumped (path : string) (obj : json) (s : state) : state :=
  {| self := self s;
     files := <[path := Document obj]> (files s);
     trace := trace s ++ [EWrite path obj] |}.

(** The API answered, with a status other than 200. *)
Definition fails (h : http_result) : Prop :=
  exists r, h = Answer r /\ status_code r <> 200%Z.

(** The parameters each method passes to [query_api]. *)
Definition general_params (me : extractor) : dict :=
  [("filter", JStr (country_filter me)); ("per_page", JInt 1)].
Definition oa_params (me : extractor) : dict :=
  [("filter", JStr (country_filter me +:+ ",is_oa:true")); ("per_page", JInt 1)].
Definition oa_types_params (me : extractor) : dict :=
  [("filter", JStr (country_filter me)); ("group_by", JStr "oa_status")].
Definition area_params (me : extractor) (area_id : string) : dict :=
  [("filter", JStr (area_filter me area_id)); ("per_page", JInt 1)].
Definition authors_params : dict :=
  [("filter", JStr "last_known_institution.country_code:EC");
   ("sort", JStr "works_count:desc"); ("per_page", JInt 50)].
Definition institutions_params : dict :=
  [("filter", JStr "country_code:EC");
   ("sort", JStr "works_count:desc"); ("per_page", JInt 25)].
Definition collab_params (me : extractor) : dict :=
  [("filter", JStr (country_filter me));
   ("group_by", JStr "authorships.countries")].

(** The API's answer to the request a method makes first, from state [s]. *)
Definition first_answer (s : state) (endpoint : string) (params : dict) : http_result :=
  server (requests_of (trace s)) (query s endpoint (Some params)).

Definition area_request (me : extractor) (area : string * string) : event :=
  EGet (url_of me "works") (sent_params me (Some (area_params me (fst area)))).

(** ** Tables and charts *)

(** The columns of a table built from the records [rs]. *)
Definition columns_of (rs : list dict) : list string :=
  fold_left (fun cols r => add_columns cols (keys r)) rs [].

Definition known (c : string) (cols : list string) : bool :=
  existsb (String.eqb c) cols.

(** The row order [sort_values] produces. *)
Definition sort_key_of (v : json) : option Q :=
  match as_number v with Num q => Some q | _ => None end.

Definition sorted_rows (c : string) (rs : list dict) : list dict :=
  map snd (fold_right (fun kr => insert_desc (fst kr) (snd kr)) []
                      (map (fun r => (sort_key_of (cell c r), r)) rs)).

Definition is_size (v : json) : bool :=
  match as_number v with NotANumber => false | _ => true end.

Definition is_num (v : json) : bool :=
  match as_number v with Num _ => true | _ => false end.

Definition is_text (v : json) : bool :=
  match v with JStr _ => true | _ => false end.

(** A row that a bar chart of column [c] labelled by column [name] can
    show: a text in [name] and a number in [c]. *)
Definition bar_row (name c : string) (r : dict) : Prop :=
  is_text (cell name r) = true /\ is_num (cell c r) = true.

Definition author_row (r : dict) : Prop :=
  is_text (cell "nombre" r) = true /\
  is_num (cell "publicaciones_total" r) = true /\
  is_num (cell "citas" r) = true.

Definition author_charts : list event :=
  [ERender (path_join VIZ_DIR "autores_mas_productivos.png");
   ERender (path_join VIZ_DIR "autores_mas_citados.png");
   ERender (path_join VIZ_DIR "productividad_vs_impacto.png")].

Definition emit_all (evs : list event) (s : state) : state :=
  fold_left (fun s e => emit e s) evs s.

(** A positive number. *)
Definition is_pos (v : json) : bool :=
  match as_number v with Num q => negb (Qle_bool q 0) | _ => false end.

(** An entry of an open-access or collaboration breakdown. *)
Definition counted (ok : json -> bool) (entry : string * json) : Prop :=
  exists e c p,
    snd entry = JDict e /\ dict_lookup "count" e = Some c /\
    dict_lookup "percentage" e = Some p /\ ok c = true.

Definition field (k : string) (x : json) : json :=
  match x with JDict d => cell k d | _ => JNaN end.

Definition oa_chart : event :=
  ERender (path_join VIZ_DIR "distribucion_tipos_oa.png").

Definition collab_record (entry : string * json) : dict :=
  [("pais", JStr (replace country_prefix "" (fst entry)));
   ("publicaciones", field "count" (snd entry));
   ("porcentaje", field "percentage" (snd entry))].

Definition collab_chart : event :=
  ERender (path_join VIZ_DIR "colaboracion_internacional.png").

(** An entry of [fields_data] that [visualize_fields_data] can draw: a
    name, a positive number of publications and its percentage; the
    open-access fields are optional. *)
Definition area_entry (entry : string * json) : Prop :=
  exists e nombre publicaciones porcentaje,
    snd entry = JDict e /\
    dict_lookup "nombre" e = Some nombre /\ is_text nombre = true /\
    dict_lookup "publicaciones" e = Some publicaciones /\
    is_pos publicaciones = true /\
    dict_lookup "porcentaje" e = Some porcentaje /\ is_num porcentaje = true /\
    (forall v, dict_lookup "porcentaje_oa" e = Some v -> is_num v = true) /\
    (forall st, dict_lookup "oa_status" e = Some st ->
       exists types, st = JDict types /\
         Forall (fun t => exists o p, snd t = JDict o /\
                          dict_lookup "percentage" o = Some p) types).

Definition area_row (r : dict) : Prop :=
  is_text (cell "nombre" r) = true /\
  is_pos (cell "publicaciones" r) = true /\
  is_num (cell "porcentaje" r) = true /\
  is_size (cell "porcentaje_oa" r) = true.

Definition fields_charts (with_oa : bool) : list event :=
  [ERender (path_join VIZ_DIR "areas_conocimiento_principales.png")] ++
  (if with_oa then [ERender (path_join VIZ_DIR "areas_mayor_acceso_abierto.png")]
   else []) ++
  [ERender (path_join VIZ_DIR "distribucion_areas_conocimiento.png")].

(** ** Effects *)

Definition is_get (e : event) : bool :=
  match e with EGet _ _ => true | _ => false end.
Definition is_write (e : event) : bool :=
  match e with EWrite _ _ => true | _ => false end.
Definition is_render (e : event) : bool :=
  match e with ERender _ => true | _ => false end.

(** [safe r]: the result is not a division by zero. *)
Definition safe {A} (r : outcome A) : Prop := r <> Raise ZeroDivisionError.

(** A chart saved under [VIZ_DIR]. *)
Definition is_chart (e : event) : bool :=
  match e with
  | ERender path => String.prefix (VIZ_DIR +:+ "/") path
  | _ => false
  end.

(** [draws n m]: all [m] does to the state is save at most [n] charts
    under [VIZ_DIR], and it never divides by zero. *)
Definition draws (n : nat) {A} (m : M A) : Prop :=
  forall s, exists evs,
    snd (m s) = emit_all evs s /\ forallb is_chart evs = true /\
    (length evs <= n)%nat /\ safe (fst (m s)).

(** ** Breakdowns and percentages *)




(** From [s] to [s'] the API has given no area a count of zero: wherever
    the trace added since [s] holds the request for the count of an area
    of [areas_conocimiento], the answer the API gave to it, knowing the
    requests before it, holds a count other than zero. *)
Definition counts_nonzero (s s' : state) : Prop :=
  forall new area rest results meta count,
    In area areas_conocimiento ->
    trace s' = (trace s ++ new ++ area_request (self s) area :: rest)%list ->
    answer (server (requests_of (trace s ++ new))
                   (query s "works" (Some (area_params (self s) (fst area)))))
      = Ret results ->
    getitem results "meta" = Ret meta ->
    getitem meta "count" = Ret count ->
    is_zero count = false.

(** Every count the API gives for an area while [get_data_by_field] runs
    from [s] is other than zero. *)
Definition area_counts_nonzero (s : state) : Prop :=
  counts_nonzero s (snd (get_data_by_field s)).

(** The shape of what the three percentage-bearing files hold; [R count
    denom pct] relates a percentage to its count and its denominator. *)
Section Shapes.

Variable R : json -> json -> json -> Prop.

Definition breakdown (denom : json) (d : dict) : Prop :=
  Forall (fun kv => exists count pct,
            snd kv = count_entry count pct /\ R count denom pct) d.

Definition area_record (total : json) (e : json) : Prop :=
  exists r count pct,
    e = JDict r /\
    dict_lookup "publicaciones" r = Some count /\
    dict_lookup "porcentaje" r = Some pct /\ R count total pct /\
    (forall pct_oa, dict_lookup "porcentaje_oa" r = Some pct_oa ->
       exists count_oa,
         dict_lookup "publicaciones_oa" r = Some count_oa /\
         R count_oa count pct_oa) /\
    (forall st, dict_lookup "oa_status" r = Some st ->
       exists types, st = JDict types /\ breakdown count types).

Definition area_records (total : json) (d : dict) : Prop :=
  Forall (fun kv => area_record total (snd kv)) d.

End Shapes.

(** [pct] is [(count / denom) * 100] as the code computes it. *)
Definition computed (count denom pct : json) : Prop :=
  percentage_of count denom = Ret pct.

(** [writes_only s s' path P]: the files written between [s] and [s'] are
    writes of [path], with a content that satisfies [P]. *)
Definition writes_only (s s' : state) (path : string) (P : json -> Prop) : Prop :=
  forall p c, In (EWrite p c) (trace s') ->
    In (EWrite p c) (trace s) \/ (p = path /\ P c).

(** [returning r P]: if the run returns a value, the value satisfies [P]. *)
Definition returning {A} (r : outcome A) (P : A -> Prop) : Prop :=
  match r with Ret a => P a | _ => True end.

(** [within count denom pct]: if the count is a number between 0 and its
    denominator, the percentage is a float between 0 and 100. *)
Definition within (count denom pct : json) : Prop :=
  forall c d,
    as_number count = Num c -> as_number denom = Num d ->
    (0 <= c)%Q -> (c <= d)%Q ->
    exists p, pct = JFloat p /\ (0 <= p)%Q /\ (p <= 100)%Q.

Definition with_total (v : json) (s : state) : state :=
  snd (set_total_publications v s).

(** [staged gmin gmax rmax s s']: from [s] to [s'] the method has issued
    its requests (at least one, at most [gmax]), then written at most one
    file, then saved at most [rmax] charts; a chart is saved only after the
    write, and the write comes only after [gmin] requests. *)
Definition staged (gmin gmax rmax : nat) (s s' : state) : Prop :=
  exists gets writes renders,
    trace s' = (trace s ++ gets ++ writes ++ renders)%list /\
    forallb is_get gets = true /\
    forallb is_write writes = true /\
    forallb is_render renders = true /\
    (1 <= length gets <= gmax)%nat /\
    (length writes <= 1)%nat /\
    (length renders <= rmax)%nat /\
    (writes = [] -> renders = []) /\
    (writes <> [] -> (gmin <= length gets)%nat).

(** ** Records of the API and files of earlier steps *)

(** An author record as the API documents it: a name, counts that are
    numbers, an institution that is an object when it is there. *)
Definition author_ok (a : json) : Prop :=
  exists d name,
    a = JDict d /\
    dict_lookup "display_name" d = Some (JStr name) /\
    (forall v, dict_lookup "works_count" d = Some v -> is_num v = true) /\
    (forall v, dict_lookup "cited_by_count" d = Some v -> is_num v = true) /\
    (forall v, dict_lookup "last_known_institution" d = Some v ->
               exists i, v = JDict i).

Definition institution_ok (a : json) : Prop :=
  exists d name,
    a = JDict d /\
    dict_lookup "display_name" d = Some (JStr name) /\
    (forall v, dict_lookup "works_count" d = Some v -> is_num v = true).

(** A 200 response whose body is the JSON object [body]. *)
Definition succeeds (h : http_result) (content : dict) : Prop :=
  exists r, h = Answer r /\ status_code r = 200%Z /\
            body r = Some (JDict content).

Definition unreadable (f : option file) : Prop :=
  f = None \/ f = Some Garbage.

Definition has_key (c : string) (r : dict) : Prop :=
  exists v, dict_lookup c r = Some v.

(** The records [get_top_authors] and [get_top_institutions] save, and the
    entries [get_international_collaboration] saves. *)
Definition saved_author (r : dict) : Prop :=
  has_key "nombre" r /\ has_key "institucion" r /\
  has_key "publicaciones_total" r /\ is_num (cell "citas" r) = true.

Definition saved_institution (r : dict) : Prop :=
  has_key "nombre" r /\ has_key "publicaciones" r /\ has_key "citas" r.

Definition saved_list (P : dict -> Prop) (f : option file) : Prop :=
  unreadable f \/
  exists rows, f = Some (Document (JList (map JDict rows))) /\ Forall P rows.

Definition saved_mapping (f : option file) : Prop :=
  unreadable f \/
  exists d, f = Some (Document (JDict d)) /\ Forall (counted (fun _ => true)) d.

(** [records_or_nothing cs df] has a value. *)
Definition ready (cs : list string) (df : DataFrame) : Prop :=
  exists j, records_or_nothing cs df = Ret j.

Definition no_authors : json * DataFrame * DataFrame :=
  (JList [], DataFrame_empty, DataFrame_empty).

Definition no_institutions : json * DataFrame := (JList [], DataFrame_empty).

Definition no_collaboration : json * DataFrame := (JDict [], DataFrame_empty).

(** The sections of the summary when nothing could be read. *)
Definition default_authors : json :=
  JDict [("total_analizados", JInt 0); ("mas_productivos", JList []);
         ("mas_citados", JList [])].
Definition default_institutions : json :=
  JDict [("total_analizadas", JInt 0); ("mas_productivas", JList [])].
Definition default_collaboration : json :=
  JDict [("total_paises", JInt 0); ("principales_colaboradores", JList [])].

(** ** Sums of percentages *)

(** A group-by item with the string key [fst kc] and the integer count
    [snd kc]. *)
Definition is_item (kc : string * Z) (item : json) : Prop :=
  exists d, item = JDict d /\
            dict_lookup "key" d = Some (JStr (fst kc)) /\
            dict_lookup "count" d = Some (JInt (snd kc)).

(** The percentage the code computes for an integer count. *)
Definition percent (total count : Z) : Q :=
  fl (Qred (fl (Qred (inject_Z count / inject_Z total)) * inject_Z 100)).

(** [100 * count / total], without rounding. *)
Definition share (total count : Z) : Q :=
  (inject_Z count / inject_Z total * 100)%Q.

(** Each rounding by [fl] has a relative error of at most [eps]. *)
Definition rounds_within (eps : Q) : Prop :=
  forall q : Q, (Qabs (fl q - q) <= eps * Qabs q)%Q.

Definition oa_entry (total : Z) (kc : string * Z) : string * json :=
  (fst kc, count_entry (JInt (snd kc)) (JFloat (percent total (snd kc)))).

Definition sumQ (l : list Q) : Q := fold_right Qplus 0%Q l.
Definition sumZ (l : list Z) : Z := fold_right Z.add 0%Z l.

(** The ['percentage'] fields of a breakdown. *)
Definition percentages (d : dict) : list Q :=
  flat_map (fun kv => match field "percentage" (snd kv) with
                      | JFloat p => [p]
                      | _ => []
                      end) d.

(** The API's answer to the second request of [get_oa_stats]. *)
Definition oa_types_answer (s : state) : http_result :=
  server (requests_of (trace (asked s "works" (Some (oa_params (self s))))))
         (query s "works" (Some (oa_types_params (self s)))).

(** ** Effects as events *)

(** What an event does to the state: a write replaces the file and is
    logged, a chart replaces the file at its path and is logged, a request
    is logged. *)
Definition apply_event (s : state) (e : event) : state :=
  match e with
  | EWrite path obj => dumped path obj s
  | _ => emit e s
  end.

Definition replay (evs : list event) (s : state) : state :=
  fold_left apply_event evs s.

Definition endpoints : list string := ["works"; "authors"; "institutions"].

Definition general_path : string := path_join DATA_DIR "metadatos_generales.json".

Definition data_files : list string :=
  [general_path; oa_types_path; fields_path; authors_path; institutions_path;
   collab_path; summary_path].

Definition institutions_chart : event :=
  ERender (path_join VIZ_DIR "instituciones_mas_productivas.png").

(** The files of each method: its JSON file and the charts it saves. *)
Definition oa_files : list string := oa_types_path :: renders_of [oa_chart].
Definition fields_files : list string :=
  fields_path :: renders_of (fields_charts true).
Definition authors_files : list string := authors_path :: renders_of author_charts.
Definition institutions_files : list string :=
  institutions_path :: renders_of [institutions_chart].
Definition collab_files : list string := collab_path :: renders_of [collab_chart].

(** The nine charts under [VIZ_DIR]. *)
Definition chart_files : list string :=
  renders_of ([oa_chart] ++ fields_charts true ++ author_charts ++
              [institutions_chart; collab_chart]).

(** Every file a run of the analysis may write. *)
Definition output_files : list string := (data_files ++ chart_files)%list.

(** A request that goes to one of the API's endpoints, with the email of
    the extractor as ['mailto']. *)
Definition identified (me : extractor) (url : string) (params : dict) : Prop :=
  (exists endpoint, In endpoint endpoints /\ url = url_of me endpoint) /\
  dict_lookup "mailto" params = Some (JStr (email me)).

(** The events a method may cause: identified requests, and writes and
    charts that go to the files [paths]. *)
Definition allowed (paths : list string) (me : extractor) (e : event) : Prop :=
  match e with
  | EGet url params => identified me url params
  | EWrite path _ => In path paths
  | ERender path => In path paths
  end.

(** [performs paths m]: all [m] does to the state is cause allowed events;
    [self] is left as it is. *)
Definition performs (paths : list string) {A} (m : M A) : Prop :=
  forall s, exists evs,
    snd (m s) = replay evs s /\ Forall (allowed paths (self s)) evs.

(** The fields of [self] set by [__init__] and never assigned again. *)
Definition same_identity (a b : extractor) : Prop :=
  email a = email b /\ base_url a = base_url b /\
  current_year a = current_year b /\ five_years_ago a = five_years_ago b /\
  period a = period b.

(** Every file outside [paths] is as it was. *)
Definition untouched (paths : list string) (s s' : state) : Prop :=
  forall p, ~ In p paths -> files s' !! p = files s !! p.

Definition count (f : event -> bool) (evs : list event) : nat :=
  length (List.filter f evs).

(** [performs_total paths m]: like [performs], but [m] may also assign
    [self.total_publications]. *)
Definition performs_total (paths : list string) {A} (m : M A) : Prop :=
  forall s, exists evs t,
    snd (m s) = replay evs (with_total t s) /\ Forall (allowed paths (self s)) evs.

(** From [s] to [s'] the trace has grown, and every request added is
    identified. *)
Definition requests_identified (s s' : state) : Prop :=
  exists evs,
    trace s' = (trace s ++ evs)%list /\
    forall url params, In (EGet url params) evs -> identified (self s) url params.

(** [reads m]: [m] leaves the state as it is. *)
Definition reads {A} (m : M A) : Prop := forall s, snd (m s) = s.

(** From [s] to [s'] the trace has grown by between [gmin] and [gmax]
    requests, at most [w] writes and at most [r] charts. *)
Definition spends (gmin gmax w r : nat) (s s' : state) : Prop :=
  exists evs,
    trace s' = (trace s ++ evs)%list /\
    (gmin <= count is_get evs <= gmax)%nat /\
    (count is_write evs <= w)%nat /\
    (count is_render evs <= r)%nat.

(** ** Answers of the API *)

(** What [get_general_stats] saves for a count. *)
Definition metadata (me : extractor) (count : json) : json :=
  JDict [("total_publicaciones", count); ("periodo", JStr (period me));
         ("fecha_consulta", JStr today)].

(** The API gave no answer, or a 200 answer whose body is not JSON. *)
Definition broken (h : http_result) (e : exn) : Prop :=
  (h = NoAnswer /\ e = ConnectionError) \/
  (exists r, h = Answer r /\ status_code r = 200%Z /\ body r = None /\
             e = JSONDecodeError).

(** The state [get_general_stats] leaves. *)
Definition after_general_stats (s : state) : state := snd (get_general_stats s).

(** The first area of [areas_conocimiento]. *)
Definition first_area : string := "https://openalex.org/C41008148".

(** [never_divides m]: no run of [m] ends in a division by zero. *)
Definition never_divides {A} (m : M A) : Prop := forall s, safe (fst (m s)).

(** ** Saved records *)

Definition author_keys : list string :=
  ["id"; "nombre"; "orcid"; "institucion"; "institucion_id";
   "publicaciones_total"; "citas"].

Definition institution_keys : list string :=
  ["id"; "nombre"; "tipo"; "publicaciones"; "citas"].

(** A list of records, each with the keys [ks] in this order. *)
Definition records_with (ks : list string) (v : json) : Prop :=
  exists rows, v = JList (map JDict rows) /\ Forall (fun r => keys r = ks) rows.

(** A record of the API whose ['last_known_institution'] is there and is
    not an object ([null], say). *)
Definition bad_institution (a : json) : Prop :=
  exists d v,
    a = JDict d /\ dict_lookup "last_known_institution" d = Some v /\
    forall i, v <> JDict i.

(** ** The summary *)

(** [df[cs].to_dict('records')] for one row. *)
Definition project (cs : list string) (r : dict) : json :=
  JDict (map (fun c => (c, cell c r)) cs).

(** A saved author with a name, an institution and integer counts. *)
Definition plain_author (r : dict) : Prop :=
  exists nombre institucion publicaciones citas,
    dict_lookup "nombre" r = Some (JStr nombre) /\
    dict_lookup "institucion" r = Some (JStr institucion) /\
    dict_lookup "publicaciones_total" r = Some (JInt publicaciones) /\
    dict_lookup "citas" r = Some (JInt citas).

Definition citas_of (x : json) : Z :=
  match field "citas" x with JInt n => n | _ => 0%Z end.

(** No element is followed by one with a greater [f]. *)
Fixpoint descending {A} (f : A -> Z) (l : list A) : Prop :=
  match l with
  | [] => True
  | x :: l' => Forall (fun y => (f y <= f x)%Z) l' /\ descending f l'
  end.

(** The keys [sort_values] orders the rows by, highest first. *)
Fixpoint descending_keys (l : list (option Q * dict)) : Prop :=
  match l with
  | [] => True
  | kr :: l' =>
      Forall (fun kr' => key_gt (fst kr') (fst kr) = false) l' /\ descending_keys l'
  end.

(** [old] occurs in [s]. *)
Fixpoint occurs (old s : string) : bool :=
  match s with
  | EmptyString => false
  | String _ s' => String.prefix old s || occurs old s'
  end.

(** The rows of a table with their sort keys, as [sort_values] orders
    them. *)
Definition keyed (c : string) (rs : list dict) : list (option Q * dict) :=
  fold_right (fun kr => insert_desc (fst kr) (snd kr)) []
             (map (fun r => (sort_key_of (cell c r), r)) rs).

(** The value [create_summary_analysis] builds from its seven parts. *)
Definition summary (total_analizados mas_productivos mas_citados
                    total_analizadas mas_productivas
                    total_paises principales_colaboradores : json) : json :=
  JDict [("autores_destacados",
          JDict [("total_analizados", total_analizados);
                 ("mas_productivos", mas_productivos);
                 ("mas_citados", mas_citados)]);
         ("instituciones_destacadas",
          JDict [("total_analizadas", total_analizadas);
                 ("mas_productivas", mas_productivas)]);
         ("colaboracion_internacional",
          JDict [("total_paises", total_paises);
                 ("principales_colaboradores", principales_colaboradores)])].

(** An entry of the collaboration file with an integer count and a float
    percentage. *)
Definition plain_country (entry : string * json) : Prop :=
  exists e count percentage,
    snd entry = JDict e /\ dict_lookup "count" e = Some (JInt count) /\
    dict_lookup "percentage" e = Some (JFloat percentage).

(** ** The data by area *)

(** An entry of [fields_data]: its key is the id of one of [areas], and it
    holds the name of that area, a count and a percentage. *)
Definition area_named (areas : list (string * string)) (kv : string * json) : Prop :=
  exists nombre e,
    In (fst kv, nombre) areas /\ snd kv = JDict e /\
    dict_lookup "nombre" e = Some (JStr nombre) /\
    has_key "publicaciones" e /\ has_key "porcentaje" e.

Definition areas_named (areas : list (string * string)) (d : dict) : Prop :=
  Forall (area_named areas) d /\ List.NoDup (keys d).

(** ** The pie of the areas *)

(** The row that stands for the areas after the eighth. *)
Definition other_areas_row (sum_pubs sum_pcts : json) : dict :=
  [("nombre", JStr "Otras áreas"); ("publicaciones", sum_pubs);
   ("porcentaje", sum_pcts)].

(** The table the last chart of [visualize_fields_data] shows: all the
    areas when there are at most eight, else the first eight and one row
    for the rest. *)
Definition pie_data (df_areas : DataFrame) : outcome DataFrame :=
  if (8 <? length (rows df_areas))%nat then
    let rest := {| columns := columns df_areas; rows := skipn 8 (rows df_areas) |} in
    rest_pubs <-- column "publicaciones" rest ;;
    sum_pubs <-- series_sum rest_pubs ;;
    rest_pcts <-- column "porcentaje" rest ;;
    sum_pcts <-- series_sum rest_pcts ;;
    other_areas <-- DataFrame_of [JDict (other_areas_row sum_pubs sum_pcts)] ;;
    Ret (concat (head 8 df_areas) other_areas)
  else Ret df_areas.

(** The sum of the sizes a pie of column [c] shows. *)
Definition pie_total (c : string) (df : DataFrame) : Q :=
  total_size (map as_number (map (cell c) (rows df))).

(** A group-by item keyed by the home country. *)
Definition home_item (item : json) : Prop :=
  exists d, item = JDict d /\ dict_lookup "key" d = Some (JStr "EC").

(** ** An API that answers well *)

(** A 200 answer with a positive integer count. *)
Definition good_count (h : http_result) : Prop :=
  exists content meta count,
    succeeds h content /\ dict_lookup "meta" content = Some (JDict meta) /\
    dict_lookup "count" meta = Some (JInt count) /\ (0 < count)%Z.

(** A 200 answer with a breakdown: items with distinct string keys and
    positive integer counts, one of them at least for a key other than
    ['EC']. *)
Definition good_groups (h : http_result) : Prop :=
  exists content group kcs,
    succeeds h content /\ dict_lookup "group_by" content = Some (JList group) /\
    Forall2 is_item kcs group /\ List.NoDup (map fst kcs) /\
    Forall (fun kc => (0 < snd kc)%Z) kcs /\
    Exists (fun kc => String.eqb (fst kc) "EC" = false) kcs.

(** A 200 answer with at least one record, all of them well-formed. *)
Definition good_records (ok : json -> Prop) (h : http_result) : Prop :=
  exists content a l,
    succeeds h content /\ dict_lookup "results" content = Some (JList (a :: l)) /\
    Forall ok (a :: l).

(** The API at [base] answers every request well, whatever came before:
    a count for a query of works without ['group_by'], a breakdown for
    one with it, records for authors and for institutions. *)
Definition good_api (base : string) : Prop :=
  forall h params,
    (dict_lookup "group_by" params = None ->
     good_count (server h (base +:+ "/" +:+ "works", params))) /\
    (is_some (dict_lookup "group_by" params) = true ->
     good_groups (server h (base +:+ "/" +:+ "works", params))) /\
    good_records author_ok (server h (base +:+ "/" +:+ "authors", params)) /\
    good_records institution_ok (server h (base +:+ "/" +:+ "institutions", params)).

(** [m] returns from [s], and leaves in [path] a document that satisfies
    [P]. *)
Definition completes (path : string) (P : json -> Prop) {A} (m : M A) (s : state)
  : Prop :=
  exists a j, fst (m s) = Ret a /\
              files (snd (m s)) !! path = Some (Document j) /\ P j.

Definition any_document (j : json) : Prop := True.

Definition saved_authors (j : json) : Prop :=
  exists rows, j = JList (map JDict rows) /\ Forall saved_author rows.

Definition saved_institutions (j : json) : Prop :=
  exists rows, j = JList (map JDict rows) /\ Forall saved_institution rows.

Definition saved_countries (j : json) : Prop :=
  exists d, j = JDict d /\ Forall (counted (fun _ => true)) d.

(** The keys of a breakdown other than ['EC']. *)
Definition abroad (kcs : list (string * Z)) : list (string * Z) :=
  List.filter (fun kc => negb (String.eqb (fst kc) "EC")) kcs.

(** ** The colours and the legend of [visualize_oa_types] *)

Definition CEDIA_COLORS : dict :=
  [("dark_blue", JStr "#1D3A54"); ("turquoise", JStr "#4FBCCC");
   ("medium_blue", JStr "#2A4C8C"); ("light_blue", JStr "#3866CA");
   ("green", JStr "#8CC63F"); ("orange", JStr "#F7941D")].

(** The dict [colors] of [visualize_oa_types]. *)
Definition colors : outcome dict :=
  gold <-- getitem (JDict CEDIA_COLORS) "orange" ;;
  hybrid <-- getitem (JDict CEDIA_COLORS) "turquoise" ;;
  diamond <-- getitem (JDict CEDIA_COLORS) "green" ;;
  green <-- getitem (JDict CEDIA_COLORS) "light_blue" ;;
  closed <-- getitem (JDict CEDIA_COLORS) "dark_blue" ;;
  Ret [("gold", gold); ("hybrid", hybrid); ("diamond", diamond);
       ("green", green); ("bronze", JStr "#CD7F32"); ("closed", closed)].

(** [[colors.get(label, '#CCCCCC') for label in labels]]. *)
Definition pie_colors (labels : list string) : outcome (list json) :=
  cs <-- colors ;;
  omap (fun label => get (JDict cs) label (JStr "#CCCCCC")) labels.

Definition legend_labels : dict :=
  [("gold", JStr "Gold: Publicado en revista de acceso abierto con APC");
   ("hybrid", JStr "Hybrid: Publicado en revista de suscripción con opción OA");
   ("diamond", JStr "Diamond: Publicado en revista de acceso abierto sin APC");
   ("green", JStr "Green: Versión de autor disponible en repositorio");
   ("bronze", JStr "Bronze: Disponible en web de editor sin licencia clara");
   ("closed", JStr "Closed: Acceso restringido por suscripción")].

(** [[key for key in legend_labels.keys() if key in labels]]. *)
Definition legend_keys (labels : list string) : list string :=
  List.filter (fun key => existsb (String.eqb key) labels) (keys legend_labels).

(** The colours of [custom_lines], and [custom_labels]. *)
Definition custom_lines (labels : list string) : outcome (list json) :=
  cs <-- colors ;;
  omap (fun key => getitem (JDict cs) key) (legend_keys labels).

Definition custom_labels (labels : list string) : outcome (list json) :=
  omap (fun key => getitem (JDict legend_labels) key) (legend_keys labels).

Definition known_type (label : string) : bool :=
  existsb (String.eqb label) (keys legend_labels).

(** * Properties *)

(** ** Dictionaries *)

Lemma dict_lookup_set_eq (d : dict) k v :
  dict_lookup k (dict_set d k v) = Some v.
Proof.
  induction d as [|[k' v'] d IH]; simpl.
  - now rewrite String.eqb_refl.
  - destruct (String.eqb k k') eqn:E; simpl; rewrite E; auto.
Qed.

Lemma dict_lookup_set_ne (d : dict) k k' v :
  k' <> k -> dict_lookup k' (dict_set d k v) = dict_lookup k' d.
Proof.
  intros Hne. induction d as [|[k0 v0] d IH]; simpl.
  - destruct (String.eqb k' k) eqn:E; auto.
    apply String.eqb_eq in E. contradiction.
  - destruct (String.eqb k k0) eqn:E; simpl.
    + apply String.eqb_eq in E. subst k0.
      destruct (String.eqb k' k) eqn:E'; auto.
      apply String.eqb_eq in E'. contradiction.
    + now rewrite IH.
Qed.

(** ** Running a method step by step *)

Lemma query_api_run endpoint params s :
  query_api endpoint params s =
  (answer (server (requests_of (trace s)) (query s endpoint params)),
   asked s endpoint params).
Proof.
  unfold query_api, bind, get_self, requests_get, query, asked, url_of, sent_params.
  destruct (server _ _) as [r|]; simpl; [|reflexivity].
  destruct (status_code r =? 200)%Z; reflexivity.
Qed.

Lemma bind_run {A B} (m : M A) (k : A -> M B) s :
  bind m k s =
  match m s with
  | (Ret a, s') => k a s'
  | (Raise e, s') => (Raise e, s')
  | (Unmodelled, s') => (Unmodelled, s')
  end.
Proof. reflexivity. Qed.

Lemma bind_lift {A B} (r : outcome A) (k : A -> M B) s :
  bind (lift r) k s =
  match r with
  | Ret a => k a s
  | Raise e => (Raise e, s)
  | Unmodelled => (Unmodelled, s)
  end.
Proof. unfold bind, lift. now destruct r. Qed.

Lemma bind_get_self {B} (k : extractor -> M B) s :
  bind get_self k s = k (self s) s.
Proof. reflexivity. Qed.

Lemma bind_query {B} endpoint params (k : json -> M B) s :
  bind (query_api endpoint params) k s =
  match answer (server (requests_of (trace s)) (query s endpoint params)) with
  | Ret j => k j (asked s endpoint params)
  | Raise e => (Raise e, asked s endpoint params)
  | Unmodelled => (Unmodelled, asked s endpoint params)
  end.
Proof. unfold bind at 1. rewrite query_api_run. now destruct (answer _). Qed.

Lemma bind_dump {B} path obj (k : unit -> M B) s :
  bind (json_dump path obj) k s = k tt (dumped path obj s).
Proof. reflexivity. Qed.

Lemma bind_savefig {B} path (k : unit -> M B) s :
  bind (savefig path) k s = k tt (emit (ERender path) s).
Proof. reflexivity. Qed.

Lemma answer_fails h : fails h -> answer h = Ret JNull.
Proof.
  intros (r & -> & Hr). unfold answer.
  destruct (status_code r =? 200)%Z eqn:E; [|reflexivity].
  apply Z.eqb_eq in E. contradiction.
Qed.

(** ** Loops over lists *)

Lemma omap_map {A B} (f : A -> outcome B) (g : A -> B) l :
  Forall (fun a => f a = Ret (g a)) l -> omap f l = Ret (map g l).
Proof.
  induction 1 as [|a l Ha _ IH]; simpl; [reflexivity|].
  now rewrite Ha, IH.
Qed.

Lemma omap_length {A B} (f : A -> outcome B) l bs :
  omap f l = Ret bs -> length bs = length l.
Proof.
  revert bs. induction l as [|a l IH]; simpl; intros bs H.
  - now inversion H.
  - destruct (f a); try discriminate. simpl in H.
    destruct (omap f l) as [bs'| |]; try discriminate. inversion H. simpl.
    now rewrite (IH bs').
Qed.

Lemma Forall_firstn {A} (P : A -> Prop) n l :
  Forall P l -> Forall P (firstn n l).
Proof.
  intros H. revert n. induction H; intros [|n]; simpl; auto.
Qed.

Lemma Forall_skipn {A} (P : A -> Prop) n l :
  Forall P l -> Forall P (skipn n l).
Proof.
  intros H. revert n. induction H; intros [|n]; simpl; auto.
Qed.

(** ** Tables *)

Lemma DataFrame_of_records (rs : list dict) :
  DataFrame_of (map JDict rs) = Ret {| columns := columns_of rs; rows := rs |}.
Proof.
  unfold DataFrame_of.
  assert (E : omap as_record (map JDict rs) = Ret rs).
  { induction rs as [|r rs IH]; simpl; [reflexivity|]. now rewrite IH. }
  now rewrite E.
Qed.

Lemma known_app c cols cols' :
  known c (cols ++ cols') = known c cols || known c cols'.
Proof. apply existsb_app. Qed.

Lemma add_columns_keeps c ks cols :
  known c cols = true -> known c (add_columns cols ks) = true.
Proof.
  revert cols. induction ks as [|k ks IH]; simpl; intros cols H; [assumption|].
  apply IH. destruct (existsb (String.eqb k) cols); [assumption|].
  rewrite known_app, H. reflexivity.
Qed.

Lemma add_columns_adds c ks cols :
  In c ks -> known c (add_columns cols ks) = true.
Proof.
  revert cols. induction ks as [|k ks IH]; simpl; intros cols Hc;
    [contradiction|destruct Hc as [Hc|Hc]].
  - subst k. apply add_columns_keeps.
    destruct (existsb (String.eqb c) cols) eqn:E; [exact E|].
    rewrite known_app. simpl. rewrite String.eqb_refl.
    now rewrite orb_true_r.
  - now apply IH.
Qed.

Lemma fold_columns_keeps c (rs : list dict) cols :
  known c cols = true ->
  known c (fold_left (fun cols r => add_columns cols (keys r)) rs cols) = true.
Proof.
  revert cols. induction rs as [|r rs IH]; simpl; intros cols H; [assumption|].
  apply IH. now apply add_columns_keeps.
Qed.

Lemma dict_lookup_key c (r : dict) v :
  dict_lookup c r = Some v -> In c (keys r).
Proof.
  induction r as [|[k w] r IH]; simpl; [discriminate|].
  destruct (String.eqb c k) eqn:E.
  - apply String.eqb_eq in E. auto.
  - auto.
Qed.

(** A key some record holds is a column of the table. *)
Lemma columns_of_known c (rs : list dict) r v :
  In r rs -> dict_lookup c r = Some v -> known c (columns_of rs) = true.
Proof.
  unfold columns_of. generalize (@nil string).
  induction rs as [|r0 rs IH]; simpl; intros cols Hr Hc;
    [contradiction|destruct Hr as [Hr|Hr]].
  - subst r0. apply fold_columns_keeps, add_columns_adds.
    now apply dict_lookup_key with v.
  - now apply IH.
Qed.

Lemma sort_values_run c df :
  has_column c df = true ->
  Forall (fun r => is_size (cell c r) = true) (rows df) ->
  sort_values c df = Ret {| columns := columns df; rows := sorted_rows c (rows df) |}.
Proof.
  intros Hc Hrows. unfold sort_values. rewrite Hc.
  rewrite (omap_map _ (fun r => (sort_key_of (cell c r), r))).
  - reflexivity.
  - eapply List.Forall_impl; [|exact Hrows]. simpl. intros r Hr.
    unfold sort_key, sort_key_of, is_size in *.
    now destruct (as_number (cell c r)).
Qed.

Lemma sort_values_missing c df :
  has_column c df = false -> sort_values c df = Raise (KeyError c).
Proof. intros H. unfold sort_values. now rewrite H. Qed.

Lemma insert_desc_Forall (P : dict -> Prop) k r l :
  P r -> Forall P (map snd l) -> Forall P (map snd (insert_desc k r l)).
Proof.
  intros Hr. induction l as [|[k' r'] l IH]; simpl; intros Hl.
  - auto.
  - inversion Hl; subst. destruct (key_gt k' k); simpl; auto.
Qed.

Lemma insert_desc_length k r l :
  length (insert_desc k r l) = S (length l).
Proof.
  induction l as [|[k' r'] l IH]; simpl; [reflexivity|].
  destruct (key_gt k' k); simpl; auto.
Qed.

Lemma sorted_rows_Forall (P : dict -> Prop) c rs :
  Forall P rs -> Forall P (sorted_rows c rs).
Proof.
  unfold sorted_rows. induction 1 as [|r rs Hr _ IH]; simpl; [constructor|].
  now apply insert_desc_Forall.
Qed.

Lemma sorted_rows_length c rs : length (sorted_rows c rs) = length rs.
Proof.
  unfold sorted_rows. rewrite length_map.
  induction rs as [|r rs IH]; simpl; [reflexivity|].
  now rewrite insert_desc_length, IH.
Qed.

Lemma column_run c df :
  has_column c df = true -> column c df = Ret (map (cell c) (rows df)).
Proof. intros H. unfold column. now rewrite H. Qed.

Lemma barh_run (labels widths : list json) :
  Forall (fun v => is_text v = true) labels ->
  Forall (fun v => is_size v = true) widths ->
  barh labels widths = Ret (map as_number widths).
Proof.
  intros Hl Hw. unfold barh.
  rewrite (omap_map _ (fun v => match v with JStr s => s | _ => "" end)).
  - simpl. apply omap_map. eapply List.Forall_impl; [|exact Hw].
    simpl. intros v Hv. unfold as_size, is_size in *.
    now destruct (as_number v).
  - eapply List.Forall_impl; [|exact Hl]. simpl. intros v Hv. now destruct v.
Qed.

Lemma int_labels_run (widths : list json) :
  Forall (fun v => is_num v = true) widths ->
  int_labels (map as_number widths) = Ret tt.
Proof.
  intros H. unfold int_labels.
  replace (existsb _ (map as_number widths)) with false; [reflexivity|].
  symmetry. induction H as [|v l Hv _ IH]; simpl; [reflexivity|].
  unfold is_num in Hv. destruct (as_number v); try discriminate. exact IH.
Qed.

Lemma scatter_run (xs ys : list json) :
  Forall (fun v => is_size v = true) xs ->
  Forall (fun v => is_size v = true) ys ->
  scatter xs ys = Ret tt.
Proof.
  intros Hx Hy. unfold scatter.
  assert (E : forall l, Forall (fun v => is_size v = true) l ->
                        omap as_size l = Ret (map as_number l)).
  { intros l Hl. apply omap_map. eapply List.Forall_impl; [|exact Hl].
    simpl. intros v Hv. unfold as_size, is_size in *. now destruct (as_number v). }
  now rewrite (E xs Hx), (E ys Hy).
Qed.

Lemma is_num_size v : is_num v = true -> is_size v = true.
Proof. unfold is_num, is_size. now destruct (as_number v). Qed.

Lemma cell_num_present c r :
  is_num (cell c r) = true -> exists v, dict_lookup c r = Some v.
Proof.
  unfold cell. destruct (dict_lookup c r) as [v|]; [eauto|discriminate].
Qed.

Lemma cell_text_present c r :
  is_text (cell c r) = true -> exists v, dict_lookup c r = Some v.
Proof.
  unfold cell. destruct (dict_lookup c r) as [v|]; [eauto|discriminate].
Qed.

Lemma has_column_num c (rs : list dict) r :
  In r rs -> is_num (cell c r) = true -> known c (columns_of rs) = true.
Proof.
  intros Hr Hc. destruct (cell_num_present _ _ Hc) as [v Hv].
  eapply columns_of_known; eauto.
Qed.

Lemma has_column_text c (rs : list dict) r :
  In r rs -> is_text (cell c r) = true -> known c (columns_of rs) = true.
Proof.
  intros Hr Hc. destruct (cell_text_present _ _ Hc) as [v Hv].
  eapply columns_of_known; eauto.
Qed.

Lemma Forall_cells (P : json -> Prop) c (rs : list dict) :
  Forall (fun r => P (cell c r)) rs -> Forall P (map (cell c) rs).
Proof. induction 1; simpl; auto. Qed.

Lemma bar_row_name name c rs :
  Forall (bar_row name c) rs -> Forall (fun v => is_text v = true) (map (cell name) rs).
Proof.
  intros H. apply Forall_cells. eapply List.Forall_impl; [|exact H].
  now intros r [? ?].
Qed.

Lemma bar_row_num name c rs :
  Forall (bar_row name c) rs -> Forall (fun v => is_num v = true) (map (cell c) rs).
Proof.
  intros H. apply Forall_cells. eapply List.Forall_impl; [|exact H].
  now intros r [? ?].
Qed.

Lemma bar_row_size name c rs :
  Forall (bar_row name c) rs -> Forall (fun v => is_size v = true) (map (cell c) rs).
Proof.
  intros H. apply Forall_cells. eapply List.Forall_impl; [|exact H].
  intros r [? ?]. now apply is_num_size.
Qed.

Lemma bar_row_sortable name c rs :
  Forall (bar_row name c) rs -> Forall (fun r => is_size (cell c r) = true) rs.
Proof.
  intros H. eapply List.Forall_impl; [|exact H].
  intros r [? ?]. now apply is_num_size.
Qed.

Lemma bar_row_columns name c r rs :
  Forall (bar_row name c) (r :: rs) ->
  known name (columns_of (r :: rs)) = true /\ known c (columns_of (r :: rs)) = true.
Proof.
  intros H. inversion H as [|? ? [Hn Hc] _]; subst. split.
  - eapply has_column_text; [left; reflexivity|exact Hn].
  - eapply has_column_num; [left; reflexivity|exact Hc].
Qed.

(** ** Rendering succeeds on well-formed, non-empty input *)

Lemma visualize_top_institutions_run (r : dict) (rs : list dict) s :
  Forall (bar_row "nombre" "publicaciones") (r :: rs) ->
  visualize_top_institutions (JList (map JDict (r :: rs))) s =
  (Ret tt, emit (ERender (path_join VIZ_DIR "instituciones_mas_productivas.png")) s).
Proof.
  intros H. destruct (bar_row_columns _ _ _ _ H) as [Hname Hpub].
  unfold visualize_top_institutions.
  rewrite bind_lift. unfold DataFrame_from. rewrite DataFrame_of_records.
  rewrite bind_lift, sort_values_run by (try exact Hpub; now apply bar_row_sortable with "nombre").
  cbv zeta.
  assert (Hrows : Forall (bar_row "nombre" "publicaciones")
            (firstn 10 (sorted_rows "publicaciones" (r :: rs))))
    by now apply Forall_firstn, sorted_rows_Forall.
  rewrite bind_lift, column_run by exact Hname.
  rewrite bind_lift, column_run by exact Hpub.
  simpl rows.
  rewrite bind_lift, barh_run
    by (try (now apply bar_row_name with "publicaciones");
        now apply bar_row_size with "nombre").
  rewrite bind_lift, int_labels_run by now apply bar_row_num with "nombre".
  reflexivity.
Qed.

Lemma author_row_bars rs :
  Forall author_row rs ->
  Forall (bar_row "nombre" "publicaciones_total") rs /\
  Forall (bar_row "nombre" "citas") rs.
Proof.
  intros H. split; (eapply List.Forall_impl; [|exact H]);
    intros r (? & ? & ?); split; assumption.
Qed.

Lemma visualize_top_authors_run (r : dict) (rs : list dict) s :
  Forall author_row (r :: rs) ->
  visualize_top_authors (JList (map JDict (r :: rs))) s =
  (Ret tt, emit_all author_charts s).
Proof.
  intros H. destruct (author_row_bars _ H) as [Hp Hc].
  destruct (bar_row_columns _ _ _ _ Hp) as [Hname Hpub].
  destruct (bar_row_columns _ _ _ _ Hc) as [_ Hcit].
  unfold visualize_top_authors.
  rewrite bind_lift. unfold DataFrame_from. rewrite DataFrame_of_records.
  rewrite bind_lift, (sort_values_run "publicaciones_total")
    by (try exact Hpub; now apply bar_row_sortable with "nombre").
  cbv zeta.
  set (top := firstn 15 (sorted_rows "publicaciones_total" (r :: rs))).
  assert (Htop : Forall author_row top)
    by now apply Forall_firstn, sorted_rows_Forall.
  destruct (author_row_bars _ Htop) as [Htp Htc].
  rewrite bind_lift, (column_run "nombre") by exact Hname.
  rewrite bind_lift, (column_run "publicaciones_total") by exact Hpub.
  simpl rows. fold top.
  rewrite bind_lift, barh_run
    by (try (now apply bar_row_name with "publicaciones_total");
        now apply bar_row_size with "nombre").
  rewrite bind_lift, int_labels_run by now apply bar_row_num with "nombre".
  rewrite bind_savefig.
  rewrite bind_lift, (sort_values_run "citas")
    by (try exact Hcit; now apply bar_row_sortable with "nombre").
  simpl rows. fold top.
  set (cited := firstn 15 (sorted_rows "citas" top)).
  assert (Hcited : Forall author_row cited)
    by now apply Forall_firstn, sorted_rows_Forall.
  destruct (author_row_bars _ Hcited) as [_ Hcc].
  rewrite bind_lift, (column_run "nombre") by exact Hname.
  rewrite bind_lift, (column_run "citas") by exact Hcit.
  simpl rows. fold cited.
  rewrite bind_lift, barh_run
    by (try (now apply bar_row_name with "citas");
        now apply bar_row_size with "nombre").
  rewrite bind_lift, int_labels_run by now apply bar_row_num with "nombre".
  rewrite bind_savefig.
  rewrite bind_lift.
  rewrite bind_lift, (column_run "citas") by exact Hcit.
  simpl rows. fold top.
  rewrite bind_lift, scatter_run
    by (try (now apply bar_row_size with "nombre")).
  reflexivity.
Qed.

Lemma is_pos_num v : is_pos v = true -> is_num v = true.
Proof. unfold is_pos, is_num. now destruct (as_number v). Qed.

Lemma is_pos_lt v :
  is_pos v = true -> exists q, as_number v = Num q /\ (0 < q)%Q.
Proof.
  unfold is_pos. destruct (as_number v) as [q| |]; try discriminate.
  intros H. exists q. split; [reflexivity|].
  apply Qnot_le_lt. intros Hle. apply Qle_bool_iff in Hle.
  rewrite Hle in H. discriminate.
Qed.

Lemma total_size_nonneg (sizes : list json) :
  Forall (fun v => is_pos v = true) sizes ->
  (0 <= total_size (map as_number sizes))%Q.
Proof.
  induction 1 as [|v l Hv _ IH]; simpl; [apply Qle_refl|].
  destruct (is_pos_lt _ Hv) as [q [-> Hq]].
  apply Qlt_le_weak in Hq.
  replace 0%Q with (0 + 0)%Q by reflexivity. now apply Qplus_le_compat.
Qed.

Lemma total_size_pos (v : json) (sizes : list json) :
  Forall (fun v => is_pos v = true) (v :: sizes) ->
  (0 < total_size (map as_number (v :: sizes)))%Q.
Proof.
  intros H. inversion H as [|? ? Hv Hl]; subst. simpl.
  destruct (is_pos_lt _ Hv) as [q [-> Hq]].
  apply Qlt_le_trans with (q + 0)%Q.
  - now rewrite Qplus_0_r.
  - apply Qplus_le_compat; [apply Qle_refl|now apply total_size_nonneg].
Qed.

Lemma pie_run (sizes labels : list json) :
  Forall (fun v => is_pos v = true) sizes -> sizes <> [] -> pie sizes labels = Ret tt.
Proof.
  intros H Hne. destruct sizes as [|v sizes]; [congruence|]. clear Hne. unfold pie.
  rewrite (omap_map _ as_number).
  2:{ eapply List.Forall_impl; [|exact H]. simpl. intros w Hw.
      apply is_pos_num in Hw. unfold as_size, is_num in *.
      now destruct (as_number w). }
  cbn [obind].
  assert (Hneg : existsb (fun n => match n with
                                   | Num q => negb (Qle_bool 0 q)
                                   | _ => false
                                   end) (map as_number (v :: sizes)) = false).
  { induction H as [|w l Hw _ IH]; simpl; [reflexivity|].
    destruct (is_pos_lt _ Hw) as [q [-> Hq]]. rewrite IH.
    apply Qlt_le_weak, Qle_bool_iff in Hq. now rewrite Hq. }
  rewrite Hneg.
  assert (Hnum : existsb (fun n => match n with Num _ => false | _ => true end)
                         (map as_number (v :: sizes)) = false).
  { clear Hneg. induction H as [|w l Hw _ IH]; simpl in *; [reflexivity|].
    destruct (is_pos_lt _ Hw) as [q [-> Hq]]. exact IH. }
  rewrite Hnum.
  destruct (Qeq_bool _ 0) eqn:E; [|reflexivity].
  apply Qeq_bool_iff in E. pose proof (total_size_pos _ _ H) as Hp.
  rewrite E in Hp. now apply Qlt_irrefl in Hp.
Qed.

Lemma counted_count ok entry :
  counted ok entry ->
  getitem (snd entry) "count" = Ret (field "count" (snd entry)) /\
  getitem (snd entry) "percentage" = Ret (field "percentage" (snd entry)) /\
  ok (field "count" (snd entry)) = true.
Proof.
  intros (e & c & p & -> & Hc & Hp & Hok). unfold field, cell. simpl.
  now rewrite Hc, Hp.
Qed.

Lemma visualize_oa_types_run entry (d : dict) s :
  Forall (counted is_pos) (entry :: d) ->
  visualize_oa_types (JDict (entry :: d)) s = (Ret tt, emit oa_chart s).
Proof.
  intros H. unfold visualize_oa_types.
  rewrite bind_lift. cbn [items]. cbv zeta.
  rewrite bind_lift.
  rewrite (omap_map _ (field "count")).
  2:{ unfold values. apply Forall_map. eapply List.Forall_impl; [|exact H].
      intros e He. now destruct (counted_count _ _ He) as (? & _ & _). }
  rewrite bind_lift, pie_run; [reflexivity| |discriminate].
  unfold values. rewrite Forall_map. apply Forall_map.
  eapply List.Forall_impl; [|exact H].
  intros e He. now destruct (counted_count _ _ He) as (_ & _ & ?).
Qed.

Lemma collab_row_run entry :
  counted is_num entry ->
  collab_row entry = Ret (JDict (collab_record entry)) /\
  bar_row "pais" "publicaciones" (collab_record entry).
Proof.
  intros H. destruct (counted_count _ _ H) as (Hc & Hp & Hok).
  destruct entry as [country data]. simpl in *. unfold collab_row.
  rewrite Hc, Hp. simpl. split; [reflexivity|]. split; [reflexivity|exact Hok].
Qed.

Lemma visualize_international_collaboration_run entry (d : dict) s :
  Forall (counted is_num) (entry :: d) ->
  visualize_international_collaboration (JDict (entry :: d)) s =
  (Ret tt, emit collab_chart s).
Proof.
  intros H. unfold visualize_international_collaboration.
  rewrite bind_lift. cbn [items].
  assert (Hrows : Forall (bar_row "pais" "publicaciones")
                         (map collab_record (entry :: d))).
  { apply Forall_map. eapply List.Forall_impl; [|exact H].
    intros e He. now destruct (collab_row_run _ He). }
  rewrite bind_lift.
  rewrite (omap_map _ (fun e => JDict (collab_record e))).
  2:{ eapply List.Forall_impl; [|exact H].
      intros e He. now destruct (collab_row_run _ He). }
  rewrite <- map_map.
  rewrite bind_lift, DataFrame_of_records.
  cbn [map] in Hrows |- *.
  destruct (bar_row_columns _ _ _ _ Hrows) as [Hname Hpub].
  rewrite bind_lift, (sort_values_run "publicaciones")
    by (try exact Hpub; now apply bar_row_sortable with "pais").
  cbv zeta.
  assert (Htop : Forall (bar_row "pais" "publicaciones")
            (firstn 15 (sorted_rows "publicaciones"
               (collab_record entry :: map collab_record d))))
    by now apply Forall_firstn, sorted_rows_Forall.
  rewrite bind_lift, (column_run "pais") by exact Hname.
  rewrite bind_lift, (column_run "publicaciones") by exact Hpub.
  simpl rows.
  rewrite bind_lift, barh_run
    by (try (now apply bar_row_name with "publicaciones");
        now apply bar_row_size with "pais").
  rewrite bind_lift, int_labels_run by now apply bar_row_num with "pais".
  reflexivity.
Qed.

Lemma cell_set_ne (d : dict) k k' v :
  k' <> k -> cell k' (dict_set d k v) = cell k' d.
Proof. intros H. unfold cell. now rewrite dict_lookup_set_ne. Qed.

Lemma cell_set_eq (d : dict) k v : cell k (dict_set d k v) = v.
Proof. unfold cell. now rewrite dict_lookup_set_eq. Qed.

Lemma oa_columns_keep_row (types : dict) (info : dict) :
  Forall (fun t => exists o p, snd t = JDict o /\
                   dict_lookup "percentage" o = Some p) types ->
  area_row info ->
  exists info',
    ofold (fun info t =>
             v <-- getitem (snd t) "percentage" ;;
             Ret (dict_set info ("oa_" +:+ fst t) v)) types info = Ret info' /\
    area_row info'.
Proof.
  intros H. revert info. induction H as [|t types (o & p & Ho & Hp) _ IH];
    intros info Hinfo; simpl.
  - eauto.
  - rewrite Ho. simpl. rewrite Hp. simpl. apply IH.
    destruct Hinfo as (? & ? & ? & ?).
    unfold area_row. rewrite !cell_set_ne by discriminate. auto.
Qed.

Lemma area_info_run entry :
  area_entry entry ->
  exists info, area_info entry = Ret (JDict info) /\ area_row info.
Proof.
  intros (e & nombre & pubs & pct & He & Hn & Hnt & Hp & Hpp & Hc & Hcn & Hoa & Hst).
  destruct entry as [field_id data]. simpl in He. subst data.
  unfold area_info. cbn [getitem]. rewrite Hn, Hp, Hc. cbn [obind contains].
  set (info := [("id", JStr field_id); ("nombre", nombre);
                ("publicaciones", pubs); ("porcentaje", pct)]).
  assert (Hinfo : area_row info) by (repeat split; assumption).
  assert (Hinfo1 : exists info1,
    (if is_some (dict_lookup "porcentaje_oa" e)
     then v <-- match dict_lookup "porcentaje_oa" e with
                | Some v => Ret v
                | None => Raise (KeyError "porcentaje_oa")
                end ;; Ret (dict_set info "porcentaje_oa" v)
     else Ret info) = Ret info1 /\ area_row info1).
  { destruct (dict_lookup "porcentaje_oa" e) as [v|] eqn:E; simpl.
    - eexists; split; [reflexivity|].
      unfold area_row, cell. simpl.
      repeat split; try assumption. apply is_num_size. now apply Hoa.
    - eauto. }
  destruct Hinfo1 as (info1 & -> & Hinfo1). cbn [obind].
  destruct (dict_lookup "oa_status" e) as [st|] eqn:E; cbn [is_some obind].
  - destruct (Hst st eq_refl) as (types & -> & Htypes). cbn [items obind].
    destruct (oa_columns_keep_row types info1 Htypes Hinfo1) as (info2 & -> & Hinfo2).
    simpl. eauto.
  - eauto.
Qed.

Lemma omap_rows {A} (f : A -> outcome json) (P : dict -> Prop) l :
  Forall (fun a => exists r, f a = Ret (JDict r) /\ P r) l ->
  exists rs, omap f l = Ret (map JDict rs) /\ Forall P rs /\ length rs = length l.
Proof.
  induction 1 as [|a l (r & Hr & HP) _ (rs & IH & HPs & Hlen)]; simpl.
  - exists []. auto.
  - exists (r :: rs). rewrite Hr, IH. simpl. auto.
Qed.

Lemma series_sum_run (cells : list json) :
  Forall (fun v => is_size v = true) cells ->
  series_sum cells = Ret (JFloat (Qred (total_size (map as_number cells)))).
Proof.
  intros H. unfold series_sum. rewrite (omap_map _ as_number); [reflexivity|].
  eapply List.Forall_impl; [|exact H]. simpl. intros v Hv.
  unfold as_size, is_size in *. now destruct (as_number v).
Qed.

Lemma is_pos_sum (v : json) (cells : list json) :
  Forall (fun v => is_pos v = true) (v :: cells) ->
  is_pos (JFloat (Qred (total_size (map as_number (v :: cells))))) = true.
Proof.
  intros H. apply total_size_pos in H. unfold is_pos. cbn [as_number].
  destruct (Qle_bool _ 0) eqn:E; [|reflexivity].
  apply Qle_bool_iff in E. rewrite Qred_correct in E.
  exfalso. eapply Qlt_irrefl, Qlt_le_trans; eauto.
Qed.

Lemma area_row_cells rs :
  Forall area_row rs ->
  Forall (bar_row "nombre" "publicaciones") rs /\
  Forall (fun r => is_size (cell "porcentaje_oa" r) = true) rs /\
  Forall (fun v => is_pos v = true) (map (cell "publicaciones") rs) /\
  Forall (fun v => is_size v = true) (map (cell "porcentaje") rs).
Proof.
  intros H. repeat split.
  - eapply List.Forall_impl; [|exact H]. intros r (? & ? & ? & ?).
    split; [assumption|now apply is_pos_num].
  - eapply List.Forall_impl; [|exact H]. now intros r (? & ? & ? & ?).
  - apply Forall_cells. eapply List.Forall_impl; [|exact H].
    now intros r (? & ? & ? & ?).
  - apply Forall_cells. eapply List.Forall_impl; [|exact H].
    intros r (? & ? & ? & ?). now apply is_num_size.
Qed.

Lemma bind_assoc {A B C} (m : M A) (f : A -> M B) (g : B -> M C) s :
  bind (bind m f) g s = bind m (fun x => bind (f x) g) s.
Proof. unfold bind. now destruct (m s) as [[a|e|] s']. Qed.

Lemma bind_ret {A B} (a : A) (k : A -> M B) s : bind (ret a) k s = k a s.
Proof. reflexivity. Qed.

Lemma skipn_nonempty {A} n (l : list A) :
  (n <? length l)%nat = true -> exists x xs, skipn n l = x :: xs.
Proof.
  intros H. apply Nat.ltb_lt in H. revert l H.
  induction n as [|n IH]; intros [|x l] H; simpl in *; try lia; eauto.
  apply IH. lia.
Qed.

Lemma visualize_fields_data_run entry (d : dict) s :
  Forall area_entry (entry :: d) ->
  exists with_oa,
    visualize_fields_data (JDict (entry :: d)) s =
    (Ret tt, emit_all (fields_charts with_oa) s).
Proof.
  intros H. unfold visualize_fields_data.
  rewrite bind_lift. cbn [items].
  destruct (omap_rows area_info area_row (entry :: d)) as (rs & Hrs & Hrows & Hlen).
  { eapply List.Forall_impl; [|exact H]. apply area_info_run. }
  rewrite bind_lift, Hrs.
  destruct rs as [|r rs]; [discriminate Hlen|]. clear Hrs Hlen H.
  rewrite bind_lift, DataFrame_of_records.
  destruct (area_row_cells _ Hrows) as (Hbar & _ & _ & _).
  destruct (bar_row_columns _ _ _ _ Hbar) as [Hname Hpub].
  assert (Hporc : known "porcentaje" (columns_of (r :: rs)) = true).
  { inversion Hrows as [|? ? (_ & _ & Hr & _) _]; subst.
    eapply has_column_num; [left; reflexivity|exact Hr]. }
  rewrite bind_lift, (sort_values_run "publicaciones")
    by (try exact Hpub; now apply bar_row_sortable with "nombre").
  cbn [rows columns].
  set (rows1 := sorted_rows "publicaciones" (r :: rs)).
  assert (Hrows1 : Forall area_row rows1) by now apply sorted_rows_Forall.
  clear Hbar.
  destruct (area_row_cells _ Hrows1) as (Hbar1 & Hoa1 & Hpos1 & Hpct1).
  (* first chart *)
  cbv zeta.
  assert (Htop : Forall (bar_row "nombre" "publicaciones") (firstn 10 rows1))
    by now apply Forall_firstn.
  rewrite bind_lift, (column_run "nombre") by exact Hname.
  rewrite bind_lift, (column_run "publicaciones") by exact Hpub.
  cbn [rows head].
  rewrite bind_lift, barh_run
    by (try (now apply bar_row_name with "publicaciones");
        now apply bar_row_size with "nombre").
  rewrite bind_lift, int_labels_run by now apply bar_row_num with "nombre".
  rewrite bind_savefig.
  (* second chart *)
  exists (known "porcentaje_oa" (columns_of (r :: rs))).
  change (has_column "porcentaje_oa"
            {| columns := columns_of (r :: rs); rows := rows1 |})
    with (known "porcentaje_oa" (columns_of (r :: rs))).
  set (s1 := emit (ERender (path_join VIZ_DIR "areas_conocimiento_principales.png")) s).
  assert (Hsecond : exists s2,
    s2 = emit_all (if known "porcentaje_oa" (columns_of (r :: rs))
                   then [ERender (path_join VIZ_DIR "areas_mayor_acceso_abierto.png")]
                   else []) s1 /\
    forall B (k : unit -> M B),
      bind (if known "porcentaje_oa" (columns_of (r :: rs))
            then
              sorted <- lift (sort_values "porcentaje_oa"
                               {| columns := columns_of (r :: rs); rows := rows1 |}) ;;
              names <- lift (column "nombre" (head 10 sorted)) ;;
              widths <- lift (column "porcentaje_oa" (head 10 sorted)) ;;
              lift (barh names widths) ;;;
              savefig (path_join VIZ_DIR "areas_mayor_acceso_abierto.png")
            else ret tt) k s1 = k tt s2).
  { eexists; split; [reflexivity|]. intros B k.
    destruct (known "porcentaje_oa" (columns_of (r :: rs))) eqn:Eoa;
      [|reflexivity].
    rewrite bind_assoc, bind_lift, (sort_values_run "porcentaje_oa")
      by (try exact Eoa; exact Hoa1).
    rewrite bind_assoc, bind_lift, (column_run "nombre") by exact Hname.
    rewrite bind_assoc, bind_lift, (column_run "porcentaje_oa") by exact Eoa.
    cbn [rows head].
    assert (Hoa2 : Forall area_row (firstn 10 (sorted_rows "porcentaje_oa" rows1)))
      by now apply Forall_firstn, sorted_rows_Forall.
    destruct (area_row_cells _ Hoa2) as (Hb2 & Ho2 & _ & _).
    rewrite bind_assoc, bind_lift, barh_run
      by (try (now apply bar_row_name with "publicaciones");
          now apply Forall_cells).
    reflexivity. }
  destruct Hsecond as (s2 & Hs2 & Hsecond). rewrite Hsecond.
  (* third chart *)
  assert (Hfinal : emit (ERender (path_join VIZ_DIR "distribucion_areas_conocimiento.png")) s2
                   = emit_all (fields_charts (known "porcentaje_oa" (columns_of (r :: rs)))) s).
  { subst s2 s1. unfold fields_charts.
    now destruct (known "porcentaje_oa" (columns_of (r :: rs))). }
  rewrite <- Hfinal. clear Hfinal Hsecond Hs2.
  destruct (8 <? length rows1)%nat eqn:Elen.
  - destruct (skipn_nonempty _ _ Elen) as (x & xs & Hrest).
    assert (Hrestrows : Forall area_row (x :: xs))
      by (rewrite <- Hrest; now apply Forall_skipn).
    destruct (area_row_cells _ Hrestrows) as (_ & _ & Hposr & Hpctr).
    rewrite bind_assoc, bind_lift, (column_run "publicaciones") by exact Hpub.
    cbn [rows]. rewrite Hrest.
    rewrite bind_assoc, bind_lift, series_sum_run.
    2:{ eapply List.Forall_impl; [|exact Hposr].
        intros v Hv. now apply is_num_size, is_pos_num. }
    rewrite bind_assoc, bind_lift, (column_run "porcentaje") by exact Hporc.
    cbn [rows].
    rewrite bind_assoc, bind_lift, series_sum_run by exact Hpctr.
    rewrite bind_assoc, bind_lift.
    match goal with
    | |- context [DataFrame_of [JDict ?row]] =>
        change [JDict row] with (map JDict [row]); set (other := row)
    end.
    rewrite DataFrame_of_records, bind_ret.
    assert (Hpub' : has_column "publicaciones"
              (concat (head 8 {| columns := columns_of (r :: rs); rows := rows1 |})
                      {| columns := columns_of [other]; rows := [other] |}) = true)
      by now apply add_columns_keeps.
    assert (Hname' : has_column "nombre"
              (concat (head 8 {| columns := columns_of (r :: rs); rows := rows1 |})
                      {| columns := columns_of [other]; rows := [other] |}) = true)
      by now apply add_columns_keeps.
    rewrite bind_lift, (column_run "publicaciones") by exact Hpub'.
    rewrite bind_lift, (column_run "nombre") by exact Hname'.
    rewrite bind_lift, pie_run; [reflexivity| |].
    + cbn [rows concat head]. rewrite map_app. apply Forall_app. split.
      * apply Forall_firstn with (n := 8%nat) in Hrows1.
        now destruct (area_row_cells _ Hrows1) as (_ & _ & ? & _).
      * constructor; [|constructor]. subst other. now apply is_pos_sum.
    + cbn [rows concat head]. rewrite map_app. now destruct (map _ (firstn 8 rows1)).
  - rewrite bind_ret.
    rewrite bind_lift, (column_run "publicaciones") by exact Hpub.
    rewrite bind_lift, (column_run "nombre") by exact Hname.
    rewrite bind_lift, pie_run; [reflexivity|exact Hpos1|].
    cbn [rows]. intros E. apply (f_equal (@length json)) in E.
    rewrite length_map in E. subst rows1. rewrite sorted_rows_length in E.
    discriminate E.
Qed.

(** ** What rendering does on every input *)

Lemma safe_ret {A} (a : A) : safe (Ret a).
Proof. discriminate. Qed.

Lemma safe_obind {A B} (r : outcome A) (k : A -> outcome B) :
  safe r -> (forall a, safe (k a)) -> safe (obind r k).
Proof.
  intros Hr Hk. destruct r as [a|e|]; simpl; [apply Hk| |discriminate].
  intros [= ->]. now apply Hr.
Qed.

Lemma safe_omap {A B} (f : A -> outcome B) l :
  (forall a, safe (f a)) -> safe (omap f l).
Proof.
  intros Hf. induction l as [|a l IH]; simpl; [apply safe_ret|].
  apply safe_obind; [apply Hf|]. intros b.
  apply safe_obind; [exact IH|]. intros bs. apply safe_ret.
Qed.

Lemma safe_ofold {A B} (f : B -> A -> outcome B) l b :
  (forall b a, safe (f b a)) -> safe (ofold f l b).
Proof.
  intros Hf. revert b. induction l as [|a l IH]; intros b; simpl;
    [apply safe_ret|].
  apply safe_obind; [apply Hf|]. intros b'. apply IH.
Qed.

Ltac safe_cases :=
  unfold safe; intros;
  repeat match goal with
         | |- context [match ?x with _ => _ end] => destruct x
         end;
  discriminate.

Lemma safe_getitem x k : safe (getitem x k).
Proof. unfold getitem. safe_cases. Qed.

Lemma safe_contains k x : safe (contains k x).
Proof. unfold contains. safe_cases. Qed.

Lemma safe_items x : safe (items x).
Proof. unfold items. safe_cases. Qed.

Lemma safe_as_size x : safe (as_size x).
Proof. unfold as_size. safe_cases. Qed.

Lemma safe_as_label x : safe (as_label x).
Proof. unfold as_label. safe_cases. Qed.

Lemma safe_as_record x : safe (as_record x).
Proof. unfold as_record. safe_cases. Qed.

Lemma safe_DataFrame_of l : safe (DataFrame_of l).
Proof.
  unfold DataFrame_of. apply safe_obind; [|intros; apply safe_ret].
  apply safe_omap, safe_as_record.
Qed.

Lemma safe_DataFrame_from x : safe (DataFrame_from x).
Proof. destruct x; simpl; try discriminate. apply safe_DataFrame_of. Qed.

Lemma safe_sort_key x : safe (sort_key x).
Proof. unfold sort_key. safe_cases. Qed.

Lemma safe_sort_values c df : safe (sort_values c df).
Proof.
  unfold sort_values. destruct (has_column c df); [|discriminate].
  apply safe_obind; [|intros; apply safe_ret].
  apply safe_omap. intros r. apply safe_obind; [apply safe_sort_key|].
  intros; apply safe_ret.
Qed.

Lemma safe_column c df : safe (column c df).
Proof. unfold column. safe_cases. Qed.

Lemma safe_barh labels widths : safe (barh labels widths).
Proof.
  unfold barh. apply safe_obind; [apply safe_omap, safe_as_label|].
  intros _. apply safe_omap, safe_as_size.
Qed.

Lemma safe_int_labels bars : safe (int_labels bars).
Proof. unfold int_labels. safe_cases. Qed.

Lemma safe_pie sizes labels : safe (pie sizes labels).
Proof.
  unfold pie. apply safe_obind; [apply safe_omap, safe_as_size|].
  intros ns. safe_cases.
Qed.

Lemma safe_scatter xs ys : safe (scatter xs ys).
Proof.
  unfold scatter. apply safe_obind; [apply safe_omap, safe_as_size|].
  intros _. apply safe_obind; [apply safe_omap, safe_as_size|].
  intros; apply safe_ret.
Qed.

Lemma safe_series_sum cells : safe (series_sum cells).
Proof.
  unfold series_sum. apply safe_obind; [apply safe_omap, safe_as_size|].
  intros; apply safe_ret.
Qed.

Lemma safe_collab_row entry : safe (collab_row entry).
Proof.
  destruct entry as [country data]. unfold collab_row.
  repeat (apply safe_obind; [apply safe_getitem|intros]). apply safe_ret.
Qed.

Lemma safe_area_info entry : safe (area_info entry).
Proof.
  destruct entry as [field_id data]. unfold area_info.
  repeat (apply safe_obind; [apply safe_getitem|intros]).
  apply safe_obind; [apply safe_contains|intros has_oa].
  apply safe_obind.
  { destruct has_oa; [|apply safe_ret].
    apply safe_obind; [apply safe_getitem|intros; apply safe_ret]. }
  intros info. apply safe_obind; [apply safe_contains|intros has_status].
  apply safe_obind; [|intros; apply safe_ret].
  destruct has_status; [|apply safe_ret].
  apply safe_obind; [apply safe_getitem|intros status].
  apply safe_obind; [apply safe_items|intros types].
  apply safe_ofold. intros b t.
  apply safe_obind; [apply safe_getitem|intros; apply safe_ret].
Qed.

Lemma emit_all_app evs evs' s :
  emit_all (evs ++ evs') s = emit_all evs' (emit_all evs s).
Proof. apply fold_left_app. Qed.

Lemma emit_all_trace evs s : trace (emit_all evs s) = (trace s ++ evs)%list.
Proof.
  revert s. induction evs as [|e evs IH]; intros s; simpl.
  - now rewrite app_nil_r.
  - rewrite IH. simpl. now rewrite <- app_assoc.
Qed.

Lemma emit_all_self evs s : self (emit_all evs s) = self s.
Proof. revert s. induction evs as [|e evs IH]; intros s; simpl; [|rewrite IH]; reflexivity. Qed.

Lemma charts_render evs : forallb is_chart evs = true -> forallb is_render evs = true.
Proof.
  induction evs as [|e evs IH]; simpl; [reflexivity|].
  intros H. apply andb_true_iff in H as [He Hevs]. rewrite (IH Hevs).
  now destruct e.
Qed.

Lemma emit_all_gets_files evs s :
  forallb is_get evs = true -> files (emit_all evs s) = files s.
Proof.
  revert s. induction evs as [|e evs IH]; intros s H; [reflexivity|].
  simpl in H. apply andb_true_iff in H as [He Hevs].
  cbn [emit_all fold_left]. fold (emit_all evs (emit e s)). rewrite (IH _ Hevs).
  now destruct e.
Qed.

(** A path outside [VIZ_DIR]. *)
Definition kept (p : string) : Prop := String.prefix (VIZ_DIR +:+ "/") p = false.

(** Saving charts leaves the files outside [VIZ_DIR] as they are. *)
Lemma emit_all_files evs s p :
  forallb is_chart evs = true -> kept p ->
  files (emit_all evs s) !! p = files s !! p.
Proof.
  intros Hevs Hp. revert s Hevs.
  induction evs as [|e evs IH]; intros s Hevs; [reflexivity|].
  simpl in Hevs. apply andb_true_iff in Hevs as [He Hevs].
  cbn [emit_all fold_left]. fold (emit_all evs (emit e s)). rewrite (IH _ Hevs).
  destruct e as [url params|path obj|path]; try discriminate.
  cbn [emit files]. apply lookup_insert_ne. intros ->.
  unfold kept in Hp. cbn [is_chart] in He. congruence.
Qed.

Lemma draws_lift {A} (r : outcome A) : safe r -> draws 0 (lift r).
Proof. intros H s. exists []. simpl. auto. Qed.

Lemma draws_ret {A} (a : A) : draws 0 (ret a).
Proof. intros s. exists []. simpl. repeat split; auto. discriminate. Qed.

Lemma draws_savefig name : draws 1 (savefig (path_join VIZ_DIR name)).
Proof.
  intros s. exists [ERender (path_join VIZ_DIR name)].
  split; [reflexivity|]. split; [now destruct name|].
  split; [simpl; lia|discriminate].
Qed.

Lemma draws_bind {A B} n1 n2 (m : M A) (k : A -> M B) :
  draws n1 m -> (forall a, draws n2 (k a)) -> draws (n1 + n2) (bind m k).
Proof.
  intros Hm Hk s. destruct (Hm s) as (evs & Hs & Hr & Hn & Hsafe).
  unfold bind. destruct (m s) as [[a|e|] s']; simpl in *; subst s'.
  - destruct (Hk a (emit_all evs s)) as (evs' & Hs' & Hr' & Hn' & Hsafe').
    exists (evs ++ evs')%list. rewrite emit_all_app, forallb_app, length_app, Hr, Hr'.
    repeat split; auto. lia.
  - exists evs. repeat split; auto; try lia.
    intros [= ->]. now apply Hsafe.
  - exists evs. repeat split; auto; try lia. discriminate.
Qed.

Lemma draws_weaken {A} n n' (m : M A) : draws n m -> (n <= n')%nat -> draws n' m.
Proof.
  intros Hm Hle s. destruct (Hm s) as (evs & ? & ? & ? & ?).
  exists evs. repeat split; auto. lia.
Qed.

Lemma draws_if {A} n (b : bool) (m1 m2 : M A) :
  draws n m1 -> draws n m2 -> draws n (if b then m1 else m2).
Proof. now destruct b. Qed.

Ltac draw_step :=
  first
    [ apply draws_savefig
    | apply draws_ret
    | apply draws_lift;
      first [ apply safe_getitem | apply safe_items | apply safe_pie
            | apply safe_DataFrame_of | apply safe_DataFrame_from
            | apply safe_sort_values | apply safe_column | apply safe_barh
            | apply safe_int_labels | apply safe_scatter | apply safe_series_sum
            | apply safe_omap; first [ apply safe_area_info | apply safe_collab_row
                                     | intros; apply safe_getitem ] ]
    | eapply draws_bind; [|intros] ].

Lemma visualize_oa_types_draws d : draws 1 (visualize_oa_types d).
Proof.
  unfold visualize_oa_types.
  eapply draws_weaken; [repeat draw_step|simpl; lia].
Qed.

Lemma visualize_top_institutions_draws d : draws 1 (visualize_top_institutions d).
Proof.
  unfold visualize_top_institutions.
  eapply draws_weaken; [repeat draw_step|simpl; lia].
Qed.

Lemma visualize_international_collaboration_draws d :
  draws 1 (visualize_international_collaboration d).
Proof.
  unfold visualize_international_collaboration.
  eapply draws_weaken; [repeat draw_step|simpl; lia].
Qed.

Lemma visualize_top_authors_draws d : draws 3 (visualize_top_authors d).
Proof.
  unfold visualize_top_authors.
  eapply draws_weaken; [repeat draw_step|simpl; lia].
Qed.

Lemma visualize_fields_data_draws d : draws 3 (visualize_fields_data d).
Proof.
  unfold visualize_fields_data.
  eapply draws_weaken.
  - do 10 draw_step.
    + apply draws_if with (n := 1%nat).
      * eapply draws_weaken; [repeat draw_step|simpl; lia].
      * eapply draws_weaken; [apply draws_ret|lia].
    + draw_step.
      * apply draws_if with (n := 0%nat).
        -- eapply draws_weaken; [repeat draw_step|simpl; lia].
        -- apply draws_ret.
      * repeat draw_step.
  - simpl. lia.
Qed.

(** ** Symbolic execution of a method *)

Ltac mrun :=
  repeat first
    [ rewrite bind_get_self
    | rewrite bind_ret
    | rewrite bind_dump
    | rewrite bind_savefig
    | rewrite bind_query;
      match goal with
      | |- context [match answer ?h with _ => _ end] =>
          let E := fresh "Eanswer" in destruct (answer h) eqn:E
      end
    | rewrite bind_lift;
      match goal with
      | |- context [match ?r with Ret _ => _ | Raise _ => _ | Unmodelled => _ end] =>
          let E := fresh "Estep" in destruct r eqn:E
      end
    | match goal with
      | |- context [if ?b then _ else _] => destruct b
      end ].

Lemma trace_asked s endpoint params :
  trace (asked s endpoint params) =
  (trace s ++ [EGet (url_of (self s) endpoint) (sent_params (self s) params)])%list.
Proof. reflexivity. Qed.

Lemma trace_dumped path obj s :
  trace (dumped path obj s) = (trace s ++ [EWrite path obj])%list.
Proof. reflexivity. Qed.

Lemma trace_emit e s : trace (emit e s) = (trace s ++ [e])%list.
Proof. reflexivity. Qed.

Lemma self_asked s endpoint params : self (asked s endpoint params) = self s.
Proof. reflexivity. Qed.

Lemma self_dumped path obj s : self (dumped path obj s) = self s.
Proof. reflexivity. Qed.

Lemma asked_as_emit s endpoint params :
  asked s endpoint params =
  emit_all [EGet (url_of (self s) endpoint) (sent_params (self s) params)] s.
Proof. reflexivity. Qed.

Lemma emit_as_emit_all e s : emit e s = emit_all [e] s.
Proof. reflexivity. Qed.

(** Puts a state reached by requests and charts alone in the form
    [emit_all evs s]. *)
Ltac norm_state :=
  rewrite ?asked_as_emit, ?emit_as_emit_all;
  repeat (rewrite ?emit_all_self; rewrite <- ?emit_all_app).

Lemma draws_run {A} n (m : M A) s :
  draws n m ->
  exists evs r,
    m s = (r, emit_all evs s) /\ forallb is_chart evs = true /\
    (length evs <= n)%nat /\ safe r.
Proof.
  intros H. destruct (H s) as (evs & Hs & Hr & Hn & Hsafe).
  exists evs, (fst (m s)). rewrite <- Hs. now destruct (m s).
Qed.

Lemma safe_from {A B} (r : outcome A) e :
  r = Raise e -> safe r -> @safe B (Raise e).
Proof. intros -> H [= ->]. now apply H. Qed.

Lemma safe_present x k : safe (present x k).
Proof. unfold present. destruct (truthy x); [apply safe_contains|discriminate]. Qed.

Lemma safe_iter x : safe (iter x).
Proof. unfold iter. safe_cases. Qed.

Lemma safe_slice_to n x : safe (slice_to n x).
Proof. unfold slice_to. safe_cases. Qed.

Lemma safe_get x k v : safe (get x k v).
Proof. unfold get. safe_cases. Qed.

Lemma safe_as_key x : safe (as_key x).
Proof. unfold as_key. safe_cases. Qed.

Lemma safe_len x : safe (len x).
Proof. unfold len. safe_cases. Qed.

Lemma safe_answer h : safe (answer h).
Proof. unfold answer, response_json. safe_cases. Qed.

Lemma safe_mul a b : safe (mul a b).
Proof. unfold mul. safe_cases. Qed.

(** The only division by zero is a division by a zero denominator. *)
Lemma safe_percentage_of count total :
  is_zero total = false -> safe (percentage_of count total).
Proof.
  unfold is_zero, percentage_of, truediv. intros H.
  destruct (as_number count), (as_number total); cbn [obind]; try discriminate.
  rewrite H. cbn [obind]. apply safe_mul.
Qed.

Lemma safe_oa_type_entry total acc item :
  is_zero total = false -> safe (oa_type_entry total acc item).
Proof.
  intros H. unfold oa_type_entry.
  repeat (apply safe_obind; [apply safe_getitem|intros]).
  apply safe_obind; [now apply safe_percentage_of|intros].
  apply safe_obind; [apply safe_as_key|intros]. apply safe_ret.
Qed.

Lemma safe_collab_entry total acc item :
  is_zero total = false -> safe (collab_entry total acc item).
Proof.
  intros H. unfold collab_entry.
  apply safe_obind; [apply safe_getitem|intros country].
  destruct (is_str "EC" country); [apply safe_ret|].
  apply safe_obind; [apply safe_getitem|intros].
  apply safe_obind; [now apply safe_percentage_of|intros].
  apply safe_obind; [apply safe_as_key|intros]. apply safe_ret.
Qed.

#[local] Hint Resolve safe_getitem safe_present safe_iter safe_answer
  safe_percentage_of safe_ofold safe_oa_type_entry safe_collab_entry
  safe_slice_to safe_omap safe_get safe_len safe_items : py_safe.

(** Closes the goal [safe (fst (r, s'))] at the end of a run. *)
Ltac safe_end :=
  cbn [fst ret];
  first
    [ discriminate
    | match goal with
      | E : ?r = Raise ?e |- safe (Raise ?e) =>
          apply (safe_from _ _ E); eauto with py_safe
      end ].

(** ** C8: every request carries the configured email *)

(** C8.  Whatever the endpoint and the parameters (a dict or [None]),
    [query_api] issues exactly one GET request, to [base_url/endpoint]; its
    parameters hold ['mailto'] equal to the extractor's email, and every
    other key as the caller supplied it. *)
Theorem query_api_sends_mailto endpoint (params : option dict) s :
  exists sent,
    trace (snd (query_api endpoint params s)) =
      (trace s ++ [EGet (base_url (self s) +:+ "/" +:+ endpoint) sent])%list /\
    dict_lookup "mailto" sent = Some (JStr (email (self s))) /\
    forall k, k <> "mailto" ->
      dict_lookup k sent =
      dict_lookup k (match params with Some p => p | None => [] end).
Proof.
  rewrite query_api_run. exists (sent_params (self s) params).
  split; [reflexivity|]. unfold sent_params. split.
  - apply dict_lookup_set_eq.
  - intros k Hk. rewrite dict_lookup_set_ne by assumption.
    now destruct params.
Qed.

(** ** The loop over the countries of a collaboration *)





(** ** C2: when a percentage can divide by zero *)

Lemma get_oa_stats_safe s :
  is_zero (total_publications (self s)) = false -> safe (fst (get_oa_stats s)).
Proof.
  intros H. unfold get_oa_stats. mrun; try safe_end.
  rewrite bind_run.
  match goal with
  | |- context [visualize_oa_types ?d ?s1] =>
      destruct (draws_run _ _ s1 (visualize_oa_types_draws d))
        as (evs & r & -> & _ & _ & Hr)
  end.
  destruct r; cbn [fst ret]; try discriminate. exact (safe_from _ _ eq_refl Hr).
Qed.

Lemma get_international_collaboration_safe s :
  is_zero (total_publications (self s)) = false ->
  safe (fst (get_international_collaboration s)).
Proof.
  intros H. unfold get_international_collaboration. mrun; try safe_end.
  rewrite bind_run.
  match goal with
  | |- context [visualize_international_collaboration ?d ?s1] =>
      destruct (draws_run _ _ s1 (visualize_international_collaboration_draws d))
        as (evs & r & -> & _ & _ & Hr)
  end.
  destruct r; cbn [fst ret]; try discriminate. exact (safe_from _ _ eq_refl Hr).
Qed.

Lemma area_step_safe area fields_data s :
  is_zero (total_publications (self s)) = false ->
  (forall results meta count,
     answer (first_answer s "works" (area_params (self s) (fst area))) = Ret results ->
     getitem results "meta" = Ret meta ->
     getitem meta "count" = Ret count ->
     is_zero count = false) ->
  safe (fst (area_step area fields_data s)).
Proof.
  intros H Hnz. destruct area as [area_id area_nombre].
  unfold first_answer, area_params in Hnz. cbn [fst] in Hnz.
  unfold area_step. mrun; safe_end.
Qed.

(** One pass of the loop issues one to three requests and nothing else. *)
Lemma area_step_asks area fields_data s :
  exists evs,
    snd (area_step area fields_data s) = emit_all evs s /\
    forallb is_get evs = true /\ (1 <= length evs <= 3)%nat.
Proof.
  destruct area as [area_id area_nombre].
  unfold area_step. mrun; cbn [snd ret]; norm_state;
    (eexists; split; [reflexivity|split; [reflexivity|simpl; lia]]).
Qed.

Lemma mfold_cons {A B} (f : A -> B -> M B) a l b s :
  mfold f (a :: l) b s =
  match f a b s with
  | (Ret b', s') => mfold f l b' s'
  | (Raise e, s') => (Raise e, s')
  | (Unmodelled, s') => (Unmodelled, s')
  end.
Proof. reflexivity. Qed.

Lemma areas_loop_asks areas fields_data s :
  exists evs,
    snd (mfold area_step areas fields_data s) = emit_all evs s /\
    forallb is_get evs = true /\ (length evs <= 3 * length areas)%nat /\
    (forall fd, fst (mfold area_step areas fields_data s) = Ret fd ->
                (length areas <= length evs)%nat) /\
    (areas <> [] -> (1 <= length evs)%nat).
Proof.
  revert fields_data s. induction areas as [|a areas IH]; intros fd s.
  - exists []. simpl. repeat split; auto. congruence.
  - rewrite mfold_cons.
    destruct (area_step_asks a fd s) as (evs1 & Hs1 & Hg1 & Hn1).
    destruct (area_step a fd s) as [[fd1|e|] s1]; cbn [snd] in Hs1; subst s1.
    + destruct (IH fd1 (emit_all evs1 s)) as (evs2 & Hs2 & Hg2 & Hn2 & Hret & _).
      exists (evs1 ++ evs2)%list.
      rewrite Hs2, emit_all_app, forallb_app, Hg1, Hg2, length_app.
      cbn [length]. repeat split; auto; try lia.
      intros fd' Hfd'. specialize (Hret fd' Hfd'). lia.
    + exists evs1. cbn [fst snd length]. repeat split; auto; try lia. discriminate.
    + exists evs1. cbn [fst snd length]. repeat split; auto; try lia. discriminate.
Qed.

(** The first request of a pass asks for the count of its area. *)
Lemma area_step_first area fields_data s :
  exists more,
    snd (area_step area fields_data s) = emit_all (area_request (self s) area :: more) s.
Proof.
  destruct area as [area_id area_nombre].
  unfold area_step. mrun; cbn [snd ret]; norm_state; eexists; reflexivity.
Qed.

(** A run that ends later has seen every answer of a run that ends
    earlier. *)
Lemma counts_nonzero_before s s' evs :
  counts_nonzero s (emit_all evs s') -> counts_nonzero s s'.
Proof.
  intros H new area rest results meta count Hin Htrace.
  apply (H new area (rest ++ evs)%list results meta count Hin).
  rewrite emit_all_trace, Htrace, <- !app_assoc. reflexivity.
Qed.

(** What the API answers after [evs] it answers to a run that starts
    after [evs]. *)
Lemma counts_nonzero_after s evs s' :
  counts_nonzero s s' -> counts_nonzero (emit_all evs s) s'.
Proof.
  intros H new area rest results meta count Hin Htrace.
  rewrite emit_all_trace, emit_all_self in *.
  unfold query. rewrite emit_all_self.
  rewrite <- !app_assoc in *.
  apply (H (evs ++ new)%list area rest results meta count Hin).
  now rewrite <- app_assoc.
Qed.

Lemma areas_loop_safe areas fields_data s :
  is_zero (total_publications (self s)) = false ->
  incl areas areas_conocimiento ->
  counts_nonzero s (snd (mfold area_step areas fields_data s)) ->
  safe (fst (mfold area_step areas fields_data s)).
Proof.
  revert fields_data s.
  induction areas as [|a areas IH]; intros fd s H Hincl Hnz; [discriminate|].
  rewrite mfold_cons in *.
  destruct (area_step_first a fd s) as (more & Hs1).
  assert (Hsafe : safe (fst (area_step a fd s))).
  { apply area_step_safe; [exact H|].
    intros results meta count. unfold first_answer.
    destruct (area_step a fd s) as [[fd1|e|] s1]; cbn [snd] in *; subst s1.
    - destruct (areas_loop_asks areas fd1
                  (emit_all (area_request (self s) a :: more) s))
        as (evs2 & Hs2 & _).
      rewrite Hs2 in Hnz.
      specialize (Hnz [] a (more ++ evs2)%list results meta count).
      rewrite app_nil_r in Hnz. apply Hnz.
      + apply Hincl. now left.
      + rewrite !emit_all_trace, <- app_assoc. reflexivity.
    - specialize (Hnz [] a more results meta count).
      rewrite app_nil_r in Hnz. apply Hnz.
      + apply Hincl. now left.
      + rewrite emit_all_trace. reflexivity.
    - specialize (Hnz [] a more results meta count).
      rewrite app_nil_r in Hnz. apply Hnz.
      + apply Hincl. now left.
      + rewrite emit_all_trace. reflexivity. }
  destruct (area_step a fd s) as [[fd1|e|] s1]; cbn [fst snd] in *.
  - subst s1. apply IH.
    + now rewrite emit_all_self.
    + intros x Hx. apply Hincl. now right.
    + now apply counts_nonzero_after.
  - exact (safe_from _ _ eq_refl Hsafe).
  - discriminate.
Qed.

Lemma get_data_by_field_safe s :
  is_zero (total_publications (self s)) = false ->
  area_counts_nonzero s ->
  safe (fst (get_data_by_field s)).
Proof.
  intros H Hnz. unfold area_counts_nonzero, get_data_by_field in *.
  rewrite bind_run in *.
  assert (Hloop : counts_nonzero s (snd (mfold area_step areas_conocimiento [] s)) ->
                  safe (fst (mfold area_step areas_conocimiento [] s))).
  { apply areas_loop_safe; [exact H|]. intros x Hx. exact Hx. }
  destruct (mfold area_step areas_conocimiento [] s) as [[fd|e|] s1];
    cbn [fst snd] in *;
    [|exact (safe_from _ _ eq_refl (Hloop Hnz))|discriminate].
  rewrite bind_dump, bind_run in *.
  match goal with
  | |- context [visualize_fields_data ?d ?s1] =>
      destruct (draws_run _ _ s1 (visualize_fields_data_draws d))
        as (evs & r & -> & _ & _ & Hr)
  end.
  destruct r; cbn [fst ret]; try discriminate. exact (safe_from _ _ eq_refl Hr).
Qed.

Lemma area_step_fails area fields_data s :
  (forall h req, fails (server h req)) ->
  area_step area fields_data s =
  (Ret fields_data, emit (area_request (self s) area) s).
Proof.
  intros H. destruct area as [area_id area_nombre]. unfold area_step.
  rewrite bind_get_self, bind_query, (answer_fails _ (H _ _)).
  rewrite bind_lift. reflexivity.
Qed.

Lemma areas_loop_fails areas fields_data s :
  (forall h req, fails (server h req)) ->
  mfold area_step areas fields_data s =
  (Ret fields_data, emit_all (map (area_request (self s)) areas) s).
Proof.
  intros H. revert s. induction areas as [|a areas IH]; intros s; [reflexivity|].
  rewrite mfold_cons, area_step_fails by assumption. rewrite IH. reflexivity.
Qed.

Lemma visualize_fields_data_empty s :
  visualize_fields_data (JDict []) s = (Raise (KeyError "publicaciones"), s).
Proof. reflexivity. Qed.

Lemma get_data_by_field_fails s :
  (forall h req, fails (server h req)) ->
  get_data_by_field s =
  (Raise (KeyError "publicaciones"),
   dumped fields_path (JDict [])
     (emit_all (map (area_request (self s)) areas_conocimiento) s)).
Proof.
  intros H. unfold get_data_by_field.
  rewrite bind_run, areas_loop_fails by assumption.
  rewrite bind_dump, bind_run, visualize_fields_data_empty. reflexivity.
Qed.

Lemma get_general_stats_fails s :
  fails (first_answer s "works" (general_params (self s))) ->
  get_general_stats s =
  (Ret JNull, asked s "works" (Some (general_params (self s)))).
Proof.
  intros H. unfold get_general_stats.
  rewrite bind_get_self, bind_query. unfold first_answer, general_params in *.
  now rewrite (answer_fails _ H), bind_lift.
Qed.

Lemma get_oa_stats_fails s :
  fails (first_answer s "works" (oa_params (self s))) ->
  get_oa_stats s = (Ret JNull, asked s "works" (Some (oa_params (self s)))).
Proof.
  intros H. unfold get_oa_stats.
  rewrite bind_get_self, bind_query. unfold first_answer, oa_params in *.
  now rewrite (answer_fails _ H), bind_lift.
Qed.

Lemma get_top_authors_fails s :
  fails (first_answer s "authors" authors_params) ->
  get_top_authors s = (Ret (JList []), asked s "authors" (Some authors_params)).
Proof.
  intros H. unfold get_top_authors.
  rewrite bind_query. unfold first_answer, authors_params in *.
  now rewrite (answer_fails _ H), bind_lift.
Qed.

Lemma get_top_institutions_fails s :
  fails (first_answer s "institutions" institutions_params) ->
  get_top_institutions s =
  (Ret (JList []), asked s "institutions" (Some institutions_params)).
Proof.
  intros H. unfold get_top_institutions.
  rewrite bind_query. unfold first_answer, institutions_params in *.
  now rewrite (answer_fails _ H), bind_lift.
Qed.

Lemma get_international_collaboration_fails s :
  fails (first_answer s "works" (collab_params (self s))) ->
  get_international_collaboration s =
  (Ret (JDict []), asked s "works" (Some (collab_params (self s)))).
Proof.
  intros H. unfold get_international_collaboration.
  rewrite bind_get_self, bind_query. unfold first_answer, collab_params in *.
  now rewrite (answer_fails _ H), bind_lift.
Qed.

(** C2, as the code has it.  The check before a division tests that the
    response is there, not that the denominator is non-zero.  So a failed
    query leads to no division, whatever [total_publications] is; and with
    a response, [get_oa_stats] and [get_international_collaboration] raise
    no [ZeroDivisionError] when [total_publications] is not zero, and
    [get_data_by_field] raises none when, besides, no count the API gives
    it for an area is zero; the open-access counts may be. *)
Theorem divisions_need_nonzero_denominators s :
  (fails (first_answer s "works" (oa_params (self s))) ->
   safe (fst (get_oa_stats s))) /\
  (fails (first_answer s "works" (collab_params (self s))) ->
   safe (fst (get_international_collaboration s))) /\
  ((forall h req, fails (server h req)) -> safe (fst (get_data_by_field s))) /\
  (is_zero (total_publications (self s)) = false ->
   safe (fst (get_oa_stats s)) /\
   safe (fst (get_international_collaboration s)) /\
   (area_counts_nonzero s -> safe (fst (get_data_by_field s)))).
Proof.
  split; [|split; [|split]].
  - intros H. rewrite get_oa_stats_fails by assumption. discriminate.
  - intros H. rewrite get_international_collaboration_fails by assumption.
    discriminate.
  - intros H. rewrite get_data_by_field_fails by assumption. discriminate.
  - intros H. split; [now apply get_oa_stats_safe|].
    split; [now apply get_international_collaboration_safe|].
    intros Hnz. now apply get_data_by_field_safe.
Qed.

(** ** C1: percentages lie between 0 and 100 *)

Lemma breakdown_impl (R R' : json -> json -> json -> Prop) denom d :
  (forall c t p, R c t p -> R' c t p) -> breakdown R denom d -> breakdown R' denom d.
Proof.
  intros HR H. eapply List.Forall_impl; [|exact H].
  intros kv (count & pct & ? & ?). eauto.
Qed.

Lemma area_records_impl (R R' : json -> json -> json -> Prop) total d :
  (forall c t p, R c t p -> R' c t p) ->
  area_records R total d -> area_records R' total d.
Proof.
  intros HR H. eapply List.Forall_impl; [|exact H].
  intros kv (r & count & pct & ? & ? & ? & ? & Hoa & Hst).
  exists r, count, pct. repeat split; auto.
  - intros pct_oa Hp. destruct (Hoa _ Hp) as (count_oa & ? & ?). eauto.
  - intros st Hs. destruct (Hst _ Hs) as (types & ? & ?).
    exists types. split; [assumption|]. now apply breakdown_impl with R.
Qed.

Lemma Forall_dict_set (P : json -> Prop) (d : dict) k v :
  Forall (fun kv => P (snd kv)) d -> P v ->
  Forall (fun kv => P (snd kv)) (dict_set d k v).
Proof.
  intros Hd Hv. induction Hd as [|[k' v'] d Hkv Hd IH]; simpl.
  - auto.
  - destruct (String.eqb k k'); constructor; auto.
Qed.

Lemma oa_type_entry_breakdown total acc item acc' :
  oa_type_entry total acc item = Ret acc' ->
  breakdown computed total acc -> breakdown computed total acc'.
Proof.
  unfold oa_type_entry. intros H Hacc.
  destruct (getitem item "key") as [oa_type| |]; try discriminate.
  cbn [obind] in H.
  destruct (getitem item "count") as [count| |]; try discriminate.
  cbn [obind] in H.
  destruct (percentage_of count total) as [pct| |] eqn:E; try discriminate.
  cbn [obind] in H.
  destruct (as_key oa_type) as [k| |]; try discriminate.
  inversion H; subst acc'.
  apply (Forall_dict_set (fun e => exists count pct,
           e = count_entry count pct /\ computed count total pct)); eauto.
Qed.

Lemma oa_fold_breakdown total group acc d :
  ofold (oa_type_entry total) group acc = Ret d ->
  breakdown computed total acc -> breakdown computed total d.
Proof.
  revert acc. induction group as [|item rest IH]; intros acc H Hacc.
  - now inversion H; subst.
  - cbn [ofold] in H.
    destruct (oa_type_entry total acc item) as [acc'| |] eqn:E; try discriminate.
    eapply IH; [exact H|]. eapply oa_type_entry_breakdown; eauto.
Qed.

Lemma collab_entry_breakdown total acc item acc' :
  collab_entry total acc item = Ret acc' ->
  breakdown computed total acc -> breakdown computed total acc'.
Proof.
  unfold collab_entry. intros H Hacc.
  destruct (getitem item "key") as [country| |]; try discriminate.
  cbn [obind] in H.
  destruct (is_str "EC" country); [now inversion H; subst|].
  destruct (getitem item "count") as [count| |]; try discriminate.
  cbn [obind] in H.
  destruct (percentage_of count total) as [pct| |] eqn:E; try discriminate.
  cbn [obind] in H.
  destruct (as_key country) as [k| |]; try discriminate.
  inversion H; subst acc'.
  apply (Forall_dict_set (fun e => exists count pct,
           e = count_entry count pct /\ computed count total pct)); eauto.
Qed.

Lemma collab_fold_breakdown total group acc d :
  ofold (collab_entry total) group acc = Ret d ->
  breakdown computed total acc -> breakdown computed total d.
Proof.
  revert acc. induction group as [|item rest IH]; intros acc H Hacc.
  - now inversion H; subst.
  - cbn [ofold] in H.
    destruct (collab_entry total acc item) as [acc'| |] eqn:E; try discriminate.
    eapply IH; [exact H|]. eapply collab_entry_breakdown; eauto.
Qed.

Lemma writes_only_refl s path P : writes_only s s path P.
Proof. intros p c H. now left. Qed.

Lemma writes_only_asked s s' path P endpoint params :
  writes_only s s' path P -> writes_only s (asked s' endpoint params) path P.
Proof.
  intros H p c Hin. rewrite trace_asked in Hin. apply in_app_iff in Hin.
  destruct Hin as [Hin|[Hin|[]]]; [now apply H|discriminate].
Qed.

Lemma writes_only_dumped s s' path P obj :
  P obj -> writes_only s s' path P -> writes_only s (dumped path obj s') path P.
Proof.
  intros Hobj H p c Hin. rewrite trace_dumped in Hin. apply in_app_iff in Hin.
  destruct Hin as [Hin|[Hin|[]]]; [now apply H|].
  inversion Hin; subst. now right.
Qed.

Lemma writes_only_emit_all s s' path P evs :
  Forall (fun e => is_write e = false) evs ->
  writes_only s s' path P -> writes_only s (emit_all evs s') path P.
Proof.
  intros Hevs H p c Hin. rewrite emit_all_trace in Hin. apply in_app_iff in Hin.
  destruct Hin as [Hin|Hin]; [now apply H|].
  rewrite List.Forall_forall in Hevs. specialize (Hevs _ Hin). discriminate.
Qed.

Lemma renders_not_writes evs :
  forallb is_render evs = true -> Forall (fun e => is_write e = false) evs.
Proof.
  induction evs as [|e evs IH]; simpl; intros H; [constructor|].
  apply andb_true_iff in H as [He Hevs]. constructor; [now destruct e|auto].
Qed.

Lemma gets_not_writes evs :
  forallb is_get evs = true -> Forall (fun e => is_write e = false) evs.
Proof.
  induction evs as [|e evs IH]; simpl; intros H; [constructor|].
  apply andb_true_iff in H as [He Hevs]. constructor; [now destruct e|auto].
Qed.

Ltac writes_end :=
  cbn [snd ret];
  repeat first
    [ apply writes_only_refl
    | apply writes_only_asked ].

Ltac after_rendering lemma :=
  rewrite bind_run;
  match goal with
  | |- context [match ?viz ?d ?s1 with _ => _ end] =>
      let evs := fresh "evs" in
      let r := fresh "r" in
      let Hr := fresh "Hrenders" in
      destruct (draws_run _ _ s1 (lemma d)) as (evs & r & -> & Hr & _ & _);
      destruct r
  end.

Lemma get_oa_stats_writes s :
  writes_only s (snd (get_oa_stats s)) oa_types_path
    (fun c => exists d, c = JDict d /\
                        breakdown computed (total_publications (self s)) d).
Proof.
  unfold get_oa_stats. mrun; try solve [writes_end].
  after_rendering visualize_oa_types_draws; cbn [snd ret];
    (apply writes_only_emit_all; [now apply renders_not_writes, charts_render|]);
    (apply writes_only_dumped; [|writes_end]);
    (eexists; split; [reflexivity|]);
    (eapply oa_fold_breakdown; [eassumption|constructor]).
Qed.

Lemma get_international_collaboration_writes s :
  writes_only s (snd (get_international_collaboration s)) collab_path
    (fun c => exists d, c = JDict d /\
                        breakdown computed (total_publications (self s)) d).
Proof.
  unfold get_international_collaboration. mrun; try solve [writes_end].
  after_rendering visualize_international_collaboration_draws; cbn [snd ret];
    (apply writes_only_emit_all; [now apply renders_not_writes, charts_render|]);
    (apply writes_only_dumped; [|writes_end]);
    (eexists; split; [reflexivity|]);
    (eapply collab_fold_breakdown; [eassumption|constructor]).
Qed.

Ltac area_record_end :=
  unfold area_records;
  repeat (apply (Forall_dict_set (area_record computed _)); [|]);
  try assumption;
  (eexists _, _, _;
   split; [reflexivity|]; split; [reflexivity|]; split; [reflexivity|];
   split; [eassumption|]; split;
   [ intros pct_oa Hp; cbn in Hp;
     first [ discriminate
           | inversion Hp; subst; eexists; split; [reflexivity|eassumption] ]
   | intros st Hs; cbn in Hs;
     first [ discriminate
           | inversion Hs; subst; eexists; split; [reflexivity|];
             eapply oa_fold_breakdown; [eassumption|constructor] ] ]).

(** One pass of the loop keeps every percentage of [fields_data] the
    quotient of its count and its denominator. *)
Lemma area_step_records area fields_data s :
  area_records computed (total_publications (self s)) fields_data ->
  returning (fst (area_step area fields_data s))
    (area_records computed (total_publications (self s))).
Proof.
  intros H. destruct area as [area_id area_nombre].
  unfold area_step. mrun; cbn [fst ret returning]; try exact I; try assumption;
    area_record_end.
Qed.

Lemma areas_loop_records areas fields_data s :
  area_records computed (total_publications (self s)) fields_data ->
  returning (fst (mfold area_step areas fields_data s))
    (area_records computed (total_publications (self s))).
Proof.
  revert fields_data s. induction areas as [|a areas IH]; intros fd s H;
    [exact H|].
  rewrite mfold_cons.
  pose proof (area_step_records a fd s H) as Hstep.
  destruct (area_step_asks a fd s) as (evs1 & Hs1 & _).
  destruct (area_step a fd s) as [[fd1|e|] s1]; cbn [fst snd returning] in *;
    try exact I.
  subst s1. specialize (IH fd1 (emit_all evs1 s)).
  rewrite emit_all_self in IH. now apply IH.
Qed.

Lemma get_data_by_field_writes s :
  writes_only s (snd (get_data_by_field s)) fields_path
    (fun c => exists d, c = JDict d /\
                        area_records computed (total_publications (self s)) d).
Proof.
  unfold get_data_by_field. rewrite bind_run.
  pose proof (areas_loop_records areas_conocimiento [] s) as Hrec.
  unfold returning in Hrec.
  destruct (areas_loop_asks areas_conocimiento [] s) as (gets & Hs & Hgets & _).
  assert (Hloop : writes_only s (emit_all gets s) fields_path
            (fun c => exists d, c = JDict d /\
               area_records computed (total_publications (self s)) d)).
  { apply writes_only_emit_all; [now apply gets_not_writes|apply writes_only_refl]. }
  destruct (mfold area_step areas_conocimiento [] s) as [[fd|e|] s1];
    cbn [fst snd] in *; subst s1; try exact Hloop.
  rewrite bind_dump.
  after_rendering visualize_fields_data_draws; cbn [snd ret];
    (apply writes_only_emit_all; [now apply renders_not_writes, charts_render|]);
    (apply writes_only_dumped; [|exact Hloop]);
    (eexists; split; [reflexivity|]); apply Hrec; constructor.
Qed.

Lemma writes_only_impl s s' path (P P' : json -> Prop) :
  (forall c, P c -> P' c) -> writes_only s s' path P -> writes_only s s' path P'.
Proof.
  intros HP H p c Hin. destruct (H p c Hin) as [?|[? ?]]; [now left|right; auto].
Qed.

Section Rounding.

(** Rounding to the nearest float is monotone and leaves the integers up
    to [2^53] as they are. *)
Hypothesis fl_monotone : forall x y : Q, (x <= y)%Q -> (fl x <= fl y)%Q.
Hypothesis fl_integer :
  forall n : Z, (Z.abs n <= 2 ^ 53)%Z -> (fl (inject_Z n) == inject_Z n)%Q.

Lemma fl_between (lo hi : Z) (x : Q) :
  (Z.abs lo <= 2 ^ 53)%Z -> (Z.abs hi <= 2 ^ 53)%Z ->
  (inject_Z lo <= x)%Q -> (x <= inject_Z hi)%Q ->
  (inject_Z lo <= fl (Qred x))%Q /\ (fl (Qred x) <= inject_Z hi)%Q.
Proof.
  intros Hlo Hhi Hl Hh. split.
  - rewrite <- (fl_integer lo Hlo). apply fl_monotone.
    now rewrite Qred_correct.
  - rewrite <- (fl_integer hi Hhi). apply fl_monotone.
    now rewrite Qred_correct.
Qed.

Lemma computed_within count denom pct :
  computed count denom pct -> within count denom pct.
Proof.
  unfold computed, percentage_of, truediv. intros H c d Hc Hd H0 Hle.
  rewrite Hc, Hd in H.
  destruct (Qeq_bool d 0) eqn:E; [discriminate|].
  cbn [obind mul as_number] in H. injection H as <-.
  eexists; split; [reflexivity|].
  assert (Hd0 : (0 < d)%Q).
  { apply Qnot_le_lt. intros Hd0.
    assert (Hz : (d == 0)%Q).
    { apply Qle_antisym; [exact Hd0|]. now apply Qle_trans with c. }
    apply Qeq_bool_iff in Hz. congruence. }
  destruct (fl_between 0 1 (c / d)) as [H1 H2]; try (simpl; lia).
  { change (inject_Z 0) with 0%Q.
    apply Qle_shift_div_l; [exact Hd0|]. now rewrite Qmult_0_l. }
  { change (inject_Z 1) with 1%Q.
    apply Qle_shift_div_r; [exact Hd0|]. now rewrite Qmult_1_l. }
  destruct (fl_between 0 100 (fl (Qred (c / d)) * inject_Z 100)) as [H3 H4];
    try (simpl; lia).
  - change (inject_Z 0) with (0 * inject_Z 100)%Q.
    apply Qmult_le_compat_r; [exact H1|discriminate].
  - change (inject_Z 100) with (1 * inject_Z 100)%Q at 2.
    apply Qmult_le_compat_r; [exact H2|discriminate].
  - split; assumption.
Qed.

(** C1.  Every percentage the three methods write is the rounded quotient
    of its count and its denominator, so whenever the count is a number
    between 0 and that denominator the percentage is a float between 0 and
    100: ['percentage'] in [datos_tipos_oa.json] and
    [colaboracion_internacional.json] against [total_publications]; in
    [datos_por_areas.json], ['porcentaje'] against [total_publications] and
    ['porcentaje_oa'] and the per-status ['percentage'] against the area's
    own count.  The methods write no other file. *)
Theorem percentages_between_0_and_100 s :
  writes_only s (snd (get_oa_stats s)) oa_types_path
    (fun c => exists d, c = JDict d /\
                        breakdown within (total_publications (self s)) d) /\
  writes_only s (snd (get_international_collaboration s)) collab_path
    (fun c => exists d, c = JDict d /\
                        breakdown within (total_publications (self s)) d) /\
  writes_only s (snd (get_data_by_field s)) fields_path
    (fun c => exists d, c = JDict d /\
                        area_records within (total_publications (self s)) d).
Proof.
  split; [|split].
  - eapply writes_only_impl; [|apply get_oa_stats_writes].
    intros c (d & -> & Hd). exists d. split; [reflexivity|].
    eapply breakdown_impl; [|exact Hd]. intros; now apply computed_within.
  - eapply writes_only_impl; [|apply get_international_collaboration_writes].
    intros c (d & -> & Hd). exists d. split; [reflexivity|].
    eapply breakdown_impl; [|exact Hd]. intros; now apply computed_within.
  - eapply writes_only_impl; [|apply get_data_by_field_writes].
    intros c (d & -> & Hd). exists d. split; [reflexivity|].
    eapply area_records_impl; [|exact Hd]. intros; now apply computed_within.
Qed.

End Rounding.

(** ** C10: what the collaboration mapping leaves out *)



(** ** C4: a failed query *)

(** C4, as the code has it.  When the API answers the query of
    [get_general_stats], [get_oa_stats], [get_top_authors],
    [get_top_institutions] or [get_international_collaboration] with a
    status other than 200, the method returns [None], [[]] or [{}]; the
    state it leaves is the one it started from with that single request
    added to the trace: no retry, no file written, [total_publications]
    untouched.  [get_data_by_field] is built differently: when every query
    fails it has asked once for each of the thirteen areas, in order, and
    then written the empty mapping to [datos_por_areas.json]. *)
Theorem failed_query_returns_nothing s :
  (fails (first_answer s "works" (general_params (self s))) ->
   get_general_stats s =
   (Ret JNull, asked s "works" (Some (general_params (self s))))) /\
  (fails (first_answer s "works" (oa_params (self s))) ->
   get_oa_stats s =
   (Ret JNull, asked s "works" (Some (oa_params (self s))))) /\
  (fails (first_answer s "authors" authors_params) ->
   get_top_authors s =
   (Ret (JList []), asked s "authors" (Some authors_params))) /\
  (fails (first_answer s "institutions" institutions_params) ->
   get_top_institutions s =
   (Ret (JList []), asked s "institutions" (Some institutions_params))) /\
  (fails (first_answer s "works" (collab_params (self s))) ->
   get_international_collaboration s =
   (Ret (JDict []), asked s "works" (Some (collab_params (self s))))) /\
  ((forall h req, fails (server h req)) ->
   trace (snd (get_data_by_field s)) =
   (trace s ++ map (area_request (self s)) areas_conocimiento
            ++ [EWrite fields_path (JDict [])])%list).
Proof.
  repeat split; intros H.
  - now apply get_general_stats_fails.
  - now apply get_oa_stats_fails.
  - now apply get_top_authors_fails.
  - now apply get_top_institutions_fails.
  - now apply get_international_collaboration_fails.
  - rewrite get_data_by_field_fails by assumption.
    cbn [snd]. rewrite trace_dumped, emit_all_trace. now rewrite <- app_assoc.
Qed.

(** ** C7: queries, then one write, then charts *)

Lemma bind_set_total {B} v (k : unit -> M B) s :
  bind (set_total_publications v) k s = k tt (with_total v s).
Proof. reflexivity. Qed.

Lemma staged_gets gmin gmax rmax gets s :
  forallb is_get gets = true -> (1 <= length gets <= gmax)%nat ->
  staged gmin gmax rmax s (emit_all gets s).
Proof.
  intros Hg Hn. exists gets, [], []. rewrite emit_all_trace, !app_nil_r.
  repeat split; auto; try (simpl; lia). congruence.
Qed.

Lemma staged_written gmin gmax rmax gets path obj renders s :
  forallb is_get gets = true -> (1 <= length gets <= gmax)%nat ->
  (gmin <= length gets)%nat ->
  forallb is_render renders = true -> (length renders <= rmax)%nat ->
  staged gmin gmax rmax s
    (emit_all renders (dumped path obj (emit_all gets s))).
Proof.
  intros Hg Hn Hmin Hr Hrn. exists gets, [EWrite path obj], renders.
  rewrite emit_all_trace, trace_dumped, emit_all_trace, <- !app_assoc.
  repeat split; auto; try (simpl; lia). discriminate.
Qed.

Ltac staged_end :=
  cbn [snd ret]; norm_state;
  apply staged_gets; [reflexivity|simpl; lia].

Lemma draws_run_count {A} n (m : M A) s :
  draws n m ->
  exists evs r,
    m s = (r, emit_all evs s) /\ forallb is_render evs = true /\
    (length evs <= n)%nat.
Proof.
  intros H. destruct (draws_run n m s H) as (evs & r & ? & Hc & ? & _).
  exists evs, r. split; [assumption|]. split; [now apply charts_render|assumption].
Qed.

Ltac staged_render lemma :=
  rewrite bind_run;
  match goal with
  | |- context [match ?viz ?d ?s1 with _ => _ end] =>
      let evs := fresh "evs" in
      let r := fresh "r" in
      let Hr := fresh "Hrenders" in
      let Hn := fresh "Hcount" in
      destruct (draws_run_count _ _ s1 (lemma d)) as (evs & r & -> & Hr & Hn);
      destruct r
  end;
  cbn [snd ret]; norm_state;
  (apply staged_written; [reflexivity|simpl; lia|simpl; lia|assumption|assumption]).

Lemma get_general_stats_staged s : staged 1 1 0 s (snd (get_general_stats s)).
Proof.
  unfold get_general_stats. mrun; try solve [staged_end].
  rewrite bind_set_total, bind_dump. cbn [snd ret].
  eexists [_], [_], []. split.
  { rewrite trace_dumped. unfold with_total.
    cbn [set_total_publications snd trace].
    rewrite trace_asked, <- app_assoc. reflexivity. }
  repeat split; auto; simpl; lia.
Qed.

Lemma get_oa_stats_staged s : staged 2 2 1 s (snd (get_oa_stats s)).
Proof.
  unfold get_oa_stats. mrun; try solve [staged_end].
  staged_render visualize_oa_types_draws.
Qed.

Lemma get_top_authors_staged s : staged 1 1 3 s (snd (get_top_authors s)).
Proof.
  unfold get_top_authors. mrun; try solve [staged_end].
  staged_render visualize_top_authors_draws.
Qed.

Lemma get_top_institutions_staged s :
  staged 1 1 1 s (snd (get_top_institutions s)).
Proof.
  unfold get_top_institutions. mrun; try solve [staged_end].
  staged_render visualize_top_institutions_draws.
Qed.

Lemma get_international_collaboration_staged s :
  staged 1 1 1 s (snd (get_international_collaboration s)).
Proof.
  unfold get_international_collaboration. mrun; try solve [staged_end].
  staged_render visualize_international_collaboration_draws.
Qed.

Lemma get_data_by_field_staged s :
  staged 13 39 3 s (snd (get_data_by_field s)).
Proof.
  unfold get_data_by_field. rewrite bind_run.
  destruct (areas_loop_asks areas_conocimiento [] s)
    as (gets & Hs & Hgets & Hmax & Hmin & Hone).
  assert (H1 : (1 <= length gets <= 39)%nat).
  { split; [apply Hone; discriminate|exact Hmax]. }
  destruct (mfold area_step areas_conocimiento [] s) as [[fd|e|] s1];
    cbn [fst snd] in *; subst s1; try (now apply staged_gets).
  rewrite bind_dump, bind_run.
  destruct (draws_run_count _ _
              (dumped fields_path (JDict fd) (emit_all gets s))
              (visualize_fields_data_draws (JDict fd)))
    as (evs & r & -> & Hr & Hn).
  specialize (Hmin fd eq_refl). cbn [length] in Hmin.
  destruct r; cbn [snd ret]; now apply staged_written.
Qed.

(** C7, as the code has it.  Every extraction method works in stages: its
    API requests first, then at most one file written, then its charts.
    The numbers are not one of each: [get_general_stats] issues one
    request and saves no chart; [get_oa_stats] issues up to two requests,
    and two before it writes; [get_data_by_field] issues up to 39, and at
    least 13 before it writes, and saves up to three charts;
    [get_top_authors] issues one request and saves up to three charts;
    [get_top_institutions] and [get_international_collaboration] issue one
    request and save at most one chart. *)
Theorem methods_work_in_stages s :
  staged 1 1 0 s (snd (get_general_stats s)) /\
  staged 2 2 1 s (snd (get_oa_stats s)) /\
  staged 13 39 3 s (snd (get_data_by_field s)) /\
  staged 1 1 3 s (snd (get_top_authors s)) /\
  staged 1 1 1 s (snd (get_top_institutions s)) /\
  staged 1 1 1 s (snd (get_international_collaboration s)).
Proof.
  repeat split.
  - apply get_general_stats_staged.
  - apply get_oa_stats_staged.
  - apply get_data_by_field_staged.
  - apply get_top_authors_staged.
  - apply get_top_institutions_staged.
  - apply get_international_collaboration_staged.
Qed.

(** ** C9: the first 20 authors, the first 15 institutions *)

Lemma get_default (d : dict) k default (P : json -> Prop) :
  (forall v, dict_lookup k d = Some v -> P v) -> P default ->
  exists v, get (JDict d) k default = Ret v /\ P v.
Proof.
  intros H Hd. unfold get. destruct (dict_lookup k d) as [v|]; eauto.
Qed.

Lemma get_any (d : dict) k default :
  exists v, get (JDict d) k default = Ret v.
Proof. unfold get. destruct (dict_lookup k d); eauto. Qed.

Lemma author_data_run a :
  author_ok a -> exists r, author_data a = Ret (JDict r) /\ author_row r.
Proof.
  intros (d & name & -> & Hname & Hworks & Hcited & Hinst).
  unfold author_data.
  destruct (get_any d "id" JNull) as (id & ->).
  assert (Hn : get (JDict d) "display_name" JNull = Ret (JStr name))
    by (unfold get; now rewrite Hname).
  rewrite Hn.
  destruct (get_any d "orcid" JNull) as (orcid & ->).
  destruct (get_default d "last_known_institution" (JDict [])
              (fun v => exists i, v = JDict i) Hinst) as (inst & -> & (i & ->));
    [now exists []|].
  cbn [obind].
  destruct (get_any i "display_name" (JStr "Desconocida")) as (institucion & ->).
  destruct (get_any i "id" (JStr "")) as (institucion_id & ->).
  destruct (get_default d "works_count" (JInt 0) _ Hworks) as (pubs & -> & Hpubs);
    [reflexivity|].
  destruct (get_default d "cited_by_count" (JInt 0) _ Hcited) as (citas & -> & Hcitas);
    [reflexivity|].
  cbn [obind]. eexists; split; [reflexivity|].
  repeat split; assumption.
Qed.

Lemma inst_data_run a :
  institution_ok a ->
  exists r, inst_data a = Ret (JDict r) /\ bar_row "nombre" "publicaciones" r.
Proof.
  intros (d & name & -> & Hname & Hworks).
  unfold inst_data.
  destruct (get_any d "id" JNull) as (id & ->).
  assert (Hn : get (JDict d) "display_name" JNull = Ret (JStr name))
    by (unfold get; now rewrite Hname).
  rewrite Hn.
  destruct (get_any d "type" JNull) as (tipo & ->).
  destruct (get_default d "works_count" (JInt 0) _ Hworks) as (pubs & -> & Hpubs);
    [reflexivity|].
  destruct (get_any d "cited_by_count" (JInt 0)) as (citas & ->).
  cbn [obind]. eexists; split; [reflexivity|].
  split; [reflexivity|assumption].
Qed.

Lemma slice_to_length n x l : slice_to n x = Ret l -> (length l <= n)%nat.
Proof.
  destruct x; simpl; try discriminate; intros [= <-]; apply firstn_le_length.
Qed.

Lemma present_key (d : dict) k v :
  dict_lookup k d = Some v -> present (JDict d) k = Ret true.
Proof.
  intros H. unfold present, contains. rewrite H.
  destruct d; [discriminate|reflexivity].
Qed.

Lemma answer_succeeds h content :
  succeeds h content -> answer h = Ret (JDict content).
Proof.
  intros (r & -> & Hstatus & Hbody). unfold answer, response_json.
  now rewrite Hstatus, Hbody.
Qed.

Lemma rows_nonempty {A} (x : A) (l : list A) (rows : list dict) n :
  length rows = length (firstn (S n) (x :: l)) ->
  exists r rs, rows = r :: rs.
Proof. destruct rows; simpl; [discriminate|eauto]. Qed.

(** C9, as the code has it.  Whenever [get_top_authors] returns, it returns
    a list of at most 20 entries, and [get_top_institutions] one of at most
    15.  They do return when the API answers 200 with at least one record
    under ['results'] and the first 20 (15) records are well-formed: the
    value is then the list built from these records, in the response's
    order, though the request asked for 50 (25); it is also what
    [autores_destacados.json] ([instituciones_destacadas.json]) holds.  The
    records after the 20th (15th) are not read: nothing is asked of
    them. *)
Theorem top_lists_keep_first_records s :
  (forall v, fst (get_top_authors s) = Ret v ->
             exists l, v = JList l /\ (length l <= 20)%nat) /\
  (forall v, fst (get_top_institutions s) = Ret v ->
             exists l, v = JList l /\ (length l <= 15)%nat) /\
  (forall content a authors,
     succeeds (first_answer s "authors" authors_params) content ->
     dict_lookup "results" content = Some (JList (a :: authors)) ->
     Forall author_ok (firstn 20 (a :: authors)) ->
     exists rows,
       omap author_data (firstn 20 (a :: authors)) = Ret (map JDict rows) /\
       length rows = Nat.min 20 (length (a :: authors)) /\
       get_top_authors s =
       (Ret (JList (map JDict rows)),
        emit_all author_charts
          (dumped authors_path (JList (map JDict rows))
             (asked s "authors" (Some authors_params))))) /\
  (forall content a institutions,
     succeeds (first_answer s "institutions" institutions_params) content ->
     dict_lookup "results" content = Some (JList (a :: institutions)) ->
     Forall institution_ok (firstn 15 (a :: institutions)) ->
     exists rows,
       omap inst_data (firstn 15 (a :: institutions)) = Ret (map JDict rows) /\
       length rows = Nat.min 15 (length (a :: institutions)) /\
       get_top_institutions s =
       (Ret (JList (map JDict rows)),
        emit (ERender (path_join VIZ_DIR "instituciones_mas_productivas.png"))
          (dumped institutions_path (JList (map JDict rows))
             (asked s "institutions" (Some institutions_params))))).
Proof.
  split; [|split; [|split]].
  - unfold get_top_authors. mrun; cbn [fst ret]; intros v Hv;
      try discriminate; try (injection Hv as <-; exists []; simpl; split; [reflexivity|lia]).
    revert Hv. rewrite bind_run.
    destruct (visualize_top_authors _ _) as [[[]|e|] s']; cbn [fst ret];
      intros Hv; try discriminate. injection Hv as <-.
    eexists; split; [reflexivity|].
    match goal with
    | H1 : slice_to _ _ = Ret ?first, H2 : omap _ ?first = Ret _ |- _ =>
        apply slice_to_length in H1; apply omap_length in H2; lia
    end.
  - unfold get_top_institutions. mrun; cbn [fst ret]; intros v Hv;
      try discriminate; try (injection Hv as <-; exists []; simpl; split; [reflexivity|lia]).
    revert Hv. rewrite bind_run.
    destruct (visualize_top_institutions _ _) as [[[]|e|] s']; cbn [fst ret];
      intros Hv; try discriminate. injection Hv as <-.
    eexists; split; [reflexivity|].
    match goal with
    | H1 : slice_to _ _ = Ret ?first, H2 : omap _ ?first = Ret _ |- _ =>
        apply slice_to_length in H1; apply omap_length in H2; lia
    end.
  - intros content a authors Hok Hresults Hwf.
    destruct (omap_rows author_data author_row (firstn 20 (a :: authors)))
      as (rows & Hrows & Hrow & Hlen).
    { eapply List.Forall_impl; [|exact Hwf]. apply author_data_run. }
    exists rows. split; [exact Hrows|]. split.
    { rewrite Hlen. apply length_firstn. }
    destruct (rows_nonempty _ _ _ _ Hlen) as (r & rs & ->).
    unfold get_top_authors. unfold first_answer, authors_params in Hok.
    rewrite bind_query, (answer_succeeds _ _ Hok).
    rewrite bind_lift, (present_key _ _ _ Hresults).
    rewrite bind_lift. cbn [getitem]. rewrite Hresults.
    rewrite bind_lift. cbn [slice_to].
    rewrite bind_lift, Hrows, bind_dump, bind_run.
    now rewrite visualize_top_authors_run.
  - intros content a institutions Hok Hresults Hwf.
    destruct (omap_rows inst_data (bar_row "nombre" "publicaciones")
                (firstn 15 (a :: institutions)))
      as (rows & Hrows & Hrow & Hlen).
    { eapply List.Forall_impl; [|exact Hwf]. apply inst_data_run. }
    exists rows. split; [exact Hrows|]. split.
    { rewrite Hlen. apply length_firstn. }
    destruct (rows_nonempty _ _ _ _ Hlen) as (r & rs & ->).
    unfold get_top_institutions. unfold first_answer, institutions_params in Hok.
    rewrite bind_query, (answer_succeeds _ _ Hok).
    rewrite bind_lift, (present_key _ _ _ Hresults).
    rewrite bind_lift. cbn [getitem]. rewrite Hresults.
    rewrite bind_lift. cbn [slice_to].
    rewrite bind_lift, Hrows, bind_dump, bind_run.
    now rewrite visualize_top_institutions_run.
Qed.


(** ** C3: what the rendering functions accept *)

(** C3, as the code has it.  Every rendering function returns without
    raising on input that is not empty and whose entries hold the fields
    the charts read, with positive counts where a pie is drawn; the
    optional fields of an area (['porcentaje_oa'], ['publicaciones_oa'],
    ['oa_status']) may be missing.  Each chart drawn is saved under
    [VIZ_DIR].  On empty input every one of them raises before it saves a
    chart: [visualize_oa_types] a [ValueError], from a pie without wedges,
    the four others a [KeyError], from [sort_values] on a table without
    columns. *)
Theorem renderers_accept_partial_input s :
  (forall entry d, Forall (counted is_pos) (entry :: d) ->
     visualize_oa_types (JDict (entry :: d)) s = (Ret tt, emit oa_chart s)) /\
  (forall entry d, Forall area_entry (entry :: d) ->
     exists with_oa,
       visualize_fields_data (JDict (entry :: d)) s =
       (Ret tt, emit_all (fields_charts with_oa) s)) /\
  (forall r rs, Forall author_row (r :: rs) ->
     visualize_top_authors (JList (map JDict (r :: rs))) s =
     (Ret tt, emit_all author_charts s)) /\
  (forall r rs, Forall (bar_row "nombre" "publicaciones") (r :: rs) ->
     visualize_top_institutions (JList (map JDict (r :: rs))) s =
     (Ret tt, emit (ERender (path_join VIZ_DIR "instituciones_mas_productivas.png")) s)) /\
  (forall entry d, Forall (counted is_num) (entry :: d) ->
     visualize_international_collaboration (JDict (entry :: d)) s =
     (Ret tt, emit collab_chart s)) /\
  visualize_oa_types (JDict []) s = (Raise ValueError, s) /\
  visualize_fields_data (JDict []) s = (Raise (KeyError "publicaciones"), s) /\
  visualize_top_authors (JList []) s
    = (Raise (KeyError "publicaciones_total"), s) /\
  visualize_top_institutions (JList []) s = (Raise (KeyError "publicaciones"), s) /\
  visualize_international_collaboration (JDict []) s
    = (Raise (KeyError "publicaciones"), s).
Proof.
  repeat split; intros.
  - now apply visualize_oa_types_run.
  - now apply visualize_fields_data_run.
  - now apply visualize_top_authors_run.
  - now apply visualize_top_institutions_run.
  - now apply visualize_international_collaboration_run.
Qed.

(** ** C6: the summary reads what the earlier steps saved *)

Lemma json_load_unreadable path s :
  unreadable (files s !! path) -> exists e, json_load path s = (Raise e, s).
Proof. unfold json_load. intros [-> | ->]; eauto. Qed.

Lemma json_load_document path s j :
  files s !! path = Some (Document j) -> json_load path s = (Ret j, s).
Proof. unfold json_load. now intros ->. Qed.

Lemma ready_empty cs : ready cs DataFrame_empty.
Proof. now exists (JList []). Qed.

Lemma ready_columns cs df :
  forallb (fun c => has_column c df) cs = true -> ready cs df.
Proof.
  intros H. unfold ready, records_or_nothing, to_records.
  destruct (negb (empty df)); [|eauto].
  replace (List.filter (fun c => negb (has_column c df)) cs) with (@nil string).
  - simpl. eauto.
  - symmetry. induction cs as [|c cs IH]; [reflexivity|].
    simpl in H. apply andb_true_iff in H as [Hc Hcs].
    cbn [List.filter]. rewrite Hc. cbn [negb]. now apply IH.
Qed.

Lemma has_key_column c r (rs rows : list dict) :
  has_key c r ->
  has_column c {| columns := columns_of (r :: rs); rows := rows |} = true.
Proof.
  intros [v Hv]. unfold has_column. cbn [columns].
  eapply columns_of_known; [left; reflexivity|exact Hv].
Qed.

Lemma has_num_column c r (rs rows : list dict) :
  is_num (cell c r) = true ->
  has_column c {| columns := columns_of (r :: rs); rows := rows |} = true.
Proof.
  intros H. apply has_key_column. now apply cell_num_present.
Qed.

Lemma load_authors_spec s :
  saved_list saved_author (files s !! authors_path) ->
  exists top df df_citas,
    load_authors s = (Ret (top, df, df_citas), s) /\
    (exists n, len top = Ret (JInt n)) /\
    ready ["nombre"; "institucion"; "publicaciones_total"] df /\
    ready ["nombre"; "institucion"; "citas"] df_citas /\
    (unreadable (files s !! authors_path) -> (top, df, df_citas) = no_authors).
Proof.
  intros [Hbad | (rows & Hfile & Hrows)].
  - destruct (json_load_unreadable _ _ Hbad) as [e He].
    exists (JList []), DataFrame_empty, DataFrame_empty.
    unfold load_authors, try_except. rewrite bind_run, He.
    repeat split; eauto using ready_empty; now exists 0%Z.
  - unfold load_authors, try_except.
    rewrite bind_run, (json_load_document _ _ _ Hfile).
    rewrite bind_lift. cbn [DataFrame_from]. rewrite DataFrame_of_records.
    destruct rows as [|r rs].
    + exists (JList []), DataFrame_empty, DataFrame_empty.
      rewrite bind_lift, sort_values_missing by reflexivity.
      repeat split; eauto using ready_empty; now exists 0%Z.
    + inversion Hrows as [|? ? (Hn & Hi & Hp & Hc) _]; subst.
      assert (Hcit : known "citas" (columns_of (r :: rs)) = true)
        by (eapply has_column_num; [left; reflexivity|exact Hc]).
      rewrite bind_lift, (sort_values_run "citas").
      2: exact Hcit.
      2:{ eapply List.Forall_impl; [|exact Hrows].
          intros r' (_ & _ & _ & ?). now apply is_num_size. }
      do 3 eexists. split; [reflexivity|]. split; [cbn [len]; eauto|].
      split; [|split].
      * apply ready_columns. cbn [forallb].
        now rewrite !has_key_column.
      * apply ready_columns. cbn [forallb columns].
        now rewrite (has_num_column "citas"), !has_key_column.
      * intros [Hbad|Hbad]; rewrite Hfile in Hbad; discriminate.
Qed.

Lemma load_institutions_spec s :
  saved_list saved_institution (files s !! institutions_path) ->
  exists top df,
    load_institutions s = (Ret (top, df), s) /\
    (exists n, len top = Ret (JInt n)) /\
    ready ["nombre"; "publicaciones"; "citas"] df /\
    (unreadable (files s !! institutions_path) -> (top, df) = no_institutions).
Proof.
  intros [Hbad | (rows & Hfile & Hrows)].
  - destruct (json_load_unreadable _ _ Hbad) as [e He].
    exists (JList []), DataFrame_empty.
    unfold load_institutions, try_except. rewrite bind_run, He.
    repeat split; eauto using ready_empty; now exists 0%Z.
  - unfold load_institutions, try_except.
    rewrite bind_run, (json_load_document _ _ _ Hfile).
    rewrite bind_lift. cbn [DataFrame_from]. rewrite DataFrame_of_records.
    do 2 eexists. split; [reflexivity|]. split; [cbn [len]; eauto|]. split.
    + destruct rows as [|r rs]; [now exists (JList [])|].
      inversion Hrows as [|? ? (Hn & Hp & Hc) _]; subst.
      apply ready_columns. cbn [forallb].
      now rewrite !has_key_column.
    + intros [Hbad|Hbad]; rewrite Hfile in Hbad; discriminate.
Qed.

Lemma collab_row_record ok entry :
  counted ok entry -> collab_row entry = Ret (JDict (collab_record entry)).
Proof.
  intros H. destruct (counted_count _ _ H) as (Hc & Hp & _).
  destruct entry as [country data]. simpl in *. unfold collab_row.
  now rewrite Hc, Hp.
Qed.

Lemma load_collaboration_spec s :
  saved_mapping (files s !! collab_path) ->
  exists data df,
    load_collaboration s = (Ret (data, df), s) /\
    (exists n, len data = Ret (JInt n)) /\
    ready ["pais"; "publicaciones"; "porcentaje"] df /\
    (unreadable (files s !! collab_path) -> (data, df) = no_collaboration).
Proof.
  intros [Hbad | (d & Hfile & Hd)].
  - destruct (json_load_unreadable _ _ Hbad) as [e He].
    exists (JDict []), DataFrame_empty.
    unfold load_collaboration, try_except. rewrite bind_run, He.
    repeat split; eauto using ready_empty; now exists 0%Z.
  - unfold load_collaboration, try_except.
    rewrite bind_run, (json_load_document _ _ _ Hfile).
    rewrite bind_lift. cbn [items].
    rewrite bind_lift, (omap_map _ (fun e => JDict (collab_record e))).
    2:{ eapply List.Forall_impl; [|exact Hd]. apply collab_row_record. }
    rewrite <- map_map, bind_lift, DataFrame_of_records.
    do 2 eexists. split; [reflexivity|]. split; [cbn [len]; eauto|]. split.
    + destruct d as [|entry d]; [now exists (JList [])|].
      apply ready_columns. cbn [map forallb].
      rewrite !has_key_column; [reflexivity| | |]; eexists; reflexivity.
    + intros [Hbad|Hbad]; rewrite Hfile in Hbad; discriminate.
Qed.

(** C6.  Let each of [autores_destacados.json],
    [instituciones_destacadas.json] and [colaboracion_internacional.json]
    be missing, unreadable, or as the extraction steps save it.  Then
    [create_summary_analysis] returns without raising, writes what it
    returns to [analisis_resumido.json] and changes nothing else; and for
    each file that is missing or unreadable the matching section of the
    summary is the default: a total of 0 and empty record lists. *)
Theorem summary_defaults_for_missing_files s :
  saved_list saved_author (files s !! authors_path) ->
  saved_list saved_institution (files s !! institutions_path) ->
  saved_mapping (files s !! collab_path) ->
  exists v,
    create_summary_analysis s = (Ret v, dumped summary_path v s) /\
    (unreadable (files s !! authors_path) ->
     getitem v "autores_destacados" = Ret default_authors) /\
    (unreadable (files s !! institutions_path) ->
     getitem v "instituciones_destacadas" = Ret default_institutions) /\
    (unreadable (files s !! collab_path) ->
     getitem v "colaboracion_internacional" = Ret default_collaboration).
Proof.
  intros Ha Hi Hc.
  destruct (load_authors_spec s Ha)
    as (top & df & dfc & HLa & (na & Hna) & (j1 & Hj1) & (j2 & Hj2) & Hda).
  destruct (load_institutions_spec s Hi)
    as (topi & dfi & HLi & (ni & Hni) & (j3 & Hj3) & Hdi).
  destruct (load_collaboration_spec s Hc)
    as (data & dfk & HLc & (nc & Hnc) & (j4 & Hj4) & Hdc).
  unfold create_summary_analysis.
  rewrite bind_run, HLa. cbv beta iota.
  rewrite bind_run, HLi. cbv beta iota.
  rewrite bind_run, HLc. cbv beta iota.
  rewrite bind_lift, Hna, bind_lift, Hj1, bind_lift, Hj2.
  rewrite bind_lift, Hni, bind_lift, Hj3.
  rewrite bind_lift, Hnc, bind_lift, Hj4.
  rewrite bind_dump. eexists; split; [reflexivity|].
  split; [|split]; intros Hbad.
  - specialize (Hda Hbad). injection Hda as -> -> ->.
    injection Hna as <-. injection Hj1 as <-. injection Hj2 as <-. reflexivity.
  - specialize (Hdi Hbad). injection Hdi as -> ->.
    injection Hni as <-. injection Hj3 as <-. reflexivity.
  - specialize (Hdc Hbad). injection Hdc as -> ->.
    injection Hnc as <-. injection Hj4 as <-. reflexivity.
Qed.

(** ** C5: the percentages of the open-access breakdown *)

Lemma dict_set_fresh (d : dict) k v :
  ~ In k (keys d) -> dict_set d k v = (d ++ [(k, v)])%list.
Proof.
  induction d as [|[k' v'] d IH]; simpl; intros H; [reflexivity|].
  destruct (String.eqb k k') eqn:E.
  - apply String.eqb_eq in E. subst. tauto.
  - rewrite IH; tauto.
Qed.

Lemma inject_Z_nonzero (n : Z) : n <> 0%Z -> ~ (inject_Z n == 0)%Q.
Proof.
  intros H E. apply H. now apply (proj1 (inject_Z_injective n 0)).
Qed.

Lemma percentage_of_int total count :
  total <> 0%Z ->
  percentage_of (JInt count) (JInt total) = Ret (JFloat (percent total count)).
Proof.
  intros H. unfold percentage_of, truediv. cbn [as_number].
  destruct (Qeq_bool (inject_Z total) 0) eqn:E.
  - apply Qeq_bool_iff in E. now apply inject_Z_nonzero in E.
  - reflexivity.
Qed.

Lemma oa_fold_items total kcs group acc :
  total <> 0%Z ->
  Forall2 is_item kcs group ->
  List.NoDup (map fst kcs) ->
  (forall k, In k (map fst kcs) -> ~ In k (keys acc)) ->
  ofold (oa_type_entry (JInt total)) group acc =
  Ret (acc ++ map (oa_entry total) kcs)%list.
Proof.
  intros Htotal Hitems. revert acc.
  induction Hitems as [|kc item kcs group (d & -> & Hk & Hc) _ IH];
    intros acc Hnodup Hfresh.
  - simpl. now rewrite app_nil_r.
  - cbn [ofold]. unfold oa_type_entry at 1. cbn [getitem].
    rewrite Hk, Hc. cbn [obind].
    rewrite percentage_of_int by assumption. cbn [obind as_key].
    rewrite dict_set_fresh by (apply Hfresh; now left).
    inversion Hnodup as [|? ? Hnotin Hnodup']; subst.
    rewrite IH; [now rewrite <- app_assoc|assumption|].
    intros k Hin. unfold keys. rewrite map_app, in_app_iff. simpl.
    intros [Hacc|[<-|[]]].
    + apply (Hfresh k); [now right|exact Hacc].
    + contradiction.
Qed.

Lemma percentages_entries total kcs :
  percentages (map (oa_entry total) kcs) = map (fun kc => percent total (snd kc)) kcs.
Proof. induction kcs as [|kc kcs IH]; simpl; [|rewrite <- IH]; reflexivity. Qed.

(** *** The error of a rounding *)

Lemma round_half_even_error (x : Q) :
  (Qabs (inject_Z (round_half_even x) - x) <= 1 # 2)%Q.
Proof.
  unfold round_half_even.
  pose proof (Qfloor_le x) as Hlo. pose proof (Qlt_floor x) as Hhi.
  rewrite inject_Z_plus in Hhi. change (inject_Z 1) with 1%Q in Hhi.
  apply Qabs_Qle_condition.
  destruct (Qcompare (x - inject_Z (Qfloor x)) (1 # 2)) eqn:E.
  - apply Qeq_alt in E.
    destruct (Z.even (Qfloor x)); rewrite ?inject_Z_plus;
      change (inject_Z 1) with 1%Q; split; lra.
  - apply Qlt_alt in E. split; lra.
  - apply Qgt_alt in E. rewrite inject_Z_plus. change (inject_Z 1) with 1%Q.
    split; lra.
Qed.

Lemma binade_le (q : Q) : ~ (q == 0)%Q -> (2 ^ binade q <= Qabs q)%Q.
Proof.
  intros Hq. unfold binade.
  set (n := Z.abs (Qnum q)). set (d := Z.pos (Qden q)).
  destruct (Qle_bool (2 ^ (Z.log2 n - Z.log2 d)) (Qabs q)) eqn:E.
  - now apply Qle_bool_iff.
  - clear E.
    assert (Hn : (0 < n)%Z).
    { subst n. destruct q as [[|p|p] dd]; simpl; try lia.
      exfalso. apply Hq. reflexivity. }
    assert (Hd : (0 < d)%Z) by (subst d; lia).
    destruct (Z.log2_spec n Hn) as [Han _].
    destruct (Z.log2_spec d Hd) as [_ Hdb].
    pose proof (Z.log2_nonneg n) as Ha. pose proof (Z.log2_nonneg d) as Hb.
    replace (Z.log2 n - Z.log2 d - 1)%Z with (Z.log2 n - Z.succ (Z.log2 d))%Z by lia.
    rewrite Qpower_minus by discriminate.
    rewrite <- !(Zpower_Qpower 2) by lia.
    assert (Hq' : (Qabs q == inject_Z n / inject_Z d)%Q).
    { destruct q as [qn qd]. unfold n, d, Qabs. cbn [Qnum Qden].
      rewrite (Qmake_Qdiv (Z.abs qn) qd). reflexivity. }
    rewrite Hq'.
    assert (HB : (0 < inject_Z (2 ^ Z.succ (Z.log2 d)))%Q).
    { change 0%Q with (inject_Z 0). rewrite <- Zlt_Qlt. lia. }
    assert (HD : (0 < inject_Z d)%Q).
    { change 0%Q with (inject_Z 0). now rewrite <- Zlt_Qlt. }
    apply Qle_shift_div_r; [exact HB|].
    unfold Qdiv. rewrite <- Qmult_assoc, (Qmult_comm (/ inject_Z d)), Qmult_assoc.
    apply Qle_shift_div_l; [exact HD|].
    rewrite <- !inject_Z_mult, <- Zle_Qle.
    apply Z.mul_le_mono_nonneg; lia.
Qed.

(** A double is within [2^-53] of the number it rounds, relatively. *)
Lemma binary64_error (q : Q) :
  (Qabs (binary64 q - q) <= half_ulp * Qabs q)%Q.
Proof.
  unfold binary64. destruct (Qeq_bool q 0) eqn:E.
  - apply Qeq_bool_iff in E. rewrite E. discriminate.
  - assert (Hq : ~ (q == 0)%Q).
    { intros H. apply Qeq_bool_iff in H. congruence. }
    cbv zeta. rewrite Qred_correct.
    set (u := (2 ^ (binade q - 52))%Q).
    assert (Hu : (0 < u)%Q) by now apply Qpower_0_lt.
    pose proof (round_half_even_error (q / u)) as Hr.
    set (m := inject_Z (round_half_even (q / u))) in *.
    assert (Hb : (u * inject_Z (2 ^ 52) <= Qabs q)%Q).
    { unfold u. rewrite Qpower_minus by discriminate.
      rewrite <- (Zpower_Qpower 2 52) by lia.
      unfold Qdiv. rewrite <- Qmult_assoc, (Qmult_comm (/ _)), Qmult_inv_r, Qmult_1_r.
      - now apply binade_le.
      - discriminate. }
    assert (Hd : (m * u - q == (m - q / u) * u)%Q) by (field; lra).
    rewrite Hd, Qabs_Qmult, (Qabs_pos u) by lra.
    apply Qle_trans with ((1 # 2) * u)%Q.
    + apply Qmult_le_compat_r; [exact Hr|lra].
    + unfold half_ulp.
      change (inject_Z (2 ^ 52)) with (4503599627370496 # 1)%Q in Hb.
      lra.
Qed.

Lemma rounds_within_nonneg eps : rounds_within eps -> (0 <= eps)%Q.
Proof.
  intros H. specialize (H 1%Q). change (Qabs 1) with 1%Q in H.
  pose proof (Qabs_nonneg (fl 1 - 1)). lra.
Qed.

Lemma share_nonneg total count :
  (0 < total)%Z -> (0 <= count)%Z -> (0 <= share total count)%Q.
Proof.
  intros Ht Hc. unfold share.
  assert (0 < inject_Z total)%Q
    by (change 0%Q with (inject_Z 0); now rewrite <- Zlt_Qlt).
  assert (0 <= inject_Z count)%Q
    by (change 0%Q with (inject_Z 0); now rewrite <- Zle_Qle).
  assert (0 <= inject_Z count / inject_Z total)%Q.
  { apply Qle_shift_div_l; [assumption|]. lra. }
  lra.
Qed.

(** The division and the product each round once. *)
Lemma percent_error eps total count :
  rounds_within eps -> (0 < total)%Z -> (0 <= count)%Z ->
  (Qabs (percent total count - share total count)
   <= (2 * eps + eps * eps) * share total count)%Q.
Proof.
  intros Hfl Ht Hc. pose proof (rounds_within_nonneg eps Hfl) as Heps.
  pose proof (share_nonneg total count Ht Hc) as Hs.
  unfold percent, share in *.
  set (x := (inject_Z count / inject_Z total)%Q) in *.
  assert (Hx : (0 <= x)%Q) by lra.
  pose proof (Hfl (Qred x)) as H1.
  set (a := fl (Qred x)) in *.
  pose proof (Hfl (Qred (a * inject_Z 100))) as H2.
  set (p := fl (Qred (a * inject_Z 100))) in *.
  rewrite !Qred_correct in H1, H2.
  change (inject_Z 100) with 100%Q in *.
  rewrite (Qabs_pos x) in H1 by exact Hx.
  rewrite Qabs_Qmult in H2. change (Qabs 100) with 100%Q in H2.
  apply Qabs_Qle_condition in H1.
  assert (HA : (Qabs a <= x + eps * x)%Q).
  { apply Qabs_Qle_condition. split; lra. }
  assert (HeA : (eps * Qabs a <= eps * x + eps * (eps * x))%Q).
  { rewrite <- Qmult_plus_distr_r.
    rewrite (Qmult_comm eps (Qabs a)), (Qmult_comm eps (x + eps * x)).
    apply Qmult_le_compat_r; assumption. }
  apply Qabs_Qle_condition in H2. apply Qabs_Qle_condition.
  set (A := Qabs a) in *.
  assert (E1 : (eps * (A * 100) == eps * A * 100)%Q) by ring.
  assert (E2 : ((2 * eps + eps * eps) * (x * 100)
                == (2 * (eps * x) + eps * (eps * x)) * 100)%Q) by ring.
  rewrite E1 in H2. rewrite E2.
  set (ex := (eps * x)%Q) in *. set (eA := (eps * A)%Q) in *.
  set (eex := (eps * ex)%Q) in *.
  split; lra.
Qed.

Lemma share_plus total c d :
  (share total (c + d) == share total c + share total d)%Q.
Proof. unfold share. rewrite inject_Z_plus. unfold Qdiv. ring. Qed.

Lemma share_all total : total <> 0%Z -> (share total total == 100)%Q.
Proof.
  intros H. unfold share. field. now apply inject_Z_nonzero.
Qed.

Lemma sum_percent_error eps total (counts : list Z) :
  rounds_within eps -> (0 < total)%Z -> Forall (fun c => (0 <= c)%Z) counts ->
  (Qabs (sumQ (map (percent total) counts) - share total (sumZ counts))
   <= (2 * eps + eps * eps) * share total (sumZ counts))%Q.
Proof.
  intros Hfl Ht Hc.
  induction Hc as [|c counts Hc _ IH]; cbn [map sumQ sumZ fold_right].
  - unfold share. change (inject_Z 0) with 0%Q.
    assert (E : (0 - 0 / inject_Z total * 100 == 0)%Q) by (unfold Qdiv; ring).
    rewrite E.
    assert (E' : (0 / inject_Z total * 100 == 0)%Q) by (unfold Qdiv; ring).
    rewrite E'. change (Qabs 0) with 0%Q. lra.
  - fold (sumQ (map (percent total) counts)). fold (sumZ counts).
    rewrite share_plus.
    pose proof (percent_error eps total c Hfl Ht Hc) as Hp.
    set (K := (2 * eps + eps * eps)%Q) in *.
    assert (E : (percent total c + sumQ (map (percent total) counts)
                 - (share total c + share total (sumZ counts))
                 == (percent total c - share total c)
                    + (sumQ (map (percent total) counts)
                       - share total (sumZ counts)))%Q) by ring.
    rewrite E. eapply Qle_trans; [apply Qabs_triangle|].
    rewrite Qmult_plus_distr_r. apply Qplus_le_compat; assumption.
Qed.

Lemma query_asked s endpoint params endpoint' params' :
  query (asked s endpoint params) endpoint' params' = query s endpoint' params'.
Proof. reflexivity. Qed.

Lemma percentage_of_num count total :
  is_num count = true -> total <> 0%Z ->
  exists p, percentage_of count (JInt total) = Ret p.
Proof.
  intros Hc Ht. unfold percentage_of, truediv, is_num in *. cbn [as_number].
  destruct (as_number count) as [q| |]; try discriminate.
  destruct (Qeq_bool (inject_Z total) 0) eqn:E.
  - apply Qeq_bool_iff in E. now apply inject_Z_nonzero in E.
  - cbn [obind mul as_number]. eauto.
Qed.

(** C5, as the code has it.  The code never compares the group-by counts
    with [total_publications]; it divides each by it.  For a response whose
    items have distinct string keys and integer counts,
    [datos_tipos_oa.json] holds each key with its count and the percentage
    [count / total_publications * 100], rounded after the division and
    after the product; it holds them whether or not the chart can then be
    drawn.  When each rounding has a relative error of at most [eps]
    ([2^-53] for doubles), the total is positive and no count is negative,
    the percentages sum to [100 * (sum of the counts) / total_publications]
    up to a relative error of [2 eps + eps^2]: to 100, up to that error,
    when the counts sum to [total_publications]. *)
Theorem oa_percentages_sum s total total_oa content meta types group kcs :
  total_publications (self s) = JInt total -> total <> 0%Z ->
  succeeds (first_answer s "works" (oa_params (self s))) content ->
  dict_lookup "meta" content = Some (JDict meta) ->
  dict_lookup "count" meta = Some total_oa -> is_num total_oa = true ->
  succeeds (oa_types_answer s) types ->
  dict_lookup "group_by" types = Some (JList group) ->
  Forall2 is_item kcs group ->
  List.NoDup (map fst kcs) ->
  files (snd (get_oa_stats s)) !! oa_types_path
    = Some (Document (JDict (map (oa_entry total) kcs))) /\
  forall eps,
    rounds_within eps -> (0 < total)%Z ->
    Forall (fun kc => (0 <= snd kc)%Z) kcs ->
    (Qabs (sumQ (percentages (map (oa_entry total) kcs))
           - share total (sumZ (map snd kcs)))
     <= (2 * eps + eps * eps) * share total (sumZ (map snd kcs)))%Q /\
    (sumZ (map snd kcs) = total ->
     (Qabs (sumQ (percentages (map (oa_entry total) kcs)) - 100)
      <= (2 * eps + eps * eps) * 100)%Q).
Proof.
  intros Htotal Hnz Hfirst Hmeta Hcount Hnum Hsecond Hgroup Hitems Hnodup.
  split.
  - unfold get_oa_stats. unfold first_answer, oa_params in Hfirst.
    unfold oa_types_answer, oa_params, oa_types_params in Hsecond.
    rewrite bind_get_self, bind_query, (answer_succeeds _ _ Hfirst).
    rewrite bind_lift, (present_key _ _ _ Hmeta).
    rewrite bind_lift. cbn [getitem]. rewrite Hmeta.
    rewrite bind_lift. cbn [getitem]. rewrite Hcount.
    rewrite Htotal.
    destruct (percentage_of_num total_oa total Hnum Hnz) as (p & Hp).
    rewrite bind_lift, Hp.
    rewrite bind_query, query_asked, (answer_succeeds _ _ Hsecond).
    rewrite bind_lift, (present_key _ _ _ Hgroup).
    rewrite bind_lift. cbn [getitem]. rewrite Hgroup.
    rewrite bind_lift. cbn [iter].
    rewrite bind_lift, (oa_fold_items total kcs group []) by (auto; intros ? ? []).
    cbn [app]. rewrite bind_dump, bind_run.
    match goal with
    | |- context [visualize_oa_types ?d ?s1] =>
        destruct (draws_run _ _ s1 (visualize_oa_types_draws d))
          as (evs & r & -> & Hcharts & _)
    end.
    destruct r; cbn [snd ret];
      rewrite (emit_all_files _ _ oa_types_path Hcharts eq_refl);
      apply lookup_insert_eq.
  - intros eps Hfl Hpos Hcounts.
    rewrite percentages_entries, <- (map_map snd (percent total)).
    assert (Hsum : (Qabs (sumQ (map (percent total) (map snd kcs))
                          - share total (sumZ (map snd kcs)))
                    <= (2 * eps + eps * eps) * share total (sumZ (map snd kcs)))%Q).
    { apply sum_percent_error; try assumption. now apply Forall_map. }
    split; [exact Hsum|].
    intros Hall. rewrite Hall, share_all in Hsum by exact Hnz. exact Hsum.
Qed.

(** * Further properties of the methods *)

(** ** What a method may do to the state *)

Lemma replay_app evs evs' s : replay (evs ++ evs') s = replay evs' (replay evs s).
Proof. apply fold_left_app. Qed.

Lemma replay_self evs s : self (replay evs s) = self s.
Proof.
  revert s. induction evs as [|e evs IH]; intros s; [reflexivity|].
  cbn [replay fold_left]. fold (replay evs (apply_event s e)).
  rewrite IH. now destruct e.
Qed.

Lemma replay_trace evs s : trace (replay evs s) = (trace s ++ evs)%list.
Proof.
  revert s. induction evs as [|e evs IH]; intros s.
  - simpl. now rewrite app_nil_r.
  - cbn [replay fold_left]. fold (replay evs (apply_event s e)).
    rewrite IH. destruct e; simpl; now rewrite <- app_assoc.
Qed.

Lemma replay_files paths me evs s :
  Forall (allowed paths me) evs -> untouched paths s (replay evs s).
Proof.
  intros H. revert s. induction H as [|e evs He Hevs IH]; intros s p Hp.
  - reflexivity.
  - cbn [replay fold_left]. fold (replay evs (apply_event s e)).
    rewrite (IH _ p Hp). destruct e as [url params|path obj|path]; try reflexivity.
    + cbn [apply_event dumped files]. apply lookup_insert_ne.
      intros ->. now apply Hp.
    + cbn [apply_event emit files]. apply lookup_insert_ne.
      intros ->. now apply Hp.
Qed.

Lemma emit_all_replay evs s :
  forallb is_render evs = true -> emit_all evs s = replay evs s.
Proof.
  revert s. induction evs as [|e evs IH]; intros s H; [reflexivity|].
  simpl in H. apply andb_true_iff in H as [He Hevs].
  destruct e; try discriminate. simpl. now apply IH.
Qed.

Lemma allowed_more paths paths' me e :
  (forall p, In p paths -> In p paths') -> allowed paths me e -> allowed paths' me e.
Proof. intros H. destruct e; simpl; auto. Qed.

Lemma performs_more paths paths' {A} (m : M A) :
  (forall p, In p paths -> In p paths') -> performs paths m -> performs paths' m.
Proof.
  intros H Hm s. destruct (Hm s) as (evs & Hs & Hevs). exists evs.
  split; [exact Hs|]. eapply List.Forall_impl; [|exact Hevs].
  intros e. now apply allowed_more.
Qed.

Lemma performs_ret paths {A} (a : A) : performs paths (ret a).
Proof. intros s. now exists []. Qed.

Lemma performs_lift paths {A} (r : outcome A) : performs paths (lift r).
Proof. intros s. now exists []. Qed.

Lemma performs_get_self paths : performs paths get_self.
Proof. intros s. now exists []. Qed.

Lemma performs_savefig paths path : In path paths -> performs paths (savefig path).
Proof.
  intros H s. exists [ERender path]. split; [reflexivity|].
  constructor; [exact H|constructor].
Qed.

Lemma performs_dump paths path obj : In path paths -> performs paths (json_dump path obj).
Proof.
  intros H s. exists [EWrite path obj]. split; [reflexivity|].
  constructor; [exact H|constructor].
Qed.

Lemma performs_load paths path : performs paths (json_load path).
Proof.
  intros s. exists []. unfold json_load.
  destruct (files s !! path) as [[j|]|]; now split.
Qed.

Lemma performs_query paths endpoint params :
  In endpoint endpoints -> performs paths (query_api endpoint params).
Proof.
  intros H s. rewrite query_api_run.
  exists [EGet (url_of (self s) endpoint) (sent_params (self s) params)].
  split; [reflexivity|]. constructor; [|constructor].
  split; [now exists endpoint|apply dict_lookup_set_eq].
Qed.

Lemma performs_bind paths {A B} (m : M A) (k : A -> M B) :
  performs paths m -> (forall a, performs paths (k a)) -> performs paths (bind m k).
Proof.
  intros Hm Hk s. destruct (Hm s) as (evs & Hs & Hevs).
  unfold bind. destruct (m s) as [[a|e|] s']; cbn [snd] in *; subst s';
    try (now exists evs).
  destruct (Hk a (replay evs s)) as (evs' & Hs' & Hevs').
  rewrite replay_self in Hevs'.
  exists (evs ++ evs')%list. rewrite replay_app. split; [exact Hs'|].
  now apply Forall_app.
Qed.

Lemma performs_try paths {A} (m h : M A) :
  performs paths m -> performs paths h -> performs paths (try_except m h).
Proof.
  intros Hm Hh s. destruct (Hm s) as (evs & Hs & Hevs).
  unfold try_except. destruct (m s) as [[a|e|] s']; cbn [snd] in *; subst s';
    try (now exists evs).
  destruct (Hh (replay evs s)) as (evs' & Hs' & Hevs').
  rewrite replay_self in Hevs'.
  exists (evs ++ evs')%list. rewrite replay_app. split; [exact Hs'|].
  now apply Forall_app.
Qed.

Lemma performs_mfold paths {A B} (f : A -> B -> M B) l b :
  (forall a b, performs paths (f a b)) -> performs paths (mfold f l b).
Proof.
  intros Hf. revert b. induction l as [|a l IH]; intros b.
  - apply performs_ret.
  - cbn [mfold]. apply performs_bind; [apply Hf|intros b'; apply IH].
Qed.

Ltac perform :=
  repeat first
    [ apply performs_ret
    | apply performs_lift
    | apply performs_get_self
    | apply performs_load
    | apply performs_savefig; cbv; tauto
    | apply performs_dump; cbv; tauto
    | apply performs_query; simpl; tauto
    | apply performs_bind; [|intros ?]
    | match goal with
      | |- performs _ (if ?b then _ else _) => destruct b
      | |- performs _ (let '(_, _) := ?a in _) => destruct a
      end ].

Lemma get_oa_stats_performs : performs oa_files get_oa_stats.
Proof. unfold get_oa_stats. perform. Qed.

Lemma area_step_performs paths area fields_data :
  performs paths (area_step area fields_data).
Proof. destruct area as [area_id area_nombre]. unfold area_step. perform. Qed.

Lemma get_data_by_field_performs : performs fields_files get_data_by_field.
Proof.
  unfold get_data_by_field. apply performs_bind.
  - apply performs_mfold. intros. apply area_step_performs.
  - intros fd. perform.
Qed.

Lemma get_top_authors_performs : performs authors_files get_top_authors.
Proof. unfold get_top_authors. perform. Qed.

Lemma get_top_institutions_performs :
  performs institutions_files get_top_institutions.
Proof. unfold get_top_institutions. perform. Qed.

Lemma get_international_collaboration_performs :
  performs collab_files get_international_collaboration.
Proof. unfold get_international_collaboration. perform. Qed.

Lemma create_summary_analysis_performs : performs [summary_path] create_summary_analysis.
Proof.
  unfold create_summary_analysis, load_authors, load_institutions, load_collaboration.
  perform; try (apply performs_try; perform).
Qed.

Lemma with_total_same s : with_total (total_publications (self s)) s = s.
Proof. destruct s as [[] ? ?]. reflexivity. Qed.

Lemma with_total_replay t evs s :
  with_total t (replay evs s) = replay evs (with_total t s).
Proof.
  revert s. induction evs as [|e evs IH]; intros s; [reflexivity|].
  cbn [replay fold_left]. fold (replay evs (apply_event s e)).
  fold (replay evs (apply_event (with_total t s) e)).
  rewrite IH. now destruct e.
Qed.

Lemma performs_total_of paths {A} (m : M A) : performs paths m -> performs_total paths m.
Proof.
  intros H s. destruct (H s) as (evs & Hs & Hevs).
  exists evs, (total_publications (self s)). now rewrite with_total_same.
Qed.

Lemma performs_total_bind paths {A B} (m : M A) (k : A -> M B) :
  performs_total paths m -> (forall a, performs paths (k a)) ->
  performs_total paths (bind m k).
Proof.
  intros Hm Hk s. destruct (Hm s) as (evs & t & Hs & Hevs).
  unfold bind. destruct (m s) as [[a|e|] s']; cbn [snd] in *; subst s';
    try (now exists evs, t).
  destruct (Hk a (replay evs (with_total t s))) as (evs' & Hs' & Hevs').
  rewrite replay_self in Hevs'.
  exists (evs ++ evs')%list, t. rewrite replay_app. split; [exact Hs'|].
  apply Forall_app. split; [exact Hevs|].
  eapply List.Forall_impl; [|exact Hevs']. now intros [].
Qed.

Lemma get_general_stats_performs : performs_total [general_path] get_general_stats.
Proof.
  intros s. unfold get_general_stats.
  assert (Hget : allowed [general_path] (self s)
            (EGet (url_of (self s) "works")
                  (sent_params (self s) (Some (general_params (self s)))))).
  { split; [exists "works"; simpl; tauto|apply dict_lookup_set_eq]. }
  mrun; cbn [snd ret];
    try (exists [EGet (url_of (self s) "works")
                      (sent_params (self s) (Some (general_params (self s))))],
                (total_publications (self s));
         rewrite with_total_same; split; [reflexivity|now constructor]).
  rewrite bind_set_total, bind_dump. cbn [snd ret].
  match goal with
  | |- context [dumped ?p ?obj (with_total ?t _)] =>
      exists [EGet (url_of (self s) "works")
                   (sent_params (self s) (Some (general_params (self s))));
              EWrite p obj], t
  end.
  split; [reflexivity|].
  constructor; [exact Hget|]. constructor; [simpl; tauto|constructor].
Qed.

Lemma run_full_analysis_performs : performs_total output_files run_full_analysis.
Proof.
  unfold run_full_analysis. apply performs_total_bind.
  - intros s. destruct (get_general_stats_performs s) as (evs & t & Hs & Hevs).
    exists evs, t. split; [exact Hs|].
    eapply List.Forall_impl; [|exact Hevs].
    intros e. apply allowed_more. cbv. tauto.
  - intros _.
    apply performs_bind;
      [apply (performs_more oa_files);
         [cbv; tauto|apply get_oa_stats_performs]|intros _].
    apply performs_bind;
      [apply (performs_more fields_files);
         [cbv; tauto|apply get_data_by_field_performs]|intros _].
    apply performs_bind;
      [apply (performs_more authors_files);
         [cbv; tauto|apply get_top_authors_performs]|intros _].
    apply performs_bind;
      [apply (performs_more institutions_files);
         [cbv; tauto|apply get_top_institutions_performs]|intros _].
    apply performs_bind;
      [apply (performs_more collab_files);
         [cbv; tauto|apply get_international_collaboration_performs]|intros _].
    apply performs_bind;
      [apply (performs_more [summary_path]);
         [cbv; tauto|apply create_summary_analysis_performs]|intros _].
    apply performs_ret.
Qed.

Lemma performs_self paths {A} (m : M A) s :
  performs paths m -> self (snd (m s)) = self s.
Proof. intros H. destruct (H s) as (evs & -> & _). apply replay_self. Qed.

Lemma performs_total_identity paths {A} (m : M A) s :
  performs_total paths m -> same_identity (self s) (self (snd (m s))).
Proof.
  intros H. destruct (H s) as (evs & t & -> & _). rewrite replay_self.
  repeat split.
Qed.

Lemma performs_untouched paths {A} (m : M A) s :
  performs paths m -> untouched paths s (snd (m s)).
Proof. intros H. destruct (H s) as (evs & -> & Hevs). eapply replay_files; eauto. Qed.

Lemma performs_total_untouched paths {A} (m : M A) s :
  performs_total paths m -> untouched paths s (snd (m s)).
Proof.
  intros H. destruct (H s) as (evs & t & -> & Hevs).
  intros p Hp. now rewrite (replay_files _ _ _ _ Hevs p Hp).
Qed.

Lemma performs_identified paths {A} (m : M A) s :
  performs paths m -> requests_identified s (snd (m s)).
Proof.
  intros H. destruct (H s) as (evs & -> & Hevs). exists evs.
  split; [apply replay_trace|]. intros url params Hin.
  rewrite List.Forall_forall in Hevs. exact (Hevs _ Hin).
Qed.

Lemma performs_total_identified paths {A} (m : M A) s :
  performs_total paths m -> requests_identified s (snd (m s)).
Proof.
  intros H. destruct (H s) as (evs & t & -> & Hevs). exists evs.
  split; [now rewrite replay_trace|]. intros url params Hin.
  rewrite List.Forall_forall in Hevs. exact (Hevs _ Hin).
Qed.

(** X1.  [get_general_stats] is the only method that assigns
    [self.total_publications]: the six other steps of the analysis leave
    [self] as it is, and no method, [run_full_analysis] included, changes
    the email, the base URL or the period set by [__init__]. *)
Theorem total_publications_has_one_writer s :
  self (snd (get_oa_stats s)) = self s /\
  self (snd (get_data_by_field s)) = self s /\
  self (snd (get_top_authors s)) = self s /\
  self (snd (get_top_institutions s)) = self s /\
  self (snd (get_international_collaboration s)) = self s /\
  self (snd (create_summary_analysis s)) = self s /\
  same_identity (self s) (self (snd (get_general_stats s))) /\
  same_identity (self s) (self (snd (run_full_analysis s))).
Proof.
  split; [apply (performs_self _ _ _ get_oa_stats_performs)|].
  split; [apply (performs_self _ _ _ get_data_by_field_performs)|].
  split; [apply (performs_self _ _ _ get_top_authors_performs)|].
  split; [apply (performs_self _ _ _ get_top_institutions_performs)|].
  split; [apply (performs_self _ _ _ get_international_collaboration_performs)|].
  split; [apply (performs_self _ _ _ create_summary_analysis_performs)|].
  split; [apply (performs_total_identity _ _ _ get_general_stats_performs)|].
  apply (performs_total_identity _ _ _ run_full_analysis_performs).
Qed.

(** X2.  Each method writes its own JSON file and its own charts and no
    other file: every other file is, after the call, as it was before.
    [get_general_stats] and [create_summary_analysis] write one JSON file
    and no chart; [create_summary_analysis] leaves the three files it reads
    as they are; [run_full_analysis] touches the seven data files and the
    nine charts only. *)
Theorem methods_write_their_own_file s :
  untouched [general_path] s (snd (get_general_stats s)) /\
  untouched oa_files s (snd (get_oa_stats s)) /\
  untouched fields_files s (snd (get_data_by_field s)) /\
  untouched authors_files s (snd (get_top_authors s)) /\
  untouched institutions_files s (snd (get_top_institutions s)) /\
  untouched collab_files s (snd (get_international_collaboration s)) /\
  untouched [summary_path] s (snd (create_summary_analysis s)) /\
  (files (snd (create_summary_analysis s)) !! authors_path = files s !! authors_path /\
   files (snd (create_summary_analysis s)) !! institutions_path
     = files s !! institutions_path /\
   files (snd (create_summary_analysis s)) !! collab_path = files s !! collab_path) /\
  untouched output_files s (snd (run_full_analysis s)).
Proof.
  pose proof (performs_untouched _ _ s create_summary_analysis_performs) as Hsum.
  repeat apply conj.
  - apply (performs_total_untouched _ _ _ get_general_stats_performs).
  - apply (performs_untouched _ _ _ get_oa_stats_performs).
  - apply (performs_untouched _ _ _ get_data_by_field_performs).
  - apply (performs_untouched _ _ _ get_top_authors_performs).
  - apply (performs_untouched _ _ _ get_top_institutions_performs).
  - apply (performs_untouched _ _ _ get_international_collaboration_performs).
  - exact Hsum.
  - apply Hsum. intros [H|[]]. discriminate.
  - apply Hsum. intros [H|[]]. discriminate.
  - apply Hsum. intros [H|[]]. discriminate.
  - apply (performs_total_untouched _ _ _ run_full_analysis_performs).
Qed.

(** X3.  Every request a method sends, and so every request of
    [run_full_analysis], goes to [base_url/works], [base_url/authors] or
    [base_url/institutions] and carries the extractor's email as
    ['mailto']. *)
Theorem every_request_is_identified s :
  requests_identified s (snd (get_general_stats s)) /\
  requests_identified s (snd (get_oa_stats s)) /\
  requests_identified s (snd (get_data_by_field s)) /\
  requests_identified s (snd (get_top_authors s)) /\
  requests_identified s (snd (get_top_institutions s)) /\
  requests_identified s (snd (get_international_collaboration s)) /\
  requests_identified s (snd (run_full_analysis s)).
Proof.
  repeat apply conj.
  - apply (performs_total_identified _ _ _ get_general_stats_performs).
  - apply (performs_identified _ _ _ get_oa_stats_performs).
  - apply (performs_identified _ _ _ get_data_by_field_performs).
  - apply (performs_identified _ _ _ get_top_authors_performs).
  - apply (performs_identified _ _ _ get_top_institutions_performs).
  - apply (performs_identified _ _ _ get_international_collaboration_performs).
  - apply (performs_total_identified _ _ _ run_full_analysis_performs).
Qed.

(** ** How much a run asks, writes and draws *)

Lemma count_app f evs evs' : count f (evs ++ evs') = (count f evs + count f evs')%nat.
Proof. unfold count. now rewrite List.filter_app, length_app. Qed.

Lemma count_all f evs : forallb f evs = true -> count f evs = length evs.
Proof.
  unfold count. induction evs as [|e evs IH]; simpl; intros H; [reflexivity|].
  apply andb_true_iff in H as [-> Hevs]. simpl. now rewrite IH.
Qed.

Lemma count_none f g evs :
  (forall e, g e = true -> f e = false) -> forallb g evs = true -> count f evs = 0%nat.
Proof.
  intros Hfg. unfold count. induction evs as [|e evs IH]; simpl; intros H; [reflexivity|].
  apply andb_true_iff in H as [He Hevs]. rewrite (Hfg _ He). now apply IH.
Qed.

Lemma staged_spends gmin gmax rmax s s' :
  staged gmin gmax rmax s s' -> spends 1 gmax 1 rmax s s'.
Proof.
  intros (gets & writes & renders & Htrace & Hg & Hw & Hr & Hgn & Hwn & Hrn & _).
  exists (gets ++ writes ++ renders)%list. split; [exact Htrace|].
  rewrite !count_app.
  rewrite (count_all is_get gets Hg), (count_all is_write writes Hw),
          (count_all is_render renders Hr).
  rewrite (count_none is_get is_write writes), (count_none is_get is_render renders),
          (count_none is_write is_get gets), (count_none is_write is_render renders),
          (count_none is_render is_get gets), (count_none is_render is_write writes);
    try assumption; try (now intros []).
  lia.
Qed.

Lemma spends_then gmin gmax w r gmax' w' r' {A B} (m : M A) (k : A -> M B) s :
  spends gmin gmax w r s (snd (m s)) ->
  (forall a s1, spends 0 gmax' w' r' s1 (snd (k a s1))) ->
  spends gmin (gmax + gmax') (w + w') (r + r') s (snd (bind m k s)).
Proof.
  intros (evs & Htrace & Hg & Hw & Hr) Hk. unfold bind.
  destruct (m s) as [[a|e|] s1]; cbn [snd] in *;
    try (exists evs; repeat split; auto; lia).
  destruct (Hk a s1) as (evs' & Htrace' & Hg' & Hw' & Hr').
  exists (evs ++ evs')%list. rewrite Htrace', Htrace, <- app_assoc, !count_app.
  repeat split; auto; lia.
Qed.

Lemma spends_less gmin gmax w r s s' :
  spends gmin gmax w r s s' -> spends 0 gmax w r s s'.
Proof.
  intros (evs & ? & ? & ? & ?). exists evs. repeat split; auto; lia.
Qed.

Lemma reads_ret {A} (a : A) : reads (ret a).
Proof. intros s. reflexivity. Qed.

Lemma reads_lift {A} (r : outcome A) : reads (lift r).
Proof. intros s. reflexivity. Qed.

Lemma reads_load path : reads (json_load path).
Proof. intros s. unfold json_load. now destruct (files s !! path) as [[|]|]. Qed.

Lemma reads_bind {A B} (m : M A) (k : A -> M B) :
  reads m -> (forall a, reads (k a)) -> reads (bind m k).
Proof.
  intros Hm Hk s. unfold bind. specialize (Hm s).
  destruct (m s) as [[a|e|] s1]; cbn [snd] in *; subst s1; auto. apply Hk.
Qed.

Lemma reads_try {A} (m h : M A) : reads m -> reads h -> reads (try_except m h).
Proof.
  intros Hm Hh s. unfold try_except. specialize (Hm s).
  destruct (m s) as [[a|e|] s1]; cbn [snd] in *; subst s1; auto.
Qed.

Ltac read_only :=
  repeat first
    [ apply reads_ret | apply reads_lift | apply reads_load
    | apply reads_try | apply reads_bind; [|intros ?] ].

Lemma load_authors_reads : reads load_authors.
Proof. unfold load_authors. read_only. Qed.

Lemma load_institutions_reads : reads load_institutions.
Proof. unfold load_institutions. read_only. Qed.

Lemma load_collaboration_reads : reads load_collaboration.
Proof. unfold load_collaboration. read_only. Qed.

Lemma reads_run {A} (m : M A) s : reads m -> m s = (fst (m s), s).
Proof. intros H. specialize (H s). destruct (m s). simpl in *. now subst. Qed.

Lemma spends_nothing s : spends 0 0 1 0 s s.
Proof. exists []. rewrite app_nil_r. unfold count. repeat split; simpl; lia. Qed.

Lemma create_summary_analysis_spends s :
  spends 0 0 1 0 s (snd (create_summary_analysis s)).
Proof.
  unfold create_summary_analysis.
  rewrite bind_run, (reads_run _ s load_authors_reads).
  destruct (fst (load_authors s)) as [[[top df] dfc]| |];
    cbn [snd]; try apply spends_nothing.
  rewrite bind_run, (reads_run _ s load_institutions_reads).
  destruct (fst (load_institutions s)) as [[topi dfi]| |];
    cbn [snd]; try apply spends_nothing.
  rewrite bind_run, (reads_run _ s load_collaboration_reads).
  destruct (fst (load_collaboration s)) as [[data dfk]| |];
    cbn [snd]; try apply spends_nothing.
  mrun; cbn [snd ret]; try apply spends_nothing.
  eexists [EWrite _ _]. split; [apply trace_dumped|].
  unfold count. repeat split; simpl; lia.
Qed.

(** X4.  One run of [run_full_analysis] sends at least one request and at
    most 45 (1 + 2 + 3 * 13 + 1 + 1 + 1), writes at most seven files and
    saves at most nine charts, whatever the API answers and whether or not
    the run ends in an exception.  [create_summary_analysis] sends no
    request and saves no chart. *)
Theorem run_full_analysis_effects_bounded s :
  spends 1 45 7 9 s (snd (run_full_analysis s)) /\
  spends 0 0 1 0 s (snd (create_summary_analysis s)).
Proof.
  split; [|apply create_summary_analysis_spends].
  unfold run_full_analysis.
  apply (spends_then 1 1 1 0 44 6 9);
    [apply (staged_spends _ _ _ _ _ (get_general_stats_staged s))|intros _ s1].
  apply (spends_then 0 2 1 1 42 5 8);
    [apply (spends_less 1), (staged_spends _ _ _ _ _ (get_oa_stats_staged s1))|intros _ s2].
  apply (spends_then 0 39 1 3 3 4 5);
    [apply (spends_less 1), (staged_spends _ _ _ _ _ (get_data_by_field_staged s2))
    |intros _ s3].
  apply (spends_then 0 1 1 3 2 3 2);
    [apply (spends_less 1), (staged_spends _ _ _ _ _ (get_top_authors_staged s3))
    |intros _ s4].
  apply (spends_then 0 1 1 1 1 2 1);
    [apply (spends_less 1), (staged_spends _ _ _ _ _ (get_top_institutions_staged s4))
    |intros _ s5].
  apply (spends_then 0 1 1 1 0 1 0);
    [apply (spends_less 1),
       (staged_spends _ _ _ _ _ (get_international_collaboration_staged s5))
    |intros _ s6].
  apply (spends_then 0 0 1 0 0 0 0);
    [apply create_summary_analysis_spends|intros _ s7].
  exists []. rewrite app_nil_r. unfold count. repeat split; simpl; lia.
Qed.

(** ** What the methods make of an answer *)

Lemma present_missing (d : dict) k :
  dict_lookup k d = None -> present (JDict d) k = Ret false.
Proof. intros H. unfold present, contains. rewrite H. now destruct d. Qed.

Lemma getitem_key (d : dict) k v : dict_lookup k d = Some v -> getitem (JDict d) k = Ret v.
Proof. intros H. unfold getitem. now rewrite H. Qed.

Lemma getitem_missing (d : dict) k :
  dict_lookup k d = None -> getitem (JDict d) k = Raise (KeyError k).
Proof. intros H. unfold getitem. now rewrite H. Qed.

Lemma answer_broken h e : broken h e -> answer h = Raise e.
Proof.
  intros [[-> ->]|(r & -> & Hstatus & Hbody & ->)]; [reflexivity|].
  unfold answer, response_json. now rewrite Hstatus, Hbody.
Qed.

Lemma get_general_stats_run s content meta count :
  succeeds (first_answer s "works" (general_params (self s))) content ->
  dict_lookup "meta" content = Some meta ->
  getitem meta "count" = Ret count ->
  get_general_stats s =
  (Ret (metadata (self s) count),
   dumped general_path (metadata (self s) count)
     (with_total count (asked s "works" (Some (general_params (self s)))))).
Proof.
  intros Hok Hmeta Hcount. unfold get_general_stats.
  unfold first_answer, general_params in Hok.
  rewrite bind_get_self, bind_query, (answer_succeeds _ _ Hok).
  rewrite bind_lift, (present_key _ _ _ Hmeta).
  rewrite bind_lift, (getitem_key _ _ _ Hmeta).
  rewrite bind_lift, Hcount, bind_set_total, bind_dump. reflexivity.
Qed.

(** X5.  When the API answers the query of [get_general_stats] with status
    200 and a body whose ['meta'] holds a ['count'], the method stores that
    count in [self.total_publications], writes the count, the period and
    the date of the day to [metadatos_generales.json] and returns what it
    wrote; it has sent one request and saved no chart.  The count is
    stored as it comes, whatever its type. *)
Theorem get_general_stats_records_count s content meta count :
  succeeds (first_answer s "works" (general_params (self s))) content ->
  dict_lookup "meta" content = Some meta ->
  getitem meta "count" = Ret count ->
  get_general_stats s =
  (Ret (metadata (self s) count),
   dumped general_path (metadata (self s) count)
     (with_total count (asked s "works" (Some (general_params (self s)))))) /\
  total_publications (self (snd (get_general_stats s))) = count /\
  files (snd (get_general_stats s)) !! general_path
    = Some (Document (metadata (self s) count)).
Proof.
  intros Hok Hmeta Hcount.
  rewrite (get_general_stats_run _ _ _ _ Hok Hmeta Hcount).
  split; [reflexivity|]. split; [reflexivity|]. apply lookup_insert_eq.
Qed.

(** X6.  An answer with status 200 that lacks the key a method reads
    (['meta'], ['results'] or ['group_by']) is handled like a failed
    query: the method returns [None], [[]] or [{}] after its one request,
    with nothing written and [total_publications] as it was. *)
Theorem answer_without_key_counts_as_failure s content :
  (succeeds (first_answer s "works" (general_params (self s))) content ->
   dict_lookup "meta" content = None ->
   get_general_stats s =
   (Ret JNull, asked s "works" (Some (general_params (self s))))) /\
  (succeeds (first_answer s "works" (oa_params (self s))) content ->
   dict_lookup "meta" content = None ->
   get_oa_stats s =
   (Ret JNull, asked s "works" (Some (oa_params (self s))))) /\
  (succeeds (first_answer s "authors" authors_params) content ->
   dict_lookup "results" content = None ->
   get_top_authors s =
   (Ret (JList []), asked s "authors" (Some authors_params))) /\
  (succeeds (first_answer s "institutions" institutions_params) content ->
   dict_lookup "results" content = None ->
   get_top_institutions s =
   (Ret (JList []), asked s "institutions" (Some institutions_params))) /\
  (succeeds (first_answer s "works" (collab_params (self s))) content ->
   dict_lookup "group_by" content = None ->
   get_international_collaboration s =
   (Ret (JDict []), asked s "works" (Some (collab_params (self s))))).
Proof.
  repeat apply conj; intros Hok Hkey.
  - unfold get_general_stats. unfold first_answer, general_params in Hok.
    rewrite bind_get_self, bind_query, (answer_succeeds _ _ Hok).
    now rewrite bind_lift, (present_missing _ _ Hkey).
  - unfold get_oa_stats. unfold first_answer, oa_params in Hok.
    rewrite bind_get_self, bind_query, (answer_succeeds _ _ Hok).
    now rewrite bind_lift, (present_missing _ _ Hkey).
  - unfold get_top_authors. unfold first_answer, authors_params in Hok.
    rewrite bind_query, (answer_succeeds _ _ Hok).
    now rewrite bind_lift, (present_missing _ _ Hkey).
  - unfold get_top_institutions. unfold first_answer, institutions_params in Hok.
    rewrite bind_query, (answer_succeeds _ _ Hok).
    now rewrite bind_lift, (present_missing _ _ Hkey).
  - unfold get_international_collaboration. unfold first_answer, collab_params in Hok.
    rewrite bind_get_self, bind_query, (answer_succeeds _ _ Hok).
    now rewrite bind_lift, (present_missing _ _ Hkey).
Qed.

(** X7.  A ['meta'] object without ['count'] is not handled: both
    [get_general_stats] and [get_oa_stats] raise [KeyError('count')] after
    their request, before anything is stored or written. *)
Theorem meta_without_count_raises s content meta :
  dict_lookup "meta" content = Some (JDict meta) ->
  dict_lookup "count" meta = None ->
  (succeeds (first_answer s "works" (general_params (self s))) content ->
   get_general_stats s =
   (Raise (KeyError "count"), asked s "works" (Some (general_params (self s))))) /\
  (succeeds (first_answer s "works" (oa_params (self s))) content ->
   get_oa_stats s =
   (Raise (KeyError "count"), asked s "works" (Some (oa_params (self s))))).
Proof.
  intros Hmeta Hcount. split; intros Hok.
  - unfold get_general_stats. unfold first_answer, general_params in Hok.
    rewrite bind_get_self, bind_query, (answer_succeeds _ _ Hok).
    rewrite bind_lift, (present_key _ _ _ Hmeta).
    rewrite bind_lift, (getitem_key _ _ _ Hmeta).
    now rewrite bind_lift, (getitem_missing _ _ Hcount).
  - unfold get_oa_stats. unfold first_answer, oa_params in Hok.
    rewrite bind_get_self, bind_query, (answer_succeeds _ _ Hok).
    rewrite bind_lift, (present_key _ _ _ Hmeta).
    rewrite bind_lift, (getitem_key _ _ _ Hmeta).
    now rewrite bind_lift, (getitem_missing _ _ Hcount).
Qed.

(** X8.  No method catches what [query_api] raises.  When the API gives no
    answer to a method's first request ([ConnectionError]), or answers 200
    with a body that is not JSON ([JSONDecodeError]), the method raises
    that exception after the one request, with nothing written;
    [get_data_by_field] then writes no file either, and
    [run_full_analysis] stops at its first request. *)
Theorem query_errors_are_not_caught s e :
  (broken (first_answer s "works" (general_params (self s))) e ->
   get_general_stats s =
     (Raise e, asked s "works" (Some (general_params (self s)))) /\
   run_full_analysis s =
     (Raise e, asked s "works" (Some (general_params (self s))))) /\
  (broken (first_answer s "works" (oa_params (self s))) e ->
   get_oa_stats s = (Raise e, asked s "works" (Some (oa_params (self s))))) /\
  (broken (first_answer s "works" (area_params (self s) first_area)) e ->
   get_data_by_field s =
     (Raise e, asked s "works" (Some (area_params (self s) first_area)))) /\
  (broken (first_answer s "authors" authors_params) e ->
   get_top_authors s = (Raise e, asked s "authors" (Some authors_params))) /\
  (broken (first_answer s "institutions" institutions_params) e ->
   get_top_institutions s =
     (Raise e, asked s "institutions" (Some institutions_params))) /\
  (broken (first_answer s "works" (collab_params (self s))) e ->
   get_international_collaboration s =
     (Raise e, asked s "works" (Some (collab_params (self s))))).
Proof.
  split.
  { intros Hbad. apply answer_broken in Hbad.
    unfold first_answer, general_params in Hbad.
    assert (Hrun : get_general_stats s =
              (Raise e, asked s "works" (Some (general_params (self s))))).
    { unfold get_general_stats.
      now rewrite bind_get_self, bind_query, Hbad. }
    split; [exact Hrun|].
    unfold run_full_analysis. now rewrite bind_run, Hrun. }
  repeat apply conj; intros Hbad; apply answer_broken in Hbad.
  - unfold get_oa_stats. unfold first_answer, oa_params in Hbad.
    now rewrite bind_get_self, bind_query, Hbad.
  - unfold get_data_by_field, areas_conocimiento.
    unfold first_answer, area_params, first_area in Hbad.
    rewrite bind_run, mfold_cons. unfold area_step at 1.
    now rewrite bind_get_self, bind_query, Hbad.
  - unfold get_top_authors. unfold first_answer, authors_params in Hbad.
    now rewrite bind_query, Hbad.
  - unfold get_top_institutions. unfold first_answer, institutions_params in Hbad.
    now rewrite bind_query, Hbad.
  - unfold get_international_collaboration. unfold first_answer, collab_params in Hbad.
    now rewrite bind_get_self, bind_query, Hbad.
Qed.

(** X9.  When the API answers every request with an error status,
    [run_full_analysis] does not run to its end: the first two steps
    return [None], [get_data_by_field] queries its 13 areas, writes the
    empty mapping to [datos_por_areas.json] and raises
    [KeyError('publicaciones')] from its rendering call.  The steps after
    it never run: 15 requests are sent, and no summary is written. *)
Theorem api_down_stops_analysis s :
  (forall h req, fails (server h req)) ->
  run_full_analysis s =
  (Raise (KeyError "publicaciones"),
   dumped fields_path (JDict [])
     (emit_all (map (area_request (self s)) areas_conocimiento)
        (asked (asked s "works" (Some (general_params (self s))))
               "works" (Some (oa_params (self s)))))) /\
  count is_get (skipn (length (trace s)) (trace (snd (run_full_analysis s)))) = 15%nat /\
  files (snd (run_full_analysis s)) !! summary_path = files s !! summary_path.
Proof.
  intros Hdown.
  assert (Hrun : run_full_analysis s =
    (Raise (KeyError "publicaciones"),
     dumped fields_path (JDict [])
       (emit_all (map (area_request (self s)) areas_conocimiento)
          (asked (asked s "works" (Some (general_params (self s))))
                 "works" (Some (oa_params (self s))))))).
  { unfold run_full_analysis.
    rewrite bind_run, get_general_stats_fails by apply Hdown.
    rewrite bind_run, get_oa_stats_fails by apply Hdown.
    rewrite bind_run, get_data_by_field_fails by apply Hdown.
    reflexivity. }
  rewrite Hrun. split; [reflexivity|]. split.
  - cbn [snd]. rewrite trace_dumped, emit_all_trace, !trace_asked, <- !app_assoc.
    rewrite skipn_app, skipn_all, Nat.sub_diag. reflexivity.
  - cbn [snd dumped files]. rewrite lookup_insert_ne by discriminate.
    now rewrite emit_all_gets_files.
Qed.

(** ** Counts and the percentages that divide by them *)

Lemma percentage_of_zero count total :
  is_num count = true -> is_zero total = true ->
  percentage_of count total = Raise ZeroDivisionError.
Proof.
  unfold percentage_of, truediv, is_num, is_zero.
  destruct (as_number count) as [x| |]; try discriminate.
  destruct (as_number total) as [y| |]; try discriminate.
  now intros _ ->.
Qed.

(** X10.  A count of zero is recorded like any other, and the next step
    divides by it: when the API reports zero publications for the period
    and then answers the open-access query with a number,
    [run_full_analysis] raises [ZeroDivisionError] in [get_oa_stats].  The
    metadata file is the only file written; no later step runs. *)
Theorem zero_publications_stop_analysis s content meta count content' meta' total_oa :
  succeeds (first_answer s "works" (general_params (self s))) content ->
  dict_lookup "meta" content = Some (JDict meta) ->
  dict_lookup "count" meta = Some count ->
  is_zero count = true ->
  succeeds (first_answer (after_general_stats s) "works"
              (oa_params (self (after_general_stats s)))) content' ->
  dict_lookup "meta" content' = Some (JDict meta') ->
  dict_lookup "count" meta' = Some total_oa ->
  is_num total_oa = true ->
  run_full_analysis s =
  (Raise ZeroDivisionError,
   asked (dumped general_path (metadata (self s) count)
            (with_total count (asked s "works" (Some (general_params (self s))))))
         "works" (Some (oa_params (self s)))).
Proof.
  intros Hok Hmeta Hcount Hzero Hok' Hmeta' Hcount' Hnum.
  pose proof (get_general_stats_run s content (JDict meta) count Hok Hmeta
                (getitem_key _ _ _ Hcount)) as Hrun.
  unfold after_general_stats in Hok'. rewrite Hrun in Hok'. cbn [snd] in Hok'.
  unfold run_full_analysis. rewrite bind_run, Hrun.
  set (s1 := dumped general_path (metadata (self s) count)
               (with_total count (asked s "works" (Some (general_params (self s)))))) in *.
  rewrite bind_run. unfold get_oa_stats.
  unfold first_answer, oa_params in Hok'.
  rewrite bind_get_self, bind_query, (answer_succeeds _ _ Hok').
  rewrite bind_lift, (present_key _ _ _ Hmeta').
  rewrite bind_lift, (getitem_key _ _ _ Hmeta').
  rewrite bind_lift, (getitem_key _ _ _ Hcount').
  rewrite bind_lift.
  replace (total_publications (self s1)) with count by reflexivity.
  now rewrite (percentage_of_zero _ _ Hnum Hzero).
Qed.

(** X11.  When the answer to the open-access query is good but the query
    of the breakdown fails, [get_oa_stats] returns [None] after its two
    requests: nothing is written or drawn, and the open-access count of
    the first answer is dropped. *)
Theorem get_oa_stats_needs_both_answers s total content meta total_oa :
  total_publications (self s) = JInt total -> total <> 0%Z ->
  succeeds (first_answer s "works" (oa_params (self s))) content ->
  dict_lookup "meta" content = Some (JDict meta) ->
  dict_lookup "count" meta = Some total_oa -> is_num total_oa = true ->
  fails (oa_types_answer s) ->
  get_oa_stats s =
  (Ret JNull,
   asked (asked s "works" (Some (oa_params (self s))))
         "works" (Some (oa_types_params (self s)))).
Proof.
  intros Htotal Hnz Hfirst Hmeta Hcount Hnum Hsecond.
  unfold get_oa_stats. unfold first_answer, oa_params in Hfirst.
  unfold oa_types_answer, oa_params, oa_types_params in Hsecond.
  rewrite bind_get_self, bind_query, (answer_succeeds _ _ Hfirst).
  rewrite bind_lift, (present_key _ _ _ Hmeta).
  rewrite bind_lift, (getitem_key _ _ _ Hmeta).
  rewrite bind_lift, (getitem_key _ _ _ Hcount).
  rewrite Htotal.
  destruct (percentage_of_num total_oa total Hnum Hnz) as (p & Hp).
  rewrite bind_lift, Hp.
  rewrite bind_query, query_asked, (answer_fails _ Hsecond).
  now rewrite bind_lift.
Qed.

(** ** Where a division by zero can come from *)

Lemma never_divides_ret {A} (a : A) : never_divides (ret a).
Proof. intros s. apply safe_ret. Qed.

Lemma never_divides_lift {A} (r : outcome A) : safe r -> never_divides (lift r).
Proof. intros H s. exact H. Qed.

Lemma never_divides_get_self : never_divides get_self.
Proof. intros s. apply safe_ret. Qed.

Lemma never_divides_set_total v : never_divides (set_total_publications v).
Proof. intros s. apply safe_ret. Qed.

Lemma never_divides_dump path obj : never_divides (json_dump path obj).
Proof. intros s. apply safe_ret. Qed.

Lemma never_divides_load path : never_divides (json_load path).
Proof. intros s. unfold json_load. destruct (files s !! path) as [[|]|]; discriminate. Qed.

Lemma never_divides_query endpoint params : never_divides (query_api endpoint params).
Proof. intros s. rewrite query_api_run. apply safe_answer. Qed.

Lemma never_divides_bind {A B} (m : M A) (k : A -> M B) :
  never_divides m -> (forall a, never_divides (k a)) -> never_divides (bind m k).
Proof.
  intros Hm Hk s. unfold bind. specialize (Hm s).
  destruct (m s) as [[a|e|] s1]; cbn [fst] in *;
    [apply Hk|exact (safe_from _ _ eq_refl Hm)|discriminate].
Qed.

Lemma never_divides_try {A} (m h : M A) :
  never_divides m -> never_divides h -> never_divides (try_except m h).
Proof.
  intros Hm Hh s. unfold try_except. specialize (Hm s).
  destruct (m s) as [[a|e|] s1]; cbn [fst] in *;
    [apply safe_ret|apply Hh|discriminate].
Qed.

Lemma never_divides_draws {A} n (m : M A) : draws n m -> never_divides m.
Proof. intros H s. now destruct (H s) as (evs & _ & _ & _ & Hsafe). Qed.

Lemma safe_author_data a : safe (author_data a).
Proof.
  unfold author_data.
  repeat (apply safe_obind; [apply safe_get|intros ?]). apply safe_ret.
Qed.

Lemma safe_inst_data a : safe (inst_data a).
Proof.
  unfold inst_data.
  repeat (apply safe_obind; [apply safe_get|intros ?]). apply safe_ret.
Qed.

Lemma safe_records_or_nothing cs df : safe (records_or_nothing cs df).
Proof.
  unfold records_or_nothing, to_records.
  destruct (negb (empty df)); [|discriminate].
  destruct (List.filter _ cs); discriminate.
Qed.

Ltac no_division :=
  repeat first
    [ apply never_divides_ret
    | apply never_divides_get_self
    | apply never_divides_set_total
    | apply never_divides_dump
    | apply never_divides_load
    | apply never_divides_query
    | apply (never_divides_draws _ _ (visualize_top_authors_draws _))
    | apply (never_divides_draws _ _ (visualize_top_institutions_draws _))
    | apply never_divides_lift;
      first [ apply safe_present | apply safe_getitem | apply safe_slice_to
            | apply safe_len | apply safe_items | apply safe_records_or_nothing
            | apply safe_DataFrame_from | apply safe_DataFrame_of
            | apply safe_sort_values
            | apply safe_omap;
              first [ apply safe_author_data | apply safe_inst_data
                    | apply safe_collab_row ] ]
    | apply never_divides_try
    | apply never_divides_bind; [|intros ?]
    | match goal with
      | |- never_divides (if ?b then _ else _) => destruct b
      | |- never_divides (let '(_, _) := ?a in _) => destruct a
      end ].

Lemma get_general_stats_never_divides : never_divides get_general_stats.
Proof. unfold get_general_stats. no_division. Qed.

Lemma get_top_authors_never_divides : never_divides get_top_authors.
Proof. unfold get_top_authors. no_division. Qed.

Lemma get_top_institutions_never_divides : never_divides get_top_institutions.
Proof. unfold get_top_institutions. no_division. Qed.

Lemma create_summary_analysis_never_divides : never_divides create_summary_analysis.
Proof.
  unfold create_summary_analysis, load_authors, load_institutions, load_collaboration.
  no_division.
Qed.

Lemma safe_then {A B} (m : M A) (k : A -> M B) s :
  safe (fst (m s)) -> (forall a, safe (fst (k a (snd (m s))))) ->
  safe (fst (bind m k s)).
Proof.
  intros Hm Hk. unfold bind.
  destruct (m s) as [[a|e|] s1]; cbn [fst snd] in *;
    [apply Hk|exact (safe_from _ _ eq_refl Hm)|discriminate].
Qed.

(** X12.  The order of [run_full_analysis] is what keeps the percentages
    defined.  [get_general_stats], [get_top_authors],
    [get_top_institutions] and [create_summary_analysis] divide nothing and
    never raise [ZeroDivisionError]; [get_general_stats] runs first and no
    later step changes [total_publications].  So if that field is not zero
    once [get_general_stats] is done, and no count the API gives for an
    area while [get_data_by_field] runs, third in the order, is zero, the
    whole run raises no [ZeroDivisionError]. *)
Theorem counted_total_keeps_divisions_defined s :
  safe (fst (get_general_stats s)) /\
  safe (fst (get_top_authors s)) /\
  safe (fst (get_top_institutions s)) /\
  safe (fst (create_summary_analysis s)) /\
  (is_zero (total_publications (self (after_general_stats s))) = false ->
   area_counts_nonzero (snd (get_oa_stats (after_general_stats s))) ->
   safe (fst (run_full_analysis s))).
Proof.
  split; [apply get_general_stats_never_divides|].
  split; [apply get_top_authors_never_divides|].
  split; [apply get_top_institutions_never_divides|].
  split; [apply create_summary_analysis_never_divides|].
  intros Hnz Hareas.
  unfold after_general_stats in Hnz, Hareas. unfold run_full_analysis.
  apply safe_then; [apply get_general_stats_never_divides|intros _].
  apply safe_then; [now apply get_oa_stats_safe|intros _].
  rewrite <- (performs_self _ _ _ get_oa_stats_performs) in Hnz.
  apply safe_then; [now apply get_data_by_field_safe|intros _].
  rewrite <- (performs_self _ _ _ get_data_by_field_performs) in Hnz.
  apply safe_then; [apply get_top_authors_never_divides|intros _].
  rewrite <- (performs_self _ _ _ get_top_authors_performs) in Hnz.
  apply safe_then; [apply get_top_institutions_never_divides|intros _].
  rewrite <- (performs_self _ _ _ get_top_institutions_performs) in Hnz.
  apply safe_then; [now apply get_international_collaboration_safe|intros _].
  apply safe_then; [apply create_summary_analysis_never_divides|intros _].
  apply safe_ret.
Qed.

(** ** What is returned and what is saved *)

Ltac saved_end :=
  cbn [fst snd ret]; intros v Hv Hne;
  first
    [ discriminate
    | injection Hv as <-; now contradiction Hne
    | idtac ].

Ltac saved_after_rendering lemma :=
  rewrite bind_run;
  match goal with
  | |- context [match ?viz ?d ?s1 with _ => _ end] =>
      let evs := fresh "evs" in
      let r := fresh "r" in
      let Hc := fresh "Hcharts" in
      destruct (draws_run _ _ s1 (lemma d)) as (evs & r & -> & Hc & _);
      destruct r
  end;
  cbn [fst snd ret]; intros v Hv; try discriminate; injection Hv as <-;
  rewrite emit_all_files by (assumption || reflexivity).

(** X13.  What an extraction method returns is what it has saved.
    Whenever [get_data_by_field] returns, [datos_por_areas.json] holds the
    value returned; the same holds for [get_general_stats] when it returns
    something other than [None], for [get_top_authors] and
    [get_top_institutions] when they return a list that is not empty, and
    for [get_international_collaboration] when it returns a mapping that
    is not empty.  When [get_oa_stats] returns a value other than [None],
    its ['oa_types'] field is what [datos_tipos_oa.json] holds. *)
Theorem returned_data_is_saved s :
  (forall v, fst (get_general_stats s) = Ret v -> v <> JNull ->
     files (snd (get_general_stats s)) !! general_path = Some (Document v)) /\
  (forall v, fst (get_oa_stats s) = Ret v -> v <> JNull ->
     exists types,
       getitem v "oa_types" = Ret types /\
       files (snd (get_oa_stats s)) !! oa_types_path = Some (Document types)) /\
  (forall v, fst (get_data_by_field s) = Ret v ->
     files (snd (get_data_by_field s)) !! fields_path = Some (Document v)) /\
  (forall v, fst (get_top_authors s) = Ret v -> v <> JList [] ->
     files (snd (get_top_authors s)) !! authors_path = Some (Document v)) /\
  (forall v, fst (get_top_institutions s) = Ret v -> v <> JList [] ->
     files (snd (get_top_institutions s)) !! institutions_path = Some (Document v)) /\
  (forall v, fst (get_international_collaboration s) = Ret v -> v <> JDict [] ->
     files (snd (get_international_collaboration s)) !! collab_path
       = Some (Document v)).
Proof.
  repeat apply conj.
  - unfold get_general_stats. mrun; saved_end.
    revert v Hv Hne. rewrite bind_set_total, bind_dump. cbn [fst snd ret].
    intros v [= <-] _. apply lookup_insert_eq.
  - unfold get_oa_stats. mrun; saved_end.
    revert v Hv Hne.
    saved_after_rendering visualize_oa_types_draws.
    intros _. eexists. split; [reflexivity|]. apply lookup_insert_eq.
  - unfold get_data_by_field. rewrite bind_run.
    destruct (mfold area_step areas_conocimiento [] s) as [[fd|e|] s1];
      cbn [fst snd]; try discriminate.
    rewrite bind_dump.
    saved_after_rendering visualize_fields_data_draws.
    apply lookup_insert_eq.
  - unfold get_top_authors. mrun; saved_end.
    revert v Hv Hne.
    saved_after_rendering visualize_top_authors_draws.
    intros _. apply lookup_insert_eq.
  - unfold get_top_institutions. mrun; saved_end.
    revert v Hv Hne.
    saved_after_rendering visualize_top_institutions_draws.
    intros _. apply lookup_insert_eq.
  - unfold get_international_collaboration. mrun; saved_end.
    revert v Hv Hne.
    saved_after_rendering visualize_international_collaboration_draws.
    intros _. apply lookup_insert_eq.
Qed.

Lemma omap_records {A} (f : A -> outcome json) (P : dict -> Prop) l vs :
  (forall a v, f a = Ret v -> exists r, v = JDict r /\ P r) ->
  omap f l = Ret vs ->
  exists rows, vs = map JDict rows /\ Forall P rows.
Proof.
  intros Hf. revert vs. induction l as [|a l IH]; intros vs H.
  - injection H as <-. now exists [].
  - cbn [omap] in H. destruct (f a) as [v| |] eqn:Ea; try discriminate.
    cbn [obind] in H. destruct (omap f l) as [vs'| |]; try discriminate.
    injection H as <-.
    destruct (Hf _ _ Ea) as (r & -> & Hr).
    destruct (IH _ eq_refl) as (rows & -> & Hrows).
    exists (r :: rows). split; [reflexivity|now constructor].
Qed.

Lemma author_data_keys a v :
  author_data a = Ret v -> exists r, v = JDict r /\ keys r = author_keys.
Proof.
  unfold author_data. intros H.
  repeat match type of H with
         | obind ?r _ = _ => destruct r; try discriminate; cbn [obind] in H
         end.
  injection H as <-. eexists. split; reflexivity.
Qed.

Lemma inst_data_keys a v :
  inst_data a = Ret v -> exists r, v = JDict r /\ keys r = institution_keys.
Proof.
  unfold inst_data. intros H.
  repeat match type of H with
         | obind ?r _ = _ => destruct r; try discriminate; cbn [obind] in H
         end.
  injection H as <-. eexists. split; reflexivity.
Qed.

Lemma records_with_nothing ks : records_with ks (JList []).
Proof. now exists []. Qed.

(** X14.  Whatever the API sends, every author record that
    [get_top_authors] writes or returns has the seven keys [id], [nombre],
    [orcid], [institucion], [institucion_id], [publicaciones_total] and
    [citas], in this order, and every record of [get_top_institutions]
    the five keys [id], [nombre], [tipo], [publicaciones] and [citas]: a
    field the API leaves out is filled with its default, never dropped. *)
Theorem saved_records_have_fixed_keys s :
  writes_only s (snd (get_top_authors s)) authors_path (records_with author_keys) /\
  (forall v, fst (get_top_authors s) = Ret v -> records_with author_keys v) /\
  writes_only s (snd (get_top_institutions s)) institutions_path
    (records_with institution_keys) /\
  (forall v, fst (get_top_institutions s) = Ret v -> records_with institution_keys v).
Proof.
  repeat apply conj.
  - unfold get_top_authors. mrun; try solve [writes_end].
    after_rendering visualize_top_authors_draws; cbn [snd ret];
      (apply writes_only_emit_all; [now apply renders_not_writes, charts_render|]);
      (apply writes_only_dumped; [|writes_end]);
      (eapply omap_records in Estep2; [|apply author_data_keys]);
      destruct Estep2 as (rows & -> & Hrows); now exists rows.
  - unfold get_top_authors. mrun; cbn [fst ret]; intros v Hv; try discriminate;
      try (injection Hv as <-; apply records_with_nothing).
    revert Hv. rewrite bind_run.
    destruct (visualize_top_authors _ _) as [[[]|e|] s']; cbn [fst ret];
      intros Hv; try discriminate. injection Hv as <-.
    eapply omap_records in Estep2; [|apply author_data_keys].
    destruct Estep2 as (rows & -> & Hrows). now exists rows.
  - unfold get_top_institutions. mrun; try solve [writes_end].
    after_rendering visualize_top_institutions_draws; cbn [snd ret];
      (apply writes_only_emit_all; [now apply renders_not_writes, charts_render|]);
      (apply writes_only_dumped; [|writes_end]);
      (eapply omap_records in Estep2; [|apply inst_data_keys]);
      destruct Estep2 as (rows & -> & Hrows); now exists rows.
  - unfold get_top_institutions. mrun; cbn [fst ret]; intros v Hv; try discriminate;
      try (injection Hv as <-; apply records_with_nothing).
    revert Hv. rewrite bind_run.
    destruct (visualize_top_institutions _ _) as [[[]|e|] s']; cbn [fst ret];
      intros Hv; try discriminate. injection Hv as <-.
    eapply omap_records in Estep2; [|apply inst_data_keys].
    destruct Estep2 as (rows & -> & Hrows). now exists rows.
Qed.

Lemma get_not_object x k default :
  (forall i, x <> JDict i) -> get x k default = Raise AttributeError.
Proof. intros H. destruct x; try reflexivity. now contradiction (H d). Qed.

Lemma author_data_outcome a :
  (exists v, author_data a = Ret v) \/ author_data a = Raise AttributeError.
Proof.
  unfold author_data.
  repeat match goal with
         | |- context [obind (get ?x ?k ?d) _] =>
             destruct x;
             try (right; reflexivity);
             match goal with
             | |- context [obind (get (JDict ?dd) k d) _] =>
                 let v := fresh "v" in
                 destruct (get_any dd k d) as (v & ->); cbn [obind]
             end
         end.
  left. eauto.
Qed.

Lemma author_data_bad a : bad_institution a -> author_data a = Raise AttributeError.
Proof.
  intros (d & v & -> & Hv & Hno). unfold author_data.
  destruct (get_any d "id" JNull) as (x1 & ->). cbn [obind].
  destruct (get_any d "display_name" JNull) as (x2 & ->). cbn [obind].
  destruct (get_any d "orcid" JNull) as (x3 & ->). cbn [obind].
  replace (get (JDict d) "last_known_institution" (JDict [])) with (Ret v)
    by (unfold get; now rewrite Hv).
  cbn [obind]. now rewrite get_not_object.
Qed.

Lemma omap_author_data_bad l :
  Exists bad_institution l -> omap author_data l = Raise AttributeError.
Proof.
  induction l as [|a l IH]; intros H; [inversion H|].
  cbn [omap]. destruct (author_data_outcome a) as [(v & Hv)|Hv].
  - rewrite Hv. cbn [obind]. inversion H as [? ? Ha|? ? Hl]; subst.
    + rewrite (author_data_bad _ Ha) in Hv. discriminate.
    + now rewrite (IH Hl).
  - now rewrite Hv.
Qed.

(** X15.  The default of [author.get('last_known_institution', {})]
    covers a missing key only.  If one of the first 20 author records
    holds a ['last_known_institution'] that is not an object ([null],
    say), [get_top_authors] raises [AttributeError] after its request: no
    author is saved and no chart is drawn. *)
Theorem null_institution_raises s content results :
  succeeds (first_answer s "authors" authors_params) content ->
  dict_lookup "results" content = Some (JList results) ->
  Exists bad_institution (firstn 20 results) ->
  get_top_authors s =
  (Raise AttributeError, asked s "authors" (Some authors_params)).
Proof.
  intros Hok Hresults Hbad.
  unfold get_top_authors. unfold first_answer, authors_params in Hok.
  rewrite bind_query, (answer_succeeds _ _ Hok).
  rewrite bind_lift, (present_key _ _ _ Hresults).
  rewrite bind_lift, (getitem_key _ _ _ Hresults).
  rewrite bind_lift. cbn [slice_to].
  now rewrite bind_lift, (omap_author_data_bad _ Hbad).
Qed.

(** ** Sorting *)

Lemma key_gt_asym a b : key_gt a b = true -> key_gt b a = false.
Proof.
  destruct a as [x|], b as [y|]; simpl; try discriminate; try reflexivity.
  intros H. apply negb_true_iff in H. apply negb_false_iff.
  apply Qle_bool_iff. destruct (Qlt_le_dec x y) as [Hlt|Hle]; [|exact Hle].
  apply Qlt_le_weak in Hlt. apply Qle_bool_iff in Hlt. congruence.
Qed.

Lemma key_gt_trans a b c :
  key_gt a b = false -> key_gt b c = false -> key_gt a c = false.
Proof.
  destruct a as [x|], b as [y|], c as [z|]; simpl; try discriminate; try reflexivity.
  intros H1 H2. apply negb_false_iff in H1, H2. apply negb_false_iff.
  apply Qle_bool_iff in H1, H2. apply Qle_bool_iff. now apply Qle_trans with y.
Qed.

Lemma insert_desc_In k r l kr :
  In kr (insert_desc k r l) -> kr = (k, r) \/ In kr l.
Proof.
  induction l as [|[k' r'] l IH]; simpl.
  - intros [<-|[]]. now left.
  - destruct (key_gt k' k); simpl.
    + intros [<-|H]; [right; now left|].
      destruct (IH H) as [->|?]; [now left|right; now right].
    + intros [<-|[<-|H]]; [now left|right; now left|right; now right].
Qed.

Lemma insert_desc_descending k r l :
  descending_keys l -> descending_keys (insert_desc k r l).
Proof.
  induction l as [|[k' r'] l IH]; simpl; intros H.
  - split; [constructor|exact I].
  - destruct H as [Hall Hl]. destruct (key_gt k' k) eqn:E; simpl.
    + split; [|now apply IH].
      apply List.Forall_forall. intros kr Hin.
      destruct (insert_desc_In _ _ _ _ Hin) as [->|Hin'].
      * simpl. now apply key_gt_asym.
      * rewrite List.Forall_forall in Hall. now apply Hall.
    + split; [|now split].
      constructor; [exact E|].
      eapply List.Forall_impl; [|exact Hall].
      intros kr Hkr. simpl in *. now apply key_gt_trans with k'.
Qed.

Lemma insert_desc_perm k r l :
  Permutation (map snd (insert_desc k r l)) (r :: map snd l).
Proof.
  induction l as [|[k' r'] l IH]; simpl; [reflexivity|].
  destruct (key_gt k' k); simpl; [|reflexivity].
  rewrite IH. apply perm_swap.
Qed.

Lemma insert_desc_keys (key : dict -> option Q) k r l :
  k = key r -> Forall (fun kr => fst kr = key (snd kr)) l ->
  Forall (fun kr => fst kr = key (snd kr)) (insert_desc k r l).
Proof.
  intros Hk H. induction H as [|[k' r'] l Hkr Hl IH]; simpl.
  - now constructor.
  - destruct (key_gt k' k); repeat constructor; auto.
Qed.

Lemma keyed_descending c rs : descending_keys (keyed c rs).
Proof.
  induction rs as [|r rs IH]; [exact I|]. now apply insert_desc_descending.
Qed.

Lemma keyed_keys c rs :
  Forall (fun kr => fst kr = sort_key_of (cell c (snd kr))) (keyed c rs).
Proof.
  induction rs as [|r rs IH]; [constructor|].
  now apply (insert_desc_keys (fun r => sort_key_of (cell c r))).
Qed.

Lemma keyed_perm c rs : Permutation (map snd (keyed c rs)) rs.
Proof.
  induction rs as [|r rs IH]; [reflexivity|].
  cbn [keyed map fold_right fst snd]. fold (keyed c rs).
  rewrite insert_desc_perm. now constructor.
Qed.

Lemma sorted_rows_keyed c rs : sorted_rows c rs = map snd (keyed c rs).
Proof. reflexivity. Qed.

(** ** What the summary holds *)

Lemma load_authors_run s rows :
  files s !! authors_path = Some (Document (JList (map JDict rows))) ->
  known "citas" (columns_of rows) = true ->
  Forall (fun r => is_size (cell "citas" r) = true) rows ->
  load_authors s =
  (Ret (JList (map JDict rows),
        {| columns := columns_of rows; rows := rows |},
        {| columns := columns_of rows; rows := sorted_rows "citas" rows |}), s).
Proof.
  intros Hfile Hcol Hsize. unfold load_authors, try_except.
  rewrite bind_run, (json_load_document _ _ _ Hfile).
  rewrite bind_lift. cbn [DataFrame_from]. rewrite DataFrame_of_records.
  rewrite bind_lift, (sort_values_run "citas") by assumption. reflexivity.
Qed.

Lemma load_authors_dropped s rows :
  files s !! authors_path = Some (Document (JList (map JDict rows))) ->
  known "citas" (columns_of rows) = false ->
  load_authors s = (Ret no_authors, s).
Proof.
  intros Hfile Hcol. unfold load_authors, try_except.
  rewrite bind_run, (json_load_document _ _ _ Hfile).
  rewrite bind_lift. cbn [DataFrame_from]. rewrite DataFrame_of_records.
  now rewrite bind_lift, sort_values_missing by assumption.
Qed.

Lemma to_records_run cs df :
  forallb (fun c => has_column c df) cs = true ->
  to_records cs df = Ret (map (project cs) (rows df)).
Proof.
  intros H. unfold to_records.
  replace (List.filter (fun c => negb (has_column c df)) cs) with (@nil string);
    [reflexivity|].
  symmetry. induction cs as [|c cs IH]; [reflexivity|].
  simpl in H. apply andb_true_iff in H as [Hc Hcs].
  cbn [List.filter]. rewrite Hc. cbn [negb]. now apply IH.
Qed.

Lemma records_or_nothing_run cs df :
  empty df = false ->
  forallb (fun c => has_column c df) cs = true ->
  records_or_nothing cs df = Ret (JList (map (project cs) (rows df))).
Proof.
  intros He Hcs. unfold records_or_nothing.
  now rewrite He, (to_records_run _ _ Hcs).
Qed.

Lemma create_summary_analysis_run s top df dfc topi dfi data dfk
      total_analizados productivos citados total_analizadas productivas
      total_paises colaboradores :
  load_authors s = (Ret (top, df, dfc), s) ->
  load_institutions s = (Ret (topi, dfi), s) ->
  load_collaboration s = (Ret (data, dfk), s) ->
  len top = Ret total_analizados ->
  records_or_nothing ["nombre"; "institucion"; "publicaciones_total"] df
    = Ret productivos ->
  records_or_nothing ["nombre"; "institucion"; "citas"] dfc = Ret citados ->
  len topi = Ret total_analizadas ->
  records_or_nothing ["nombre"; "publicaciones"; "citas"] dfi = Ret productivas ->
  len data = Ret total_paises ->
  records_or_nothing ["pais"; "publicaciones"; "porcentaje"] dfk = Ret colaboradores ->
  create_summary_analysis s =
  (Ret (summary total_analizados productivos citados total_analizadas productivas
                total_paises colaboradores),
   dumped summary_path
     (summary total_analizados productivos citados total_analizadas productivas
              total_paises colaboradores) s).
Proof.
  intros HLa HLi HLc Hna Hj1 Hj2 Hni Hj3 Hnc Hj4.
  unfold create_summary_analysis.
  rewrite bind_run, HLa. cbv beta iota.
  rewrite bind_run, HLi. cbv beta iota.
  rewrite bind_run, HLc. cbv beta iota.
  rewrite bind_lift, Hna, bind_lift, Hj1, bind_lift, Hj2.
  rewrite bind_lift, Hni, bind_lift, Hj3.
  rewrite bind_lift, Hnc, bind_lift, Hj4.
  now rewrite bind_dump.
Qed.

Lemma plain_author_citas r :
  plain_author r -> exists n, cell "citas" r = JInt n.
Proof. intros (? & ? & ? & n & _ & _ & _ & H). exists n. unfold cell. now rewrite H. Qed.

Lemma descending_by_citas l :
  descending_keys l ->
  Forall (fun kr => fst kr = sort_key_of (cell "citas" (snd kr))) l ->
  Forall plain_author (map snd l) ->
  descending citas_of (map (project ["nombre"; "institucion"; "citas"]) (map snd l)).
Proof.
  induction l as [|[k r] l IH]; [intros; exact I|].
  intros [Hall Hdesc] Hkeys Hplain.
  inversion Hkeys as [|? ? Hk Hkeys']; subst.
  inversion Hplain as [|? ? Hr Hplain']; subst.
  cbn [map snd descending]. split; [|now apply IH].
  destruct (plain_author_citas _ Hr) as (n & Hn).
  simpl in Hk. rewrite Hn in Hk. cbn in Hk. subst k.
  clear IH Hdesc Hkeys Hplain.
  induction l as [|[k' r'] l IHl]; [constructor|].
  inversion Hall as [|? ? Hgt Hall']; subst.
  inversion Hkeys' as [|? ? Hk' Hkeys'']; subst.
  inversion Hplain' as [|? ? Hr' Hplain'']; subst.
  cbn [map snd]. constructor; [|now apply IHl].
  destruct (plain_author_citas _ Hr') as (n' & Hn').
  simpl in Hk'. rewrite Hn' in Hk'. cbn in Hk'. subst k'.
  unfold citas_of, project, field. cbn [map]. unfold cell at 1 3. cbn.
  rewrite Hn, Hn'.
  cbn [fst key_gt] in Hgt. apply negb_false_iff, Qle_bool_iff in Hgt.
  rewrite Zle_Qle. exact Hgt.
Qed.

(** X16.  [create_summary_analysis] passes on every author that
    [autores_destacados.json] holds (here: authors with a name, an
    institution and integer counts), none cut off: [total_analizados] is
    their number, [mas_productivos] lists them in the order of the file,
    not sorted again, and [mas_citados] lists the same authors by
    decreasing [citas]. *)
Theorem summary_lists_every_author s r rs :
  files s !! authors_path = Some (Document (JList (map JDict (r :: rs)))) ->
  Forall plain_author (r :: rs) ->
  saved_list saved_institution (files s !! institutions_path) ->
  saved_mapping (files s !! collab_path) ->
  exists v mas_citados,
    create_summary_analysis s = (Ret v, dumped summary_path v s) /\
    getitem v "autores_destacados" =
    Ret (JDict [("total_analizados", JInt (Z.of_nat (length (r :: rs))));
                ("mas_productivos",
                 JList (map (project ["nombre"; "institucion"; "publicaciones_total"])
                            (r :: rs)));
                ("mas_citados", JList mas_citados)]) /\
    Permutation mas_citados
      (map (project ["nombre"; "institucion"; "citas"]) (r :: rs)) /\
    descending citas_of mas_citados.
Proof.
  intros Hfile Hplain Hi Hc.
  assert (Hsize : Forall (fun r => is_size (cell "citas" r) = true) (r :: rs)).
  { eapply List.Forall_impl; [|exact Hplain].
    intros r' Hr'. destruct (plain_author_citas _ Hr') as (n & ->). reflexivity. }
  inversion Hplain as [|? ? (nombre & inst & pubs & citas & Hn & Hin & Hp & Hci) _]; subst.
  assert (Hcols : forall c v, dict_lookup c r = Some v ->
            known c (columns_of (r :: rs)) = true).
  { intros c v Hv. eapply columns_of_known; [left; reflexivity|exact Hv]. }
  pose proof (load_authors_run s (r :: rs) Hfile (Hcols _ _ Hci) Hsize) as HLa.
  set (df := {| columns := columns_of (r :: rs); rows := r :: rs |}) in *.
  set (dfc := {| columns := columns_of (r :: rs);
                 rows := sorted_rows "citas" (r :: rs) |}) in *.
  assert (Hnonempty : is_empty (columns_of (r :: rs)) = false).
  { pose proof (Hcols _ _ Hn) as Hk.
    destruct (columns_of (r :: rs)); [discriminate|reflexivity]. }
  assert (He : empty df = false).
  { unfold empty, df. cbn [rows columns is_empty orb]. exact Hnonempty. }
  assert (Hec : empty dfc = false).
  { unfold empty, dfc. cbn [rows columns].
    pose proof (sorted_rows_length "citas" (r :: rs)) as Hlen.
    destruct (sorted_rows "citas" (r :: rs)); [discriminate|exact Hnonempty]. }
  assert (Hhas : forall c v (rows : list dict), dict_lookup c r = Some v ->
            has_column c {| columns := columns_of (r :: rs); rows := rows |} = true).
  { intros c v rows Hv. apply has_key_column. now exists v. }
  assert (Hp1 : forallb (fun c => has_column c df)
                  ["nombre"; "institucion"; "publicaciones_total"] = true).
  { unfold df. cbn [forallb].
    now rewrite (Hhas _ _ _ Hn), (Hhas _ _ _ Hin), (Hhas _ _ _ Hp). }
  assert (Hp2 : forallb (fun c => has_column c dfc)
                  ["nombre"; "institucion"; "citas"] = true).
  { unfold dfc. cbn [forallb].
    now rewrite (Hhas _ _ _ Hn), (Hhas _ _ _ Hin), (Hhas _ _ _ Hci). }
  destruct (load_institutions_spec s Hi)
    as (topi & dfi & HLi & (ni & Hni) & (j3 & Hj3) & _).
  destruct (load_collaboration_spec s Hc)
    as (data & dfk & HLc & (nc & Hnc) & (j4 & Hj4) & _).
  pose proof (create_summary_analysis_run s _ _ _ _ _ _ _ _ _ _ _ _ _ _
                HLa HLi HLc eq_refl
                (records_or_nothing_run _ _ He Hp1)
                (records_or_nothing_run _ _ Hec Hp2) Hni Hj3 Hnc Hj4) as Hrun.
  eexists _, (map (project ["nombre"; "institucion"; "citas"])
                  (sorted_rows "citas" (r :: rs))).
  split; [exact Hrun|]. cbn [getitem summary dict_lookup String.eqb Ascii.eqb Bool.eqb].
  rewrite length_map.
  split; [reflexivity|]. split.
  - apply Permutation_map. rewrite sorted_rows_keyed. apply keyed_perm.
  - rewrite sorted_rows_keyed. apply descending_by_citas.
    + apply keyed_descending.
    + apply keyed_keys.
    + rewrite <- sorted_rows_keyed. now apply sorted_rows_Forall.
Qed.

Lemma dict_lookup_absent c (r : dict) : dict_lookup c r = None -> ~ In c (keys r).
Proof.
  induction r as [|[k v] r IH]; simpl; [tauto|].
  destruct (String.eqb c k) eqn:E; [discriminate|].
  intros H [->|Hin]; [now rewrite String.eqb_refl in E|now apply IH].
Qed.

Lemma add_columns_unknown c ks cols :
  known c cols = false -> ~ In c ks -> known c (add_columns cols ks) = false.
Proof.
  revert cols. induction ks as [|k ks IH]; intros cols Hc Hin; [exact Hc|].
  cbn [add_columns]. apply IH; [|intros ?; apply Hin; now right].
  destruct (existsb (String.eqb k) cols); [exact Hc|].
  rewrite known_app, Hc. simpl.
  destruct (String.eqb c k) eqn:E; [|reflexivity].
  apply String.eqb_eq in E. subst. contradiction Hin. now left.
Qed.

Lemma fold_columns_unknown c (rs : list dict) cols :
  known c cols = false ->
  Forall (fun r => dict_lookup c r = None) rs ->
  known c (fold_left (fun cols r => add_columns cols (keys r)) rs cols) = false.
Proof.
  intros Hc H. revert cols Hc. induction H as [|r rs Hr Hrs IH]; intros cols Hc.
  - exact Hc.
  - cbn [fold_left]. apply IH. apply add_columns_unknown; [exact Hc|].
    now apply dict_lookup_absent.
Qed.

(** X17.  The bare [except] around the loading of the authors also
    catches the [KeyError] of [sort_values('citas')].  When no record of
    [autores_destacados.json] has a ['citas'] field (as when the file
    holds the empty list), the whole file counts as missing: the summary
    reports 0 authors and empty lists, however many records the file
    holds, and no error is raised. *)
Theorem authors_without_citas_are_dropped s rows :
  files s !! authors_path = Some (Document (JList (map JDict rows))) ->
  Forall (fun r => dict_lookup "citas" r = None) rows ->
  saved_list saved_institution (files s !! institutions_path) ->
  saved_mapping (files s !! collab_path) ->
  exists v,
    create_summary_analysis s = (Ret v, dumped summary_path v s) /\
    getitem v "autores_destacados" = Ret default_authors.
Proof.
  intros Hfile Hrows Hi Hc.
  pose proof (load_authors_dropped s rows Hfile
                (fold_columns_unknown "citas" rows [] eq_refl Hrows)) as HLa.
  destruct (load_institutions_spec s Hi)
    as (topi & dfi & HLi & (ni & Hni) & (j3 & Hj3) & _).
  destruct (load_collaboration_spec s Hc)
    as (data & dfk & HLc & (nc & Hnc) & (j4 & Hj4) & _).
  eexists. split.
  - exact (create_summary_analysis_run s _ _ _ _ _ _ _ _ _ _ _ _ _ _
             HLa HLi HLc eq_refl eq_refl eq_refl Hni Hj3 Hnc Hj4).
  - reflexivity.
Qed.

Lemma known_nonempty c cols : known c cols = true -> is_empty cols = false.
Proof. now destruct cols. Qed.

Lemma plain_country_counted entry :
  plain_country entry -> counted (fun _ => true) entry.
Proof. intros (e & c & p & ? & ? & ?). exists e, (JInt c), (JFloat p). auto. Qed.

Lemma project_collab_record entry :
  project ["pais"; "publicaciones"; "porcentaje"] (collab_record entry)
  = JDict (collab_record entry).
Proof. reflexivity. Qed.

(** X18.  [create_summary_analysis] reports every country of
    [colaboracion_internacional.json] (entries with an integer count and a
    float percentage): [total_paises] is their number and
    [principales_colaboradores] holds one record per country, in the order
    of the file, neither sorted nor cut to the main ones, with the count
    as ['publicaciones'], the percentage as ['porcentaje'] and the key,
    less the URL prefix of OpenAlex countries, as ['pais']. *)
Theorem summary_lists_every_country s entry d :
  files s !! collab_path = Some (Document (JDict (entry :: d))) ->
  Forall plain_country (entry :: d) ->
  saved_list saved_author (files s !! authors_path) ->
  saved_list saved_institution (files s !! institutions_path) ->
  exists v,
    create_summary_analysis s = (Ret v, dumped summary_path v s) /\
    getitem v "colaboracion_internacional" =
    Ret (JDict [("total_paises", JInt (Z.of_nat (length (entry :: d))));
                ("principales_colaboradores",
                 JList (map (fun e => JDict (collab_record e)) (entry :: d)))]).
Proof.
  intros Hfile Hplain Ha Hi.
  destruct (load_authors_spec s Ha)
    as (top & df & dfc & HLa & (na & Hna) & (j1 & Hj1) & (j2 & Hj2) & _).
  destruct (load_institutions_spec s Hi)
    as (topi & dfi & HLi & (ni & Hni) & (j3 & Hj3) & _).
  assert (HLc : load_collaboration s =
            (Ret (JDict (entry :: d),
                  {| columns := columns_of (map collab_record (entry :: d));
                     rows := map collab_record (entry :: d) |}), s)).
  { unfold load_collaboration, try_except.
    rewrite bind_run, (json_load_document _ _ _ Hfile).
    rewrite bind_lift. cbn [items].
    rewrite bind_lift, (omap_map _ (fun e => JDict (collab_record e))).
    2:{ eapply List.Forall_impl; [|exact Hplain].
        intros e He. eapply collab_row_record, plain_country_counted, He. }
    now rewrite <- map_map, bind_lift, DataFrame_of_records. }
  assert (Hrec : records_or_nothing ["pais"; "publicaciones"; "porcentaje"]
            {| columns := columns_of (map collab_record (entry :: d));
               rows := map collab_record (entry :: d) |} =
            Ret (JList (map (fun e => JDict (collab_record e)) (entry :: d)))).
  { rewrite records_or_nothing_run.
    - cbn [rows]. now rewrite map_map.
    - unfold empty. cbn [rows columns map is_empty orb].
      apply (known_nonempty "pais").
      eapply columns_of_known; [left; reflexivity|reflexivity].
    - cbn [map forallb].
      rewrite !has_key_column; [reflexivity| | |]; eexists; reflexivity. }
  eexists. split.
  - exact (create_summary_analysis_run s _ _ _ _ _ _ _ _ _ _ _ _ _ _
             HLa HLi HLc Hna Hj1 Hj2 Hni Hj3 eq_refl Hrec).
  - reflexivity.
Qed.

(** ** Country keys *)

Lemma prefix_app old s : String.prefix old (old +:+ s) = true.
Proof.
  induction old as [|a old IH]; simpl; [now destruct s|].
  destruct (Ascii.ascii_dec a a); [exact IH|contradiction].
Qed.

Lemma replace_from_skip old new s1 s2 :
  replace_from old new (String.length s1) (s1 +:+ s2) = replace_from old new 0 s2.
Proof.
  induction s1 as [|a s1 IH]; simpl; [|exact IH].
  destruct s2; reflexivity.
Qed.

Lemma replace_absent old new s :
  occurs old s = false -> replace old new s = s.
Proof.
  unfold replace. induction s as [|a s IH]; [reflexivity|].
  cbn [occurs]. intros H. apply orb_false_iff in H as [Hp Ho].
  cbn [replace_from]. rewrite Hp. now rewrite IH.
Qed.

Lemma replace_prefix a old s :
  occurs (String a old) s = false ->
  replace (String a old) "" (String a old +:+ s) = s.
Proof.
  intros H. unfold replace.
  change (String a old +:+ s) with (String a (old +:+ s)).
  cbn [replace_from].
  change (String a (old +:+ s)) with (String a old +:+ s).
  rewrite prefix_app. cbn [String.length Nat.sub]. rewrite Nat.sub_0_r.
  rewrite replace_from_skip. cbn [String.append].
  now apply replace_absent.
Qed.

(** X19.  The charts and the summary name a country by its code whether
    the API keys it by the code or by its OpenAlex URL: for a code in
    which the URL prefix does not occur, the row built from the key
    [https://openalex.org/countries/<code>] and the row built from the
    key [<code>] are the same, with ['pais'] equal to the code. *)
Theorem country_rows_are_named_by_code code data count percentage :
  occurs country_prefix code = false ->
  getitem data "count" = Ret count ->
  getitem data "percentage" = Ret percentage ->
  collab_row (country_prefix +:+ code, data) =
    Ret (JDict [("pais", JStr code); ("publicaciones", count);
                ("porcentaje", percentage)]) /\
  collab_row (code, data) =
    Ret (JDict [("pais", JStr code); ("publicaciones", count);
                ("porcentaje", percentage)]).
Proof.
  intros Hcode Hcount Hpct. unfold collab_row.
  rewrite Hcount, Hpct. cbn [obind].
  rewrite (replace_absent _ _ _ Hcode).
  unfold country_prefix in *. now rewrite (replace_prefix _ _ _ Hcode).
Qed.

(** ** The areas of [get_data_by_field] *)

Lemma keys_dict_set (d : dict) k v :
  keys (dict_set d k v) = if known k (keys d) then keys d else (keys d ++ [k])%list.
Proof.
  unfold keys, known. induction d as [|[k' v'] d IH]; [reflexivity|].
  cbn [dict_set map fst existsb].
  destruct (String.eqb k k') eqn:E; [reflexivity|].
  cbn [map fst orb]. rewrite IH.
  now destruct (existsb (String.eqb k) (map fst d)).
Qed.

Lemma known_In c cols : known c cols = false -> ~ In c cols.
Proof.
  unfold known. induction cols as [|k cols IH]; simpl; [tauto|].
  intros H. apply orb_false_iff in H as [Hk Hcols].
  intros [->|Hin]; [now rewrite String.eqb_refl in Hk|now apply IH].
Qed.

Lemma NoDup_dict_set (d : dict) k v :
  List.NoDup (keys d) -> List.NoDup (keys (dict_set d k v)).
Proof.
  intros H. rewrite keys_dict_set. destruct (known k (keys d)) eqn:E; [exact H|].
  apply List.NoDup_app; repeat split; [exact H|repeat constructor; tauto|].
  intros x Hx [<-|[]]. now apply (known_In _ _ E).
Qed.

Lemma Forall_dict_set_entry (P : string * json -> Prop) (d : dict) k v :
  Forall P d -> P (k, v) -> Forall P (dict_set d k v).
Proof.
  intros Hd Hv. induction Hd as [|[k' v'] d Hkv Hd IH]; simpl.
  - auto.
  - destruct (String.eqb k k') eqn:E; constructor; auto.
    apply String.eqb_eq in E. now subst.
Qed.

Lemma areas_named_set areas (d : dict) k nombre e :
  In (k, nombre) areas ->
  dict_lookup "nombre" e = Some (JStr nombre) ->
  has_key "publicaciones" e -> has_key "porcentaje" e ->
  areas_named areas d -> areas_named areas (dict_set d k (JDict e)).
Proof.
  intros Hin Hn Hp Hc [Hd Hnodup]. split; [|now apply NoDup_dict_set].
  apply Forall_dict_set_entry; [exact Hd|]. now exists nombre, e.
Qed.

Ltac areas_named_end :=
  repeat (eapply areas_named_set;
          [ eassumption | reflexivity
          | eexists; reflexivity | eexists; reflexivity | ]);
  assumption.

Lemma area_step_named areas area fields_data s :
  In area areas -> areas_named areas fields_data ->
  returning (fst (area_step area fields_data s)) (areas_named areas).
Proof.
  intros Hin H. destruct area as [area_id area_nombre].
  unfold area_step. mrun; cbn [fst ret returning]; try exact I; areas_named_end.
Qed.

Lemma areas_loop_named areas l fields_data s :
  Forall (fun a => In a areas) l -> areas_named areas fields_data ->
  returning (fst (mfold area_step l fields_data s)) (areas_named areas).
Proof.
  intros Hl. revert fields_data s. induction Hl as [|a l Ha Hl IH]; intros fd s H;
    [exact H|].
  rewrite mfold_cons.
  pose proof (area_step_named areas a fd s Ha H) as Hstep.
  destruct (area_step a fd s) as [[fd1|e|] s1]; cbn [fst snd returning] in *;
    try exact I.
  now apply IH.
Qed.

(** X20.  Whatever the API answers, the mapping that [get_data_by_field]
    writes to [datos_por_areas.json] is keyed by ids of the 13 areas of
    [areas_conocimiento], each at most once (so it has at most 13
    entries), and the entry of an id holds the name of that area with its
    ['publicaciones'] and ['porcentaje']. *)
Theorem fields_data_holds_known_areas s :
  writes_only s (snd (get_data_by_field s)) fields_path
    (fun c => exists d, c = JDict d /\ areas_named areas_conocimiento d /\
                        (length d <= 13)%nat).
Proof.
  unfold get_data_by_field. rewrite bind_run.
  pose proof (areas_loop_named areas_conocimiento areas_conocimiento [] s) as Hnamed.
  unfold returning in Hnamed.
  destruct (areas_loop_asks areas_conocimiento [] s) as (gets & Hs & Hgets & _).
  assert (Hloop : writes_only s (emit_all gets s) fields_path
            (fun c => exists d, c = JDict d /\ areas_named areas_conocimiento d /\
                                (length d <= 13)%nat)).
  { apply writes_only_emit_all; [now apply gets_not_writes|apply writes_only_refl]. }
  destruct (mfold area_step areas_conocimiento [] s) as [[fd|e|] s1];
    cbn [fst snd] in *; subst s1; try exact Hloop.
  rewrite bind_dump.
  assert (Hfd : areas_named areas_conocimiento fd).
  { apply Hnamed; [apply List.Forall_forall; auto|].
    split; constructor. }
  assert (Hlen : (length fd <= 13)%nat).
  { destruct Hfd as [Hall Hnodup].
    change 13%nat with (length (map fst areas_conocimiento)).
    rewrite <- (length_map fst fd). apply List.NoDup_incl_length; [exact Hnodup|].
    intros k Hk. apply in_map_iff in Hk as ([k' v] & <- & Hkv).
    rewrite List.Forall_forall in Hall.
    destruct (Hall _ Hkv) as (nombre & e & Hin & _).
    apply in_map_iff. now exists (k', nombre). }
  after_rendering visualize_fields_data_draws; cbn [snd ret];
    (apply writes_only_emit_all; [now apply renders_not_writes, charts_render|]);
    (apply writes_only_dumped; [|exact Hloop]); now exists fd.
Qed.

(** ** The pie of the areas *)

(** [pie_data] is the table [visualize_fields_data] computes before its
    last chart. *)
Lemma pie_data_step {B} df_areas (k : DataFrame -> M B) s :
  bind (if (8 <? length (rows df_areas))%nat then
          let rest := {| columns := columns df_areas;
                         rows := skipn 8 (rows df_areas) |} in
          rest_pubs <- lift (column "publicaciones" rest) ;;
          sum_pubs <- lift (series_sum rest_pubs) ;;
          rest_pcts <- lift (column "porcentaje" rest) ;;
          sum_pcts <- lift (series_sum rest_pcts) ;;
          other_areas <- lift (DataFrame_of
            [JDict [("nombre", JStr "Otras áreas"); ("publicaciones", sum_pubs);
                    ("porcentaje", sum_pcts)]]) ;;
          ret (concat (head 8 df_areas) other_areas)
        else ret df_areas) k s =
  match pie_data df_areas with
  | Ret pd => k pd s
  | Raise e => (Raise e, s)
  | Unmodelled => (Unmodelled, s)
  end.
Proof.
  unfold pie_data, other_areas_row.
  destruct (8 <? length (rows df_areas))%nat; [|now rewrite bind_ret].
  cbv zeta. rewrite bind_assoc, bind_lift.
  destruct (column "publicaciones" _) as [rest_pubs|e|]; cbn [obind]; try reflexivity.
  rewrite bind_assoc, bind_lift.
  destruct (series_sum rest_pubs) as [sum_pubs|e|]; cbn [obind]; try reflexivity.
  rewrite bind_assoc, bind_lift.
  destruct (column "porcentaje" _) as [rest_pcts|e|]; cbn [obind]; try reflexivity.
  unfold series_sum.
  destruct (omap as_size rest_pcts) as [ns|e|]; reflexivity.
Qed.

Lemma total_size_app l1 l2 :
  (total_size (l1 ++ l2) == total_size l1 + total_size l2)%Q.
Proof.
  induction l1 as [|n l1 IH]; simpl; [now rewrite Qplus_0_l|].
  destruct n as [q| |]; [|exact IH|exact IH].
  rewrite IH. apply Qplus_assoc.
Qed.

Lemma total_size_one q : (total_size [Num q] == q)%Q.
Proof. unfold total_size. cbn [fold_right]. apply Qplus_0_r. Qed.

Lemma column_cells c df cells :
  column c df = Ret cells -> cells = map (cell c) (rows df).
Proof. unfold column. destruct (has_column c df); [now intros [= <-]|discriminate]. Qed.

(** X21.  The last chart of [visualize_fields_data] shows at most nine
    wedges, as many as its palette has colours: with up to eight areas it
    shows them all; with more it shows the first eight rows of the table
    (sorted by publications by then) and one wedge, ['Otras áreas'], whose
    size is the sum of the publications of the areas left.  The sizes
    shown add up to the publications of all areas. *)
Theorem pie_groups_the_smaller_areas df_areas pd :
  pie_data df_areas = Ret pd ->
  Forall (fun r => is_size (cell "publicaciones" r) = true) (rows df_areas) ->
  (length (rows pd) <= 9)%nat /\
  ((length (rows df_areas) <= 8)%nat -> pd = df_areas) /\
  ((8 < length (rows df_areas))%nat ->
   exists sum_pubs sum_pcts,
     rows pd = (firstn 8 (rows df_areas) ++ [other_areas_row sum_pubs sum_pcts])%list /\
     series_sum (map (cell "publicaciones") (skipn 8 (rows df_areas))) = Ret sum_pubs) /\
  (pie_total "publicaciones" pd == pie_total "publicaciones" df_areas)%Q.
Proof.
  unfold pie_data. intros H Hsize.
  destruct (8 <? length (rows df_areas))%nat eqn:E.
  - apply Nat.ltb_lt in E. cbv zeta in H.
    destruct (column "publicaciones" _) as [rest_pubs|e|] eqn:Epubs;
      try discriminate; cbn [obind] in H.
    apply column_cells in Epubs. cbn [rows] in Epubs. subst rest_pubs.
    pose proof (series_sum_run _
      (Forall_cells (fun v => is_size v = true) "publicaciones" _
         (Forall_skipn _ 8 _ Hsize))) as Hsum.
    rewrite Hsum in H. cbn [obind] in H.
    destruct (column "porcentaje" _) as [rest_pcts|e|]; try discriminate;
      cbn [obind] in H.
    destruct (series_sum rest_pcts) as [sum_pcts|e|]; try discriminate;
      cbn [obind] in H.
    injection H as <-. cbn [rows concat head].
    repeat split.
    + rewrite length_app, length_firstn. cbn [length]. lia.
    + lia.
    + intros _. eexists _, sum_pcts. split; [reflexivity|exact Hsum].
    + unfold pie_total. cbn [rows concat head].
      rewrite !map_app, total_size_app.
      match goal with
      | |- context [map as_number (map (cell "publicaciones")
                                       [other_areas_row (JFloat ?q) ?p])] =>
          change (map as_number (map (cell "publicaciones")
                                     [other_areas_row (JFloat q) p]))
            with [Num q]
      end.
      rewrite total_size_one, Qred_correct.
      rewrite <- total_size_app, <- !map_app. now rewrite firstn_skipn.
  - apply Nat.ltb_ge in E. injection H as <-.
    repeat split; try lia.
Qed.

(** ** Collaboration with no partner *)

Lemma home_items_fold total group acc :
  Forall home_item group -> ofold (collab_entry total) group acc = Ret acc.
Proof.
  intros H. induction H as [|item group (d & -> & Hkey) _ IH]; [reflexivity|].
  cbn [ofold]. unfold collab_entry at 1.
  rewrite (getitem_key _ _ _ Hkey). cbn [obind is_str].
  rewrite String.eqb_refl. cbn [obind]. exact IH.
Qed.

(** X22.  When the breakdown by country names no country but Ecuador (or
    is empty), the filter leaves [get_international_collaboration] with an
    empty mapping: it writes [{}] to [colaboracion_internacional.json] and
    then raises [KeyError('publicaciones')] from its rendering call,
    instead of returning the empty mapping. *)
Theorem collaboration_without_partner_raises s content group :
  succeeds (first_answer s "works" (collab_params (self s))) content ->
  dict_lookup "group_by" content = Some (JList group) ->
  Forall home_item group ->
  get_international_collaboration s =
  (Raise (KeyError "publicaciones"),
   dumped collab_path (JDict [])
     (asked s "works" (Some (collab_params (self s))))).
Proof.
  intros Hok Hgroup Hhome.
  unfold get_international_collaboration. unfold first_answer, collab_params in Hok.
  rewrite bind_get_self, bind_query, (answer_succeeds _ _ Hok).
  rewrite bind_lift, (present_key _ _ _ Hgroup).
  rewrite bind_lift, (getitem_key _ _ _ Hgroup).
  rewrite bind_lift. cbn [iter].
  rewrite bind_lift, (home_items_fold _ _ _ Hhome).
  rewrite bind_dump. reflexivity.
Qed.

(** ** A run against an API that answers well *)

Lemma oa_entries_counted total kcs :
  Forall (fun kc => (0 < snd kc)%Z) kcs ->
  Forall (counted is_pos) (map (oa_entry total) kcs).
Proof.
  intros H. induction H as [|[k c] kcs Hc _ IH]; [constructor|].
  cbn [map]. constructor; [|exact IH].
  eexists _, _, _. repeat split; try reflexivity.
  unfold is_pos. cbn [as_number snd]. apply negb_true_iff.
  destruct (Qle_bool (inject_Z c) 0) eqn:E; [|reflexivity].
  apply Qle_bool_iff in E. change 0%Q with (inject_Z 0) in E.
  rewrite <- Zle_Qle in E. simpl in Hc. lia.
Qed.

Lemma counted_weaken (ok ok' : json -> bool) entry :
  (forall c, ok c = true -> ok' c = true) -> counted ok entry -> counted ok' entry.
Proof. intros H (e & c & p & ? & ? & ? & ?). exists e, c, p. auto. Qed.

Lemma collab_fold_items total kcs group acc :
  total <> 0%Z ->
  Forall2 is_item kcs group ->
  List.NoDup (map fst kcs) ->
  (forall k, In k (map fst kcs) -> ~ In k (keys acc)) ->
  ofold (collab_entry (JInt total)) group acc =
  Ret (acc ++ map (oa_entry total) (abroad kcs))%list.
Proof.
  intros Htotal Hitems. revert acc.
  induction Hitems as [|kc item kcs group (d & -> & Hk & Hc) _ IH];
    intros acc Hnodup Hfresh.
  - simpl. now rewrite app_nil_r.
  - inversion Hnodup as [|? ? Hnotin Hnodup']; subst.
    cbn [ofold]. unfold collab_entry at 1.
    rewrite (getitem_key _ _ _ Hk). cbn [obind is_str abroad List.filter].
    fold (abroad kcs).
    destruct (String.eqb (fst kc) "EC") eqn:E; cbn [negb obind].
    + apply IH; [assumption|]. intros k Hin. apply Hfresh. now right.
    + rewrite (getitem_key _ _ _ Hc). cbn [obind].
      rewrite percentage_of_int by assumption. cbn [obind as_key].
      rewrite dict_set_fresh by (apply Hfresh; now left).
      rewrite IH; [cbn [map]; now rewrite <- app_assoc|assumption|].
      intros k Hin. unfold keys. rewrite map_app, in_app_iff. simpl.
      intros [Hacc|[<-|[]]].
      * apply (Hfresh k); [now right|exact Hacc].
      * contradiction.
Qed.

Lemma abroad_nonempty kcs :
  Exists (fun kc => String.eqb (fst kc) "EC" = false) kcs ->
  exists kc rest, abroad kcs = kc :: rest.
Proof.
  intros H. induction H as [kc kcs Hkc|kc kcs _ (kc' & rest & IH)];
    cbn [abroad List.filter]; fold (abroad kcs).
  - rewrite Hkc. cbn [negb]. eauto.
  - rewrite IH. destruct (negb _); eauto.
Qed.

Lemma In_keys_has_key k (r : dict) : In k (keys r) -> has_key k r.
Proof.
  induction r as [|[k' v] r IH]; simpl; [tauto|].
  intros H. unfold has_key. cbn [dict_lookup].
  destruct (String.eqb k k') eqn:E; [eauto|].
  destruct H as [->|H]; [now rewrite String.eqb_refl in E|now apply IH].
Qed.

Lemma author_data_saved a :
  author_ok a ->
  exists r, author_data a = Ret (JDict r) /\ author_row r /\ saved_author r.
Proof.
  intros H. destruct (author_data_run a H) as (r & Hr & Hrow).
  exists r. split; [exact Hr|]. split; [exact Hrow|].
  destruct (author_data_keys _ _ Hr) as (r' & [= <-] & Hkeys).
  destruct Hrow as (_ & _ & Hcitas).
  repeat split; try exact Hcitas;
    apply In_keys_has_key; rewrite Hkeys; simpl; tauto.
Qed.

Lemma inst_data_saved a :
  institution_ok a ->
  exists r, inst_data a = Ret (JDict r) /\
            bar_row "nombre" "publicaciones" r /\ saved_institution r.
Proof.
  intros H. destruct (inst_data_run a H) as (r & Hr & Hrow).
  exists r. split; [exact Hr|]. split; [exact Hrow|].
  destruct (inst_data_keys _ _ Hr) as (r' & [= <-] & Hkeys).
  repeat split; apply In_keys_has_key; rewrite Hkeys; simpl; tauto.
Qed.

Lemma Forall_and {A} (P Q : A -> Prop) l :
  Forall (fun a => P a /\ Q a) l -> Forall P l /\ Forall Q l.
Proof.
  intros H. induction H as [|a l [Hp Hq] _ [IHp IHq]]; split; constructor; auto.
Qed.

Lemma dict_set_nonempty (d : dict) k v : dict_set d k v <> [].
Proof. destruct d as [|[k' v'] d]; simpl; [|destruct (String.eqb k k')]; discriminate. Qed.

Section GoodApi.

Variable base : string.
Hypothesis Hgood : good_api base.

Lemma answer_count s params :
  base_url (self s) = base ->
  dict_lookup "group_by" (sent_params (self s) (Some params)) = None ->
  exists content meta count,
    dict_lookup "meta" content = Some (JDict meta) /\
    dict_lookup "count" meta = Some (JInt count) /\ (0 < count)%Z /\
    answer (server (requests_of (trace s)) (query s "works" (Some params)))
    = Ret (JDict content).
Proof.
  intros Hbase Hparams.
  destruct (proj1 (Hgood (requests_of (trace s))
                     (sent_params (self s) (Some params))) Hparams)
    as (content & meta & count & Hok & Hmeta & Hcount & Hpos).
  exists content, meta, count. repeat split; try assumption.
  unfold query, url_of. rewrite Hbase. now apply answer_succeeds.
Qed.

Lemma answer_groups s params :
  base_url (self s) = base ->
  is_some (dict_lookup "group_by" (sent_params (self s) (Some params))) = true ->
  exists content group kcs,
    dict_lookup "group_by" content = Some (JList group) /\
    Forall2 is_item kcs group /\ List.NoDup (map fst kcs) /\
    Forall (fun kc => (0 < snd kc)%Z) kcs /\
    Exists (fun kc => String.eqb (fst kc) "EC" = false) kcs /\
    answer (server (requests_of (trace s)) (query s "works" (Some params)))
    = Ret (JDict content).
Proof.
  intros Hbase Hparams.
  destruct (proj1 (proj2 (Hgood (requests_of (trace s))
                            (sent_params (self s) (Some params)))) Hparams)
    as (content & group & kcs & Hok & Hgroup & Hitems & Hnodup & Hpos & Hout).
  exists content, group, kcs. repeat split; try assumption.
  unfold query, url_of. rewrite Hbase. now apply answer_succeeds.
Qed.

Lemma answer_authors s params :
  base_url (self s) = base ->
  exists content a l,
    dict_lookup "results" content = Some (JList (a :: l)) /\
    Forall author_ok (a :: l) /\
    answer (server (requests_of (trace s)) (query s "authors" (Some params)))
    = Ret (JDict content).
Proof.
  intros Hbase.
  destruct (proj1 (proj2 (proj2 (Hgood (requests_of (trace s))
                                   (sent_params (self s) (Some params))))))
    as (content & a & l & Hok & Hresults & Hall).
  exists content, a, l. repeat split; try assumption.
  unfold query, url_of. rewrite Hbase. now apply answer_succeeds.
Qed.

Lemma answer_institutions s params :
  base_url (self s) = base ->
  exists content a l,
    dict_lookup "results" content = Some (JList (a :: l)) /\
    Forall institution_ok (a :: l) /\
    answer (server (requests_of (trace s)) (query s "institutions" (Some params)))
    = Ret (JDict content).
Proof.
  intros Hbase.
  destruct (proj2 (proj2 (proj2 (Hgood (requests_of (trace s))
                                   (sent_params (self s) (Some params))))))
    as (content & a & l & Hok & Hresults & Hall).
  exists content, a, l. repeat split; try assumption.
  unfold query, url_of. rewrite Hbase. now apply answer_succeeds.
Qed.

(** Runs a query of a count, of a breakdown. *)
Ltac ask_count Hbase n Hpos :=
  rewrite bind_query;
  match goal with
  | |- context [answer (server _ (query ?s0 "works" (Some ?p)))] =>
      let content := fresh "content" in
      let meta := fresh "meta" in
      let Hmeta := fresh "Hmeta" in
      let Hcount := fresh "Hcount" in
      destruct (answer_count s0 p Hbase eq_refl)
        as (content & meta & n & Hmeta & Hcount & Hpos & ->);
      rewrite bind_lift, (present_key _ _ _ Hmeta);
      rewrite bind_lift, (getitem_key _ _ _ Hmeta);
      rewrite bind_lift, (getitem_key _ _ _ Hcount)
  end.

Ltac ask_groups Hbase group kcs Hitems Hnodup Hpos Hout :=
  rewrite bind_query;
  match goal with
  | |- context [answer (server _ (query ?s0 "works" (Some ?p)))] =>
      let content := fresh "content" in
      let Hgroup := fresh "Hgroup" in
      destruct (answer_groups s0 p Hbase eq_refl)
        as (content & group & kcs & Hgroup & Hitems & Hnodup & Hpos & Hout & ->);
      rewrite bind_lift, (present_key _ _ _ Hgroup);
      rewrite bind_lift, (getitem_key _ _ _ Hgroup);
      rewrite bind_lift; cbn [iter]
  end.

Lemma get_general_stats_good s :
  base_url (self s) = base ->
  exists count,
    (0 < count)%Z /\
    completes general_path any_document get_general_stats s /\
    total_publications (self (snd (get_general_stats s))) = JInt count.
Proof.
  intros Hbase. unfold completes, get_general_stats.
  rewrite bind_get_self. ask_count Hbase n Hpos.
  exists n. split; [exact Hpos|].
  rewrite bind_set_total, bind_dump. cbn [fst snd ret].
  split; [|reflexivity].
  eexists _, _. split; [reflexivity|]. split; [apply lookup_insert_eq|exact I].
Qed.

Lemma get_oa_stats_good s total :
  base_url (self s) = base ->
  total_publications (self s) = JInt total -> (0 < total)%Z ->
  completes oa_types_path any_document get_oa_stats s.
Proof.
  intros Hbase Htotal Htpos. unfold completes, get_oa_stats.
  rewrite bind_get_self. ask_count Hbase n Hpos.
  rewrite Htotal, bind_lift, percentage_of_int by lia.
  ask_groups Hbase group kcs Hitems Hnodup Hcounts Hout.
  rewrite bind_lift, (oa_fold_items total kcs group []) by (auto; try lia; intros ? ? []).
  cbn [app]. rewrite bind_dump, bind_run.
  pose proof (oa_entries_counted total kcs Hcounts) as Hentries.
  destruct kcs as [|kc kcs]; [inversion Hout|]. cbn [map] in *.
  rewrite visualize_oa_types_run by exact Hentries.
  cbn [fst snd ret]. rewrite emit_as_emit_all, emit_all_files by reflexivity.
  eexists _, _. split; [reflexivity|].
  split; [apply lookup_insert_eq|exact I].
Qed.

Lemma get_international_collaboration_good s total :
  base_url (self s) = base ->
  total_publications (self s) = JInt total -> (0 < total)%Z ->
  completes collab_path saved_countries get_international_collaboration s.
Proof.
  intros Hbase Htotal Htpos. unfold completes, get_international_collaboration.
  rewrite bind_get_self. ask_groups Hbase group kcs Hitems Hnodup Hcounts Hout.
  rewrite Htotal, bind_lift, (collab_fold_items total kcs group [])
    by (auto; try lia; intros ? ? []).
  cbn [app]. rewrite bind_dump, bind_run.
  assert (Hentries : Forall (counted is_pos) (map (oa_entry total) (abroad kcs))).
  { apply oa_entries_counted. unfold abroad.
    apply List.Forall_forall. intros kc Hin. apply List.filter_In in Hin as [Hin _].
    rewrite List.Forall_forall in Hcounts. now apply Hcounts. }
  destruct (abroad_nonempty _ Hout) as (kc & rest & Hab).
  rewrite Hab in *. cbn [map] in *.
  rewrite visualize_international_collaboration_run.
  2:{ eapply List.Forall_impl; [|exact Hentries].
      intros e. apply counted_weaken. apply is_pos_num. }
  cbn [fst snd ret]. rewrite emit_as_emit_all, emit_all_files by reflexivity.
  eexists _, _. split; [reflexivity|].
  split; [apply lookup_insert_eq|].
  eexists. split; [reflexivity|].
  eapply List.Forall_impl; [|exact Hentries].
  intros e. now apply counted_weaken.
Qed.

Lemma get_top_authors_good s :
  base_url (self s) = base ->
  completes authors_path saved_authors get_top_authors s.
Proof.
  intros Hbase. unfold completes, get_top_authors.
  rewrite bind_query.
  destruct (answer_authors s
              [("filter", JStr "last_known_institution.country_code:EC");
               ("sort", JStr "works_count:desc"); ("per_page", JInt 50)] Hbase)
    as (content & a & l & Hresults & Hall & ->).
  rewrite bind_lift, (present_key _ _ _ Hresults).
  rewrite bind_lift, (getitem_key _ _ _ Hresults).
  rewrite bind_lift. cbn [slice_to].
  destruct (omap_rows author_data (fun r => author_row r /\ saved_author r)
              (firstn 20 (a :: l))) as (rows & Hrows & Hrow & Hlen).
  { apply Forall_firstn. eapply List.Forall_impl; [|exact Hall].
    apply author_data_saved. }
  destruct (rows_nonempty _ _ _ _ Hlen) as (r & rs & ->).
  apply Forall_and in Hrow as [Hrow Hsaved].
  rewrite bind_lift, Hrows, bind_dump, bind_run.
  rewrite visualize_top_authors_run by exact Hrow.
  cbn [fst snd ret]. rewrite emit_all_files by reflexivity.
  eexists _, _. split; [reflexivity|].
  split; [apply lookup_insert_eq|]. now eexists.
Qed.

Lemma get_top_institutions_good s :
  base_url (self s) = base ->
  completes institutions_path saved_institutions get_top_institutions s.
Proof.
  intros Hbase. unfold completes, get_top_institutions.
  rewrite bind_query.
  destruct (answer_institutions s
              [("filter", JStr "country_code:EC");
               ("sort", JStr "works_count:desc"); ("per_page", JInt 25)] Hbase)
    as (content & a & l & Hresults & Hall & ->).
  rewrite bind_lift, (present_key _ _ _ Hresults).
  rewrite bind_lift, (getitem_key _ _ _ Hresults).
  rewrite bind_lift. cbn [slice_to].
  destruct (omap_rows inst_data
              (fun r => bar_row "nombre" "publicaciones" r /\ saved_institution r)
              (firstn 15 (a :: l))) as (rows & Hrows & Hrow & Hlen).
  { apply Forall_firstn. eapply List.Forall_impl; [|exact Hall].
    apply inst_data_saved. }
  destruct (rows_nonempty _ _ _ _ Hlen) as (r & rs & ->).
  apply Forall_and in Hrow as [Hrow Hsaved].
  rewrite bind_lift, Hrows, bind_dump, bind_run.
  rewrite visualize_top_institutions_run by exact Hrow.
  cbn [fst snd ret]. rewrite emit_as_emit_all, emit_all_files by reflexivity.
  eexists _, _. split; [reflexivity|].
  split; [apply lookup_insert_eq|]. now eexists.
Qed.

Lemma is_pos_int c : (0 < c)%Z -> is_pos (JInt c) = true.
Proof.
  intros H. unfold is_pos. cbn [as_number]. apply negb_true_iff.
  destruct (Qle_bool (inject_Z c) 0) eqn:E; [|reflexivity].
  apply Qle_bool_iff in E. change 0%Q with (inject_Z 0) in E.
  rewrite <- Zle_Qle in E. lia.
Qed.

Lemma oa_entries_have_percentage total kcs :
  Forall (fun t : string * json =>
            exists o p, snd t = JDict o /\ dict_lookup "percentage" o = Some p)
         (map (oa_entry total) kcs).
Proof. induction kcs as [|kc kcs IH]; constructor; [|exact IH]. eexists _, _. split; reflexivity. Qed.

Lemma area_entry_intro id e nombre pubs porc :
  dict_lookup "nombre" e = Some (JStr nombre) ->
  dict_lookup "publicaciones" e = Some (JInt pubs) -> (0 < pubs)%Z ->
  dict_lookup "porcentaje" e = Some (JFloat porc) ->
  (forall v, dict_lookup "porcentaje_oa" e = Some v -> is_num v = true) ->
  (forall st, dict_lookup "oa_status" e = Some st ->
     exists types, st = JDict types /\
       Forall (fun t => exists o p, snd t = JDict o /\
                        dict_lookup "percentage" o = Some p) types) ->
  area_entry (id, JDict e).
Proof.
  intros Hn Hp Hpos Hc Hoa Hst. exists e, (JStr nombre), (JInt pubs), (JFloat porc).
  repeat split; try assumption; try reflexivity. now apply is_pos_int.
Qed.

Lemma area_step_good area fd s total :
  base_url (self s) = base ->
  total_publications (self s) = JInt total -> (0 < total)%Z ->
  Forall area_entry fd ->
  exists fd', fst (area_step area fd s) = Ret fd' /\ Forall area_entry fd' /\ fd' <> [].
Proof.
  intros Hbase Htotal Htpos Hfd. destruct area as [area_id area_nombre].
  unfold area_step. rewrite bind_get_self. ask_count Hbase c Hc.
  rewrite Htotal, bind_lift, percentage_of_int by lia.
  ask_count Hbase c_oa Hcoa.
  rewrite bind_lift, percentage_of_int by lia.
  ask_groups Hbase group kcs Hitems Hnodup Hcounts Hout.
  rewrite bind_lift, (oa_fold_items c kcs group []) by (auto; try lia; intros ? ? []).
  cbn [app fst ret]. eexists. split; [reflexivity|].
  split; [|apply dict_set_nonempty].
  repeat apply Forall_dict_set_entry; try exact Hfd;
    (eapply area_entry_intro;
     [ reflexivity | reflexivity | exact Hc | reflexivity
     | intros v Hv; cbn in Hv; first [discriminate | injection Hv as <-; reflexivity]
     | intros st Hst; cbn in Hst;
       first [ discriminate
             | injection Hst as <-; eexists; split;
               [reflexivity|apply oa_entries_have_percentage] ] ]).
Qed.

Lemma areas_loop_good areas fd s total :
  base_url (self s) = base ->
  total_publications (self s) = JInt total -> (0 < total)%Z ->
  Forall area_entry fd -> (areas <> [] \/ fd <> []) ->
  exists fd', fst (mfold area_step areas fd s) = Ret fd' /\
              Forall area_entry fd' /\ fd' <> [].
Proof.
  revert fd s. induction areas as [|a areas IH]; intros fd s Hbase Htotal Htpos Hfd Hne.
  - exists fd. repeat split; [exact Hfd|]. destruct Hne as [Hne|Hne]; [congruence|exact Hne].
  - rewrite mfold_cons.
    destruct (area_step_good a fd s total Hbase Htotal Htpos Hfd)
      as (fd1 & Hrun & Hfd1 & Hne1).
    pose proof (performs_self _ _ s (area_step_performs [] a fd)) as Hself.
    destruct (area_step a fd s) as [r s1]. cbn [fst snd] in *. subst r.
    apply IH; try assumption; try (now right); now rewrite Hself.
Qed.

Lemma get_data_by_field_good s total :
  base_url (self s) = base ->
  total_publications (self s) = JInt total -> (0 < total)%Z ->
  completes fields_path any_document get_data_by_field s.
Proof.
  intros Hbase Htotal Htpos. unfold completes, get_data_by_field.
  rewrite bind_run.
  destruct (areas_loop_good areas_conocimiento [] s total Hbase Htotal Htpos)
    as (fd & Hrun & Hfd & Hne); [constructor|left; discriminate|].
  destruct (mfold area_step areas_conocimiento [] s) as [r s1].
  cbn [fst] in Hrun. subst r.
  destruct fd as [|entry d]; [congruence|].
  rewrite bind_dump, bind_run.
  destruct (visualize_fields_data_run entry d
              (dumped fields_path (JDict (entry :: d)) s1) Hfd) as (with_oa & ->).
  cbn [fst snd ret]. rewrite emit_all_files by now destruct with_oa.
  eexists _, _. split; [reflexivity|]. split; [apply lookup_insert_eq|exact I].
Qed.

End GoodApi.

Lemma create_summary_analysis_good s :
  saved_list saved_author (files s !! authors_path) ->
  saved_list saved_institution (files s !! institutions_path) ->
  saved_mapping (files s !! collab_path) ->
  completes summary_path any_document create_summary_analysis s.
Proof.
  intros Ha Hi Hc.
  destruct (load_authors_spec s Ha)
    as (top & df & dfc & HLa & (na & Hna) & (j1 & Hj1) & (j2 & Hj2) & _).
  destruct (load_institutions_spec s Hi)
    as (topi & dfi & HLi & (ni & Hni) & (j3 & Hj3) & _).
  destruct (load_collaboration_spec s Hc)
    as (data & dfk & HLc & (nc & Hnc) & (j4 & Hj4) & _).
  unfold completes.
  rewrite (create_summary_analysis_run s _ _ _ _ _ _ _ _ _ _ _ _ _ _
             HLa HLi HLc Hna Hj1 Hj2 Hni Hj3 Hnc Hj4).
  cbn [fst snd]. eexists _, _. split; [reflexivity|].
  split; [apply lookup_insert_eq|exact I].
Qed.

Lemma bind_returns {A B} (m : M A) (k : A -> M B) s a :
  fst (m s) = Ret a -> bind m k s = k a (snd (m s)).
Proof. unfold bind. destruct (m s) as [r s1]. cbn [fst snd]. now intros ->. Qed.

Ltac other_file := cbv; intuition discriminate.

(** X23.  Against an API that answers every request well (a positive
    count for every count query, a breakdown with distinct keys and
    positive counts for every group-by query, one key at least other than
    ['EC'], and non-empty lists of well-formed authors and institutions),
    [run_full_analysis] runs its seven steps to the end: it returns without
    an exception, and each of the seven data files then holds a document. *)
Theorem run_full_analysis_completes s :
  good_api (base_url (self s)) ->
  fst (run_full_analysis s) = Ret tt /\
  Forall (fun p => exists j, files (snd (run_full_analysis s)) !! p = Some (Document j))
         data_files.
Proof.
  intros Hgood.
  destruct (get_general_stats_good _ Hgood s eq_refl)
    as (total & Htpos & (a1 & j1 & Hr1 & Hf1 & _) & Ht1).
  pose proof (performs_total_identity _ _ s get_general_stats_performs)
    as (_ & Hb1 & _).
  set (s1 := snd (get_general_stats s)) in *. symmetry in Hb1.
  destruct (get_oa_stats_good _ Hgood s1 total Hb1 Ht1 Htpos)
    as (a2 & j2 & Hr2 & Hf2 & _).
  pose proof (performs_self _ _ s1 get_oa_stats_performs) as Hs2.
  pose proof (performs_untouched _ _ s1 get_oa_stats_performs) as Hu2.
  set (s2 := snd (get_oa_stats s1)) in *.
  rewrite <- Hs2 in Hb1, Ht1.
  destruct (get_data_by_field_good _ Hgood s2 total Hb1 Ht1 Htpos)
    as (a3 & j3 & Hr3 & Hf3 & _).
  pose proof (performs_self _ _ s2 get_data_by_field_performs) as Hs3.
  pose proof (performs_untouched _ _ s2 get_data_by_field_performs) as Hu3.
  set (s3 := snd (get_data_by_field s2)) in *.
  rewrite <- Hs3 in Hb1, Ht1.
  destruct (get_top_authors_good _ Hgood s3 Hb1) as (a4 & j4 & Hr4 & Hf4 & Hj4).
  pose proof (performs_self _ _ s3 get_top_authors_performs) as Hs4.
  pose proof (performs_untouched _ _ s3 get_top_authors_performs) as Hu4.
  set (s4 := snd (get_top_authors s3)) in *.
  rewrite <- Hs4 in Hb1, Ht1.
  destruct (get_top_institutions_good _ Hgood s4 Hb1) as (a5 & j5 & Hr5 & Hf5 & Hj5).
  pose proof (performs_self _ _ s4 get_top_institutions_performs) as Hs5.
  pose proof (performs_untouched _ _ s4 get_top_institutions_performs) as Hu5.
  set (s5 := snd (get_top_institutions s4)) in *.
  rewrite <- Hs5 in Hb1, Ht1.
  destruct (get_international_collaboration_good _ Hgood s5 total Hb1 Ht1 Htpos)
    as (a6 & j6 & Hr6 & Hf6 & Hj6).
  pose proof (performs_untouched _ _ s5 get_international_collaboration_performs)
    as Hu6.
  set (s6 := snd (get_international_collaboration s5)) in *.
  assert (Hg6 : files s6 !! general_path = Some (Document j1)).
  { rewrite Hu6, Hu5, Hu4, Hu3, Hu2 by other_file. exact Hf1. }
  assert (Ho6 : files s6 !! oa_types_path = Some (Document j2)).
  { rewrite Hu6, Hu5, Hu4, Hu3 by other_file. exact Hf2. }
  assert (Hfd6 : files s6 !! fields_path = Some (Document j3)).
  { rewrite Hu6, Hu5, Hu4 by other_file. exact Hf3. }
  assert (Ha6 : files s6 !! authors_path = Some (Document j4)).
  { rewrite Hu6, Hu5 by other_file. exact Hf4. }
  assert (Hi6 : files s6 !! institutions_path = Some (Document j5)).
  { rewrite Hu6 by other_file. exact Hf5. }
  destruct Hj4 as (rows4 & -> & Hrows4).
  destruct Hj5 as (rows5 & -> & Hrows5).
  destruct Hj6 as (d6 & -> & Hd6).
  destruct (create_summary_analysis_good s6) as (a7 & j7 & Hr7 & Hf7 & _).
  { right. now exists rows4. }
  { right. now exists rows5. }
  { right. now exists d6. }
  pose proof (performs_untouched _ _ s6 create_summary_analysis_performs) as Hu7.
  set (s7 := snd (create_summary_analysis s6)) in *.
  assert (Hrun : run_full_analysis s = (Ret tt, s7)).
  { unfold run_full_analysis.
    rewrite (bind_returns _ _ s a1 Hr1). fold s1.
    rewrite (bind_returns _ _ s1 a2 Hr2). fold s2.
    rewrite (bind_returns _ _ s2 a3 Hr3). fold s3.
    rewrite (bind_returns _ _ s3 a4 Hr4). fold s4.
    rewrite (bind_returns _ _ s4 a5 Hr5). fold s5.
    rewrite (bind_returns _ _ s5 a6 Hr6). fold s6.
    rewrite (bind_returns _ _ s6 a7 Hr7). reflexivity. }
  rewrite Hrun. split; [reflexivity|]. cbn [snd].
  repeat constructor.
  - exists j1. rewrite Hu7 by other_file. exact Hg6.
  - exists j2. rewrite Hu7 by other_file. exact Ho6.
  - exists j3. rewrite Hu7 by other_file. exact Hfd6.
  - eexists. rewrite Hu7 by other_file. exact Ha6.
  - eexists. rewrite Hu7 by other_file. exact Hi6.
  - eexists. rewrite Hu7 by other_file. exact Hf6.
  - exists j7. exact Hf7.
Qed.

(** ** The colours and the legend of the open-access pie *)

Lemma omap_all {A B} (f : A -> outcome B) l :
  Forall (fun a => exists b, f a = Ret b) l ->
  exists bs, omap f l = Ret bs /\ length bs = length l.
Proof.
  intros H. induction H as [|a l (b & Hb) _ (bs & Hbs & Hlen)].
  - now exists [].
  - exists (b :: bs). cbn [omap]. rewrite Hb, Hbs. cbn [obind length].
    split; [reflexivity|]. now rewrite Hlen.
Qed.

Lemma Forall_filter {A} (P : A -> Prop) f l :
  Forall P l -> Forall P (List.filter f l).
Proof.
  intros H. induction H as [|a l Ha _ IH]; [constructor|].
  cbn [List.filter]. destruct (f a); [constructor|]; assumption.
Qed.

Lemma get_unknown_type (cs : dict) label default :
  dict_lookup label cs = None -> get (JDict cs) label default = Ret default.
Proof. intros H. unfold get. now rewrite H. Qed.

(** X24.  The colour and legend tables of [visualize_oa_types] cannot
    fail, whatever types the API names: every label gets a colour, grey
    ([#CCCCCC]) for one that is not among [gold], [hybrid], [diamond],
    [green], [bronze] and [closed]; and the legend, which looks up
    [colors[key]] for the known types present, never raises [KeyError] and
    has as many lines as texts, six at most. *)
Theorem legend_of_known_types (labels : list string) :
  exists pie_cols lines texts,
    pie_colors labels = Ret pie_cols /\ length pie_cols = length labels /\
    custom_lines labels = Ret lines /\ custom_labels labels = Ret texts /\
    length lines = length texts /\ (length lines <= 6)%nat /\
    (forall label, known_type label = false ->
       pie_colors [label] = Ret [JStr "#CCCCCC"] /\ legend_keys [label] = []).
Proof.
  assert (Hkeys : (length (legend_keys labels) <= 6)%nat).
  { unfold legend_keys. etransitivity; [apply List.filter_length_le|]. reflexivity. }
  destruct (omap_all (fun label =>
              get (JDict [("gold", JStr "#F7941D"); ("hybrid", JStr "#4FBCCC");
                          ("diamond", JStr "#8CC63F"); ("green", JStr "#3866CA");
                          ("bronze", JStr "#CD7F32"); ("closed", JStr "#1D3A54")])
                  label (JStr "#CCCCCC")) labels)
    as (pie_cols & Hpie & Hpielen).
  { apply List.Forall_forall. intros label _. apply get_any. }
  destruct (omap_all (fun key =>
              getitem (JDict [("gold", JStr "#F7941D"); ("hybrid", JStr "#4FBCCC");
                              ("diamond", JStr "#8CC63F"); ("green", JStr "#3866CA");
                              ("bronze", JStr "#CD7F32"); ("closed", JStr "#1D3A54")])
                      key) (legend_keys labels))
    as (lines & Hlines & Hlineslen).
  { apply Forall_filter. repeat constructor; eexists; reflexivity. }
  destruct (omap_all (fun key => getitem (JDict legend_labels) key) (legend_keys labels))
    as (texts & Htexts & Htextslen).
  { apply Forall_filter. repeat constructor; eexists; reflexivity. }
  exists pie_cols, lines, texts.
  split; [exact Hpie|]. split; [exact Hpielen|].
  split; [exact Hlines|]. split; [exact Htexts|].
  split; [congruence|]. split; [lia|].
  intros label Hlabel. unfold known_type in Hlabel.
  cbn [keys legend_labels map fst existsb] in Hlabel.
  repeat (apply orb_false_iff in Hlabel as [? Hlabel]).
  split.
  - unfold pie_colors. cbn [colors getitem CEDIA_COLORS dict_lookup String.eqb
                             Ascii.eqb Bool.eqb obind omap].
    rewrite get_unknown_type; [reflexivity|].
    cbn [dict_lookup].
    repeat match goal with
           | H : String.eqb label _ = false |- _ => rewrite H; clear H
           end.
    reflexivity.
  - unfold legend_keys. cbn [keys legend_labels map fst List.filter existsb].
    repeat match goal with
           | H : String.eqb label ?k = false |- _ =>
               rewrite (String.eqb_sym k label), H; clear H
           end.
    reflexivity.
Qed.

End Extractor.

(** * Concrete runs *)

(** Arithmetic without rounding. *)
Definition exact (q : Q) : Q := q.

Lemma exact_monotone : forall x y : Q, (x <= y)%Q -> (exact x <= exact y)%Q.
Proof. intros x y H. exact H. Qed.

Lemma exact_integer :
  forall n : Z, (Z.abs n <= 2 ^ 53)%Z -> (exact (inject_Z n) == inject_Z n)%Q.
Proof. intros n _. reflexivity. Qed.

(** A 200 response with a JSON object as body, and a 503. *)
Definition ok (content : dict) : http_result :=
  Answer {| status_code := 200; body := Some (JDict content) |}.
Definition unavailable : http_result :=
  Answer {| status_code := 503; body := None |}.

(** A new extractor, before any step has run, and one that has counted ten
    publications. *)
Definition fresh : state :=
  {| self := init default_email 2026; files := ∅; trace := [] |}.
Definition counted_ten : state := with_total (JInt 10) fresh.

Definition item (k : string) (c : Z) : json :=
  JDict [("key", JStr k); ("count", JInt c)].

Definition is_group_by (req : request) : bool :=
  is_some (dict_lookup "group_by" (snd req)).

(** An API with 4 open-access works, 3 of them gold and 7 closed. *)
Definition api_oa (h : list request) (req : request) : http_result :=
  if is_group_by req
  then ok [("group_by", JList [item "gold" 3; item "closed" 7])]
  else ok [("meta", JDict [("count", JInt 4)])].

(** An API whose breakdown covers 3 works only. *)
Definition api_gold (h : list request) (req : request) : http_result :=
  if is_group_by req
  then ok [("group_by", JList [item "gold" 3])]
  else ok [("meta", JDict [("count", JInt 4)])].

Definition api_down (h : list request) (req : request) : http_result :=
  unavailable.

(** An API that finds no author and no institution. *)
Definition api_none (h : list request) (req : request) : http_result :=
  ok [("meta", JDict [("count", JInt 0)]); ("results", JList [])].

Definition someone : json :=
  JDict [("id", JStr "https://openalex.org/A1");
         ("display_name", JStr "A. Autora");
         ("works_count", JInt 12); ("cited_by_count", JInt 30)].

Definition api_one (h : list request) (req : request) : http_result :=
  ok [("results", JList [someone])].



(** The period covers the last five years. *)
Example period_2026 : period (self fresh) = "2021-2026".
Proof. reflexivity. Qed.

(** ** C1 *)

Lemma percentages_between_0_and_100_witness :
  (forall x y : Q, (x <= y)%Q -> (exact x <= exact y)%Q) /\
  (forall n : Z, (Z.abs n <= 2 ^ 53)%Z -> (exact (inject_Z n) == inject_Z n)%Q) /\
  writes_only counted_ten (snd (get_oa_stats exact api_oa counted_ten))
    oa_types_path
    (fun c => exists d, c = JDict d /\ breakdown within (JInt 10) d).
Proof.
  split; [exact exact_monotone|]. split; [exact exact_integer|].
  exact (proj1 (percentages_between_0_and_100 exact api_oa
                  exact_monotone exact_integer counted_ten)).
Defined.

(** ** C2 *)

(** C2 fails: a new extractor has [total_publications = 0]; when the first
    query of [get_oa_stats] succeeds, the division raises.  So does the
    percentage of an area for which the API counts no publication. *)
Lemma get_oa_stats_divides_by_zero :
  total_publications (self fresh) = JInt 0 /\
  fst (get_oa_stats exact api_oa fresh) = Raise ZeroDivisionError /\
  total_publications (self counted_ten) = JInt 10 /\
  fst (get_data_by_field exact api_none counted_ten) = Raise ZeroDivisionError.
Proof. repeat split; vm_compute; reflexivity. Qed.

Lemma api_down_always_fails : forall h req, fails (api_down h req).
Proof. intros h req. eexists. split; [reflexivity|discriminate]. Qed.

(** [api_oa] counts 4 publications in every area. *)
Lemma api_oa_area_counts s : area_counts_nonzero exact api_oa s.
Proof.
  intros new area rest results meta count _ _ H1 H2 H3.
  vm_compute in H1. injection H1 as <-.
  vm_compute in H2. injection H2 as <-.
  vm_compute in H3. injection H3 as <-. reflexivity.
Qed.

(** Whether a request asks for open-access works only. *)
Definition is_oa_query (req : request) : bool :=
  match dict_lookup "filter" (snd req) with
  | Some (JStr f) => occurs ",is_oa:true" f
  | _ => false
  end.

(** An API with 4 works in every area, none of them open access. *)
Definition api_closed (h : list request) (req : request) : http_result :=
  if is_group_by req then ok [("group_by", JList [item "closed" 4])]
  else if is_oa_query req then ok [("meta", JDict [("count", JInt 0)])]
  else ok [("meta", JDict [("count", JInt 4)])].

(** The counts of the areas are 4, though every open-access count is 0. *)
Lemma api_closed_area_counts : area_counts_nonzero exact api_closed counted_ten.
Proof.
  intros new area rest results meta count Hin _ H1 H2 H3.
  assert (E : answer (api_closed (requests_of (trace counted_ten ++ new))
                        (query counted_ten "works"
                           (Some (area_params (self counted_ten) (fst area)))))
              = Ret (JDict [("meta", JDict [("count", JInt 4)])])).
  { clear H1. unfold areas_conocimiento in Hin. cbn [In] in Hin.
    repeat (destruct Hin as [<-|Hin]; [vm_compute; reflexivity|]).
    contradiction. }
  rewrite E in H1. injection H1 as <-.
  vm_compute in H2. injection H2 as <-.
  vm_compute in H3. injection H3 as <-. reflexivity.
Qed.

Lemma divisions_need_nonzero_denominators_witness :
  (fails (first_answer api_down fresh "works" (oa_params (self fresh))) /\
   safe (fst (get_oa_stats exact api_down fresh))) /\
  (fails (first_answer api_down fresh "works" (collab_params (self fresh))) /\
   safe (fst (get_international_collaboration exact api_down fresh))) /\
  ((forall h req, fails (api_down h req)) /\
   safe (fst (get_data_by_field exact api_down fresh))) /\
  is_zero (total_publications (self counted_ten)) = false /\
  area_counts_nonzero exact api_closed counted_ten /\
  safe (fst (get_oa_stats exact api_closed counted_ten)) /\
  safe (fst (get_international_collaboration exact api_closed counted_ten)) /\
  safe (fst (get_data_by_field exact api_closed counted_ten)).
Proof.
  destruct (divisions_need_nonzero_denominators exact api_down fresh)
    as (Hoa & Hcollab & Hfields & _).
  destruct (divisions_need_nonzero_denominators exact api_closed counted_ten)
    as (_ & _ & _ & Hten).
  destruct (Hten eq_refl) as (Hoa10 & Hcollab10 & Hfields10).
  pose proof (api_down_always_fails [] (url_of (self fresh) "works",
    sent_params (self fresh) (Some (oa_params (self fresh))))) as F1.
  pose proof (api_down_always_fails [] (url_of (self fresh) "works",
    sent_params (self fresh) (Some (collab_params (self fresh))))) as F2.
  repeat split;
    first [ exact F1 | exact F2 | exact api_down_always_fails
          | exact api_closed_area_counts
          | exact (Hoa F1) | exact (Hcollab F2)
          | exact (Hfields api_down_always_fails)
          | exact Hoa10 | exact Hcollab10
          | exact (Hfields10 api_closed_area_counts) ].
Defined.

(** With every open-access count at zero the run of [get_data_by_field]
    still sends its 39 requests and returns. *)
Example zero_oa_counts_divide_nothing :
  length (requests_of (trace (snd (get_data_by_field exact api_closed counted_ten))))
    = 39%nat /\
  exists fd, fst (get_data_by_field exact api_closed counted_ten) = Ret fd.
Proof. split; [vm_compute; reflexivity|]. eexists. vm_compute. reflexivity. Qed.

(** ** C3 *)

(** C3 fails: on empty input every rendering function raises.
    [visualize_oa_types] raises [ValueError], from a pie without wedges;
    the four others raise [KeyError], from [sort_values] on a table without
    columns.  No chart is saved. *)
Lemma renderers_raise_on_empty_input :
  visualize_oa_types (JDict []) fresh = (Raise ValueError, fresh) /\
  visualize_fields_data (JDict []) fresh
    = (Raise (KeyError "publicaciones"), fresh) /\
  visualize_top_authors (JList []) fresh
    = (Raise (KeyError "publicaciones_total"), fresh) /\
  visualize_top_institutions (JList []) fresh
    = (Raise (KeyError "publicaciones"), fresh) /\
  visualize_international_collaboration (JDict []) fresh
    = (Raise (KeyError "publicaciones"), fresh).
Proof. repeat split; vm_compute; reflexivity. Qed.

(** An area for which only the first query succeeded. *)
Definition partial_fields : dict :=
  [("https://openalex.org/C33923547",
    JDict [("nombre", JStr "Physics"); ("publicaciones", JInt 5);
           ("porcentaje", JFloat 50)])].

Lemma partial_fields_ok : Forall area_entry partial_fields.
Proof.
  repeat constructor. eexists _, _, _, _.
  repeat split; try reflexivity; intros; discriminate.
Qed.

(** A breakdown with one type. *)
Definition gold_only : dict := [("gold", count_entry (JInt 3) (JFloat 30))].

Lemma gold_only_ok : Forall (counted is_pos) gold_only.
Proof. repeat constructor. eexists _, _, _. repeat split; reflexivity. Qed.

Lemma renderers_accept_partial_input_witness :
  (Forall (counted is_pos) gold_only /\
   visualize_oa_types (JDict gold_only) fresh = (Ret tt, emit oa_chart fresh)) /\
  (Forall area_entry partial_fields /\
   exists with_oa,
     visualize_fields_data (JDict partial_fields) fresh =
     (Ret tt, emit_all (fields_charts with_oa) fresh)).
Proof.
  destruct (renderers_accept_partial_input fresh) as (Hoa & Hfields & _).
  split.
  - split; [exact gold_only_ok|]. exact (Hoa _ _ gold_only_ok).
  - split; [exact partial_fields_ok|]. exact (Hfields _ _ partial_fields_ok).
Defined.

(** ** C4 *)

(** C4 fails for [get_data_by_field]: with the API down it still writes
    [datos_por_areas.json], and does not return. *)
Lemma get_data_by_field_writes_on_failure :
  writes_of (trace (snd (get_data_by_field exact api_down counted_ten)))
    = [(fields_path, JDict [])] /\
  fst (get_data_by_field exact api_down counted_ten)
    = Raise (KeyError "publicaciones").
Proof. split; vm_compute; reflexivity. Qed.

Lemma api_down_fails :
  fails (first_answer api_down fresh "works" (general_params (self fresh))).
Proof. eexists. split; [reflexivity|discriminate]. Qed.

Lemma failed_query_returns_nothing_witness :
  fails (first_answer api_down fresh "works" (general_params (self fresh))) /\
  get_general_stats api_down "2026-11-04" fresh =
  (Ret JNull, asked fresh "works" (Some (general_params (self fresh)))).
Proof.
  split; [exact api_down_fails|].
  exact (proj1 (failed_query_returns_nothing exact api_down "2026-11-04" fresh)
           api_down_fails).
Defined.

(** ** C5 *)

(** An API with three works: one gold, two closed. *)
Definition api_thirds (h : list request) (req : request) : http_result :=
  if is_group_by req
  then ok [("group_by", JList [item "gold" 1; item "closed" 2])]
  else ok [("meta", JDict [("count", JInt 1)])].

Definition counted_three : state := with_total (JInt 3) fresh.

(** 33.33333333333333 and 66.66666666666666, the doubles. *)
Definition a_third : Q := 2345624805922133 # 70368744177664.
Definition two_thirds : Q := 2345624805922133 # 35184372088832.

Definition thirds_saved : dict :=
  [("gold", count_entry (JInt 1) (JFloat a_third));
   ("closed", count_entry (JInt 2) (JFloat two_thirds))].

(** C5 fails twice.  Nothing makes the counts sum to
    [total_publications]: here they sum to 3 of 10, and the file is
    written all the same.  And when they do sum to it, the percentages,
    being doubles, need not sum to 100: one work of three and two of three
    give 33.33333333333333 and 66.66666666666666, which sum to
    99.99999999999999, that is [100 - 2^-46]. *)
Lemma oa_counts_need_not_sum_to_total :
  (total_publications (self counted_ten) = JInt 10 /\
   files (snd (get_oa_stats binary64 api_gold counted_ten)) !! oa_types_path
     = Some (Document (JDict [("gold", count_entry (JInt 3) (JFloat 30))])) /\
   sumZ [3%Z] <> 10%Z) /\
  (total_publications (self counted_three) = JInt 3 /\
   sumZ [1%Z; 2%Z] = 3%Z /\
   files (snd (get_oa_stats binary64 api_thirds counted_three)) !! oa_types_path
     = Some (Document (JDict thirds_saved)) /\
   (sumQ (percentages thirds_saved) == 100 - (1 # 70368744177664))%Q /\
   ~ (sumQ (percentages thirds_saved) == 100)%Q).
Proof.
  split; [repeat split; vm_compute; congruence|].
  split; [reflexivity|]. split; [reflexivity|].
  split; [vm_compute; reflexivity|].
  split; [reflexivity|]. intros H. vm_compute in H. discriminate H.
Qed.

Lemma api_thirds_first :
  succeeds (first_answer api_thirds counted_three "works"
              (oa_params (self counted_three)))
           [("meta", JDict [("count", JInt 1)])].
Proof. eexists. repeat split; reflexivity. Qed.

Lemma api_thirds_second :
  succeeds (oa_types_answer api_thirds counted_three)
           [("group_by", JList [item "gold" 1; item "closed" 2])].
Proof. eexists. repeat split; reflexivity. Qed.

Definition one_and_two : list (string * Z) := [("gold", 1%Z); ("closed", 2%Z)].

Lemma one_and_two_items :
  Forall2 is_item one_and_two [item "gold" 1; item "closed" 2].
Proof. repeat constructor; eexists; repeat split; reflexivity. Qed.

Lemma one_and_two_distinct : List.NoDup (map fst one_and_two).
Proof. repeat constructor; simpl; intuition discriminate. Qed.

Lemma one_and_two_counts : Forall (fun kc : string * Z => (0 <= snd kc)%Z) one_and_two.
Proof. repeat constructor; simpl; lia. Qed.

Definition gold_and_closed : list (string * Z) := [("gold", 3%Z); ("closed", 7%Z)].

Lemma gold_and_closed_items :
  Forall2 is_item gold_and_closed [item "gold" 3; item "closed" 7].
Proof. repeat constructor; eexists; repeat split; reflexivity. Qed.

Lemma gold_and_closed_distinct : List.NoDup (map fst gold_and_closed).
Proof.
  repeat constructor; simpl; intuition discriminate.
Qed.

Lemma oa_percentages_sum_witness :
  rounds_within binary64 half_ulp /\
  files (snd (get_oa_stats binary64 api_thirds counted_three)) !! oa_types_path
    = Some (Document (JDict (map (oa_entry binary64 3) one_and_two))) /\
  (Qabs (sumQ (percentages (map (oa_entry binary64 3) one_and_two)) - 100)
   <= (2 * half_ulp + half_ulp * half_ulp) * 100)%Q.
Proof.
  split; [exact binary64_error|].
  destruct (oa_percentages_sum binary64 api_thirds counted_three 3
              (JInt 1) _ _ _ _ one_and_two eq_refl ltac:(discriminate)
              api_thirds_first eq_refl eq_refl eq_refl api_thirds_second eq_refl
              one_and_two_items one_and_two_distinct) as (Hfile & Hsum).
  split; [exact Hfile|].
  destruct (Hsum half_ulp binary64_error eq_refl one_and_two_counts) as (_ & H100).
  exact (H100 eq_refl).
Defined.

(** What the file holds for one work of three and two of three. *)
Example thirds_as_doubles :
  map (oa_entry binary64 3) one_and_two = thirds_saved.
Proof. vm_compute. reflexivity. Qed.

(** ** C6 *)

Lemma nothing_saved (path : string) : unreadable (files fresh !! path).
Proof. left. reflexivity. Qed.

Lemma summary_defaults_for_missing_files_witness :
  unreadable (files fresh !! authors_path) /\
  unreadable (files fresh !! institutions_path) /\
  unreadable (files fresh !! collab_path) /\
  exists v,
    create_summary_analysis fresh = (Ret v, dumped summary_path v fresh) /\
    getitem v "autores_destacados" = Ret default_authors /\
    getitem v "instituciones_destacadas" = Ret default_institutions /\
    getitem v "colaboracion_internacional" = Ret default_collaboration.
Proof.
  repeat (split; [apply nothing_saved|]).
  destruct (summary_defaults_for_missing_files fresh
              (or_introl (nothing_saved _)) (or_introl (nothing_saved _))
              (or_introl (nothing_saved _))) as (v & Hrun & Ha & Hi & Hc).
  exists v. split; [exact Hrun|].
  split; [exact (Ha (nothing_saved _))|].
  split; [exact (Hi (nothing_saved _))|exact (Hc (nothing_saved _))].
Defined.

(** With nothing saved the summary is made of the three defaults. *)
Example summary_of_nothing :
  fst (create_summary_analysis fresh) =
  Ret (JDict [("autores_destacados", default_authors);
              ("instituciones_destacadas", default_institutions);
              ("colaboracion_internacional", default_collaboration)]).
Proof. vm_compute. reflexivity. Qed.

(** ** C7 *)

(** C7 fails: on success [get_oa_stats] issues two queries,
    [get_data_by_field] thirty-nine, and [get_top_authors] saves three
    charts. *)
Lemma methods_are_not_one_of_each :
  length (requests_of (trace (snd (get_oa_stats exact api_oa counted_ten)))) = 2%nat /\
  length (requests_of (trace (snd (get_data_by_field exact api_oa counted_ten)))) = 39%nat /\
  length (renders_of (trace (snd (get_top_authors api_one counted_ten)))) = 3%nat.
Proof. repeat split; vm_compute; reflexivity. Qed.

(** ** C9 *)

(** C9 fails: a successful response without results makes
    [get_top_authors] and [get_top_institutions] raise, after the empty
    list is written, instead of returning it. *)
Lemma top_lists_raise_on_no_results :
  get_top_authors api_none fresh =
    (Raise (KeyError "publicaciones_total"),
     dumped authors_path (JList [])
       (asked fresh "authors" (Some authors_params))) /\
  get_top_institutions api_none fresh =
    (Raise (KeyError "publicaciones"),
     dumped institutions_path (JList [])
       (asked fresh "institutions" (Some institutions_params))).
Proof. split; vm_compute; reflexivity. Qed.

Lemma someone_ok : Forall author_ok [someone].
Proof.
  repeat constructor. eexists _, _. split; [reflexivity|].
  split; [reflexivity|].
  repeat split; intros v H; vm_compute in H; try discriminate;
    injection H as <-; reflexivity.
Qed.

(** The author and the institution ranked [n]. *)
Definition author_number (n : nat) : json :=
  JDict [("id", JStr ("https://openalex.org/A" +:+ pretty n));
         ("display_name", JStr ("Autor " +:+ pretty n));
         ("works_count", JInt (100 - Z.of_nat n));
         ("cited_by_count", JInt (Z.of_nat n))].

Definition institution_number (n : nat) : json :=
  JDict [("id", JStr ("https://openalex.org/I" +:+ pretty n));
         ("display_name", JStr ("Universidad " +:+ pretty n));
         ("type", JStr "education");
         ("works_count", JInt (1000 - Z.of_nat n))].

(** Twenty-one authors and sixteen institutions; the last record of each
    list is not even an object. *)
Definition many_authors : list json :=
  (map author_number (seq 1 20) ++ [JNull])%list.

Definition many_institutions : list json :=
  (map institution_number (seq 1 15) ++ [JNull])%list.

Definition api_many (h : list request) (req : request) : http_result :=
  if String.eqb (fst req) "https://api.openalex.org/authors"
  then ok [("results", JList many_authors)]
  else ok [("results", JList many_institutions)].

Lemma api_many_authors :
  succeeds (first_answer api_many fresh "authors" authors_params)
           [("results", JList many_authors)].
Proof. eexists. repeat split; reflexivity. Qed.

Lemma api_many_institutions :
  succeeds (first_answer api_many fresh "institutions" institutions_params)
           [("results", JList many_institutions)].
Proof. eexists. repeat split; reflexivity. Qed.

Lemma author_number_ok n : author_ok (author_number n).
Proof.
  eexists _, _. split; [reflexivity|]. split; [reflexivity|].
  repeat split; intros v H; cbn in H; try discriminate;
    injection H as <-; reflexivity.
Qed.

Lemma institution_number_ok n : institution_ok (institution_number n).
Proof.
  eexists _, _. split; [reflexivity|]. split; [reflexivity|].
  intros v H. cbn in H. injection H as <-. reflexivity.
Qed.

Lemma first_authors_ok : Forall author_ok (firstn 20 many_authors).
Proof.
  change (firstn 20 many_authors) with (map author_number (seq 1 20)).
  apply Forall_map, List.Forall_forall. intros n _. apply author_number_ok.
Qed.

Lemma first_institutions_ok : Forall institution_ok (firstn 15 many_institutions).
Proof.
  change (firstn 15 many_institutions) with (map institution_number (seq 1 15)).
  apply Forall_map, List.Forall_forall. intros n _. apply institution_number_ok.
Qed.

(** The last record of each list is read by nothing: it is no author and
    no institution, and a loop over it would raise. *)
Example last_records_are_malformed :
  ~ Forall author_ok many_authors /\
  ~ Forall institution_ok many_institutions /\
  omap author_data many_authors = Raise AttributeError /\
  omap inst_data many_institutions = Raise AttributeError.
Proof.
  split; [|split; [|split; vm_compute; reflexivity]].
  - intros H. apply Forall_app in H as [_ H].
    inversion H as [|? ? (d & name & E & _) _]. discriminate E.
  - intros H. apply Forall_app in H as [_ H].
    inversion H as [|? ? (d & name & E & _) _]. discriminate E.
Qed.

Lemma top_lists_keep_first_records_witness :
  (succeeds (first_answer api_many fresh "authors" authors_params)
            [("results", JList many_authors)] /\
   length many_authors = 21%nat /\
   Forall author_ok (firstn 20 many_authors) /\
   exists rows,
     omap author_data (firstn 20 many_authors) = Ret (map JDict rows) /\
     length rows = 20%nat /\
     get_top_authors api_many fresh =
     (Ret (JList (map JDict rows)),
      emit_all author_charts
        (dumped authors_path (JList (map JDict rows))
           (asked fresh "authors" (Some authors_params))))) /\
  (succeeds (first_answer api_many fresh "institutions" institutions_params)
            [("results", JList many_institutions)] /\
   length many_institutions = 16%nat /\
   Forall institution_ok (firstn 15 many_institutions) /\
   exists rows,
     omap inst_data (firstn 15 many_institutions) = Ret (map JDict rows) /\
     length rows = 15%nat /\
     get_top_institutions api_many fresh =
     (Ret (JList (map JDict rows)),
      emit institutions_chart
        (dumped institutions_path (JList (map JDict rows))
           (asked fresh "institutions" (Some institutions_params))))).
Proof.
  destruct (top_lists_keep_first_records api_many fresh) as (_ & _ & Ha & Hi).
  split.
  - split; [exact api_many_authors|]. split; [reflexivity|].
    split; [exact first_authors_ok|].
    exact (Ha _ (author_number 1)
              (map author_number (seq 2 19) ++ [JNull])%list
              api_many_authors eq_refl first_authors_ok).
  - split; [exact api_many_institutions|]. split; [reflexivity|].
    split; [exact first_institutions_ok|].
    exact (Hi _ (institution_number 1)
              (map institution_number (seq 2 14) ++ [JNull])%list
              api_many_institutions eq_refl first_institutions_ok).
Defined.

(** ** C10 *)






(** * Concrete runs of the further properties *)

Definition a_day : string := "2026-11-04".

(** The nine charts, by name. *)
Example the_nine_charts :
  chart_files =
  ["visualizaciones/distribucion_tipos_oa.png";
   "visualizaciones/areas_conocimiento_principales.png";
   "visualizaciones/areas_mayor_acceso_abierto.png";
   "visualizaciones/distribucion_areas_conocimiento.png";
   "visualizaciones/autores_mas_productivos.png";
   "visualizaciones/autores_mas_citados.png";
   "visualizaciones/productividad_vs_impacto.png";
   "visualizaciones/instituciones_mas_productivas.png";
   "visualizaciones/colaboracion_internacional.png"].
Proof. reflexivity. Qed.

(** A chart that is saved replaces what its path held, and no other
    file. *)
Example charts_are_written :
  files (snd (get_top_institutions api_many fresh))
    !! "visualizaciones/instituciones_mas_productivas.png" = Some Garbage /\
  files (snd (get_top_institutions api_many fresh))
    !! "visualizaciones/colaboracion_internacional.png" = None.
Proof. split; vm_compute; reflexivity. Qed.

(** An API that answers every request with an empty JSON object. *)
Definition api_empty (h : list request) (req : request) : http_result := ok [].

(** An API whose ['meta'] holds no count. *)
Definition api_no_count (h : list request) (req : request) : http_result :=
  ok [("meta", JDict [])].

(** No network. *)
Definition api_silent (h : list request) (req : request) : http_result := NoAnswer.

(** An API that counts, and fails on every group-by query. *)
Definition api_counts_only (h : list request) (req : request) : http_result :=
  if is_group_by req then unavailable
  else ok [("meta", JDict [("count", JInt 4)])].

(** An author without institution, as OpenAlex sends it. *)
Definition nobody : json :=
  JDict [("id", JStr "https://openalex.org/A2");
         ("display_name", JStr "B. Autor");
         ("last_known_institution", JNull);
         ("works_count", JInt 7); ("cited_by_count", JInt 9)].

Definition api_nobody (h : list request) (req : request) : http_result :=
  ok [("results", JList [someone; nobody])].

(** An API that knows of no collaboration but within Ecuador. *)
Definition api_home (h : list request) (req : request) : http_result :=
  ok [("group_by", JList [item "EC" 9])].

Definition with_file (path : string) (j : json) (s : state) : state :=
  {| self := self s; files := <[path := Document j]> (files s); trace := trace s |}.

Definition author_row_of (nombre : string) (publicaciones citas : Z) : dict :=
  [("id", JNull); ("nombre", JStr nombre); ("orcid", JNull);
   ("institucion", JStr "Desconocida"); ("institucion_id", JStr "");
   ("publicaciones_total", JInt publicaciones); ("citas", JInt citas)].

Definition two_authors : list dict :=
  [author_row_of "A. Autora" 12 3; author_row_of "B. Autor" 7 30].

Definition authors_saved : state :=
  with_file authors_path (JList (map JDict two_authors)) fresh.

(** A file of authors as an older version might have left it: no
    ['citas']. *)
Definition authors_uncited : state :=
  with_file authors_path (JList (map JDict [[("nombre", JStr "A. Autora")]])) fresh.

Definition two_partners : dict :=
  [("https://openalex.org/countries/US", count_entry (JInt 5) (JFloat 50));
   ("CO", count_entry (JInt 2) (JFloat 20))].

Definition partners_saved : state :=
  with_file collab_path (JDict two_partners) fresh.

Definition area_of (n : Z) : dict :=
  [("nombre", JStr "area"); ("publicaciones", JInt n); ("porcentaje", JFloat 10)].

(** Ten areas, sorted by publications. *)
Definition ten_areas : DataFrame :=
  {| columns := ["nombre"; "publicaciones"; "porcentaje"];
     rows := map area_of [10; 9; 8; 7; 6; 5; 4; 3; 2; 1]%Z |}.

Lemma api_oa_general :
  succeeds (first_answer api_oa fresh "works" (general_params (self fresh)))
           [("meta", JDict [("count", JInt 4)])].
Proof. eexists. repeat split; reflexivity. Qed.

Lemma get_general_stats_records_count_witness :
  succeeds (first_answer api_oa fresh "works" (general_params (self fresh)))
           [("meta", JDict [("count", JInt 4)])] /\
  total_publications (self (snd (get_general_stats api_oa a_day fresh))) = JInt 4 /\
  files (snd (get_general_stats api_oa a_day fresh)) !! general_path
    = Some (Document (metadata a_day (self fresh) (JInt 4))).
Proof.
  split; [exact api_oa_general|].
  exact (proj2 (get_general_stats_records_count api_oa a_day fresh _ _ _
                  api_oa_general eq_refl eq_refl)).
Defined.

Lemma api_empty_answers endpoint params :
  succeeds (first_answer api_empty fresh endpoint params) [].
Proof. eexists. repeat split; reflexivity. Qed.

Lemma answer_without_key_counts_as_failure_witness :
  succeeds (first_answer api_empty fresh "works" (general_params (self fresh))) [] /\
  get_general_stats api_empty a_day fresh =
    (Ret JNull, asked fresh "works" (Some (general_params (self fresh)))) /\
  succeeds (first_answer api_empty fresh "authors" authors_params) [] /\
  get_top_authors api_empty fresh =
    (Ret (JList []), asked fresh "authors" (Some authors_params)).
Proof.
  pose proof (answer_without_key_counts_as_failure exact api_empty a_day fresh [])
    as (Hgeneral & _ & Hauthors & _).
  split; [apply api_empty_answers|].
  split; [exact (Hgeneral (api_empty_answers _ _) eq_refl)|].
  split; [apply api_empty_answers|].
  exact (Hauthors (api_empty_answers _ _) eq_refl).
Defined.

Lemma api_no_count_answers endpoint params :
  succeeds (first_answer api_no_count fresh endpoint params) [("meta", JDict [])].
Proof. eexists. repeat split; reflexivity. Qed.

Lemma meta_without_count_raises_witness :
  succeeds (first_answer api_no_count fresh "works" (general_params (self fresh)))
           [("meta", JDict [])] /\
  get_general_stats api_no_count a_day fresh =
    (Raise (KeyError "count"), asked fresh "works" (Some (general_params (self fresh)))).
Proof.
  split; [apply api_no_count_answers|].
  exact (proj1 (meta_without_count_raises exact api_no_count a_day fresh
                  [("meta", JDict [])] [] eq_refl eq_refl)
           (api_no_count_answers _ _)).
Defined.

Lemma api_silent_broken endpoint params :
  broken (first_answer api_silent fresh endpoint params) ConnectionError.
Proof. left. split; reflexivity. Qed.

Lemma query_errors_are_not_caught_witness :
  broken (first_answer api_silent fresh "works" (general_params (self fresh)))
         ConnectionError /\
  run_full_analysis exact api_silent a_day fresh =
    (Raise ConnectionError, asked fresh "works" (Some (general_params (self fresh)))) /\
  get_data_by_field exact api_silent fresh =
    (Raise ConnectionError,
     asked fresh "works" (Some (area_params (self fresh) first_area))).
Proof.
  pose proof (query_errors_are_not_caught exact api_silent a_day fresh ConnectionError)
    as (Hgeneral & _ & Hfields & _).
  split; [apply api_silent_broken|].
  split; [exact (proj2 (Hgeneral (api_silent_broken _ _)))|].
  exact (Hfields (api_silent_broken _ _)).
Defined.

Lemma api_down_stops_analysis_witness :
  (forall h req, fails (api_down h req)) /\
  fst (run_full_analysis exact api_down a_day fresh) = Raise (KeyError "publicaciones") /\
  files (snd (run_full_analysis exact api_down a_day fresh)) !! summary_path
    = files fresh !! summary_path.
Proof.
  split; [exact api_down_always_fails|].
  pose proof (api_down_stops_analysis exact api_down a_day fresh api_down_always_fails)
    as (Hrun & _ & Hsummary).
  split; [now rewrite Hrun|exact Hsummary].
Defined.

Lemma api_none_counts s endpoint params :
  succeeds (first_answer api_none s endpoint params)
           [("meta", JDict [("count", JInt 0)]); ("results", JList [])].
Proof. eexists. repeat split; reflexivity. Qed.

Lemma zero_publications_stop_analysis_witness :
  succeeds (first_answer api_none fresh "works" (general_params (self fresh)))
           [("meta", JDict [("count", JInt 0)]); ("results", JList [])] /\
  is_zero (JInt 0) = true /\
  fst (run_full_analysis exact api_none a_day fresh) = Raise ZeroDivisionError.
Proof.
  split; [apply api_none_counts|]. split; [reflexivity|].
  now rewrite (zero_publications_stop_analysis exact api_none a_day fresh
                 _ _ (JInt 0) _ _ (JInt 0)
                 (api_none_counts _ _ _) eq_refl eq_refl eq_refl
                 (api_none_counts _ _ _) eq_refl eq_refl eq_refl).
Defined.

Lemma api_counts_only_first :
  succeeds (first_answer api_counts_only counted_ten "works"
              (oa_params (self counted_ten)))
           [("meta", JDict [("count", JInt 4)])].
Proof. eexists. repeat split; reflexivity. Qed.

Lemma api_counts_only_second : fails (oa_types_answer api_counts_only counted_ten).
Proof. eexists. split; [reflexivity|discriminate]. Qed.

Lemma get_oa_stats_needs_both_answers_witness :
  succeeds (first_answer api_counts_only counted_ten "works"
              (oa_params (self counted_ten)))
           [("meta", JDict [("count", JInt 4)])] /\
  fails (oa_types_answer api_counts_only counted_ten) /\
  get_oa_stats exact api_counts_only counted_ten =
  (Ret JNull,
   asked (asked counted_ten "works" (Some (oa_params (self counted_ten))))
         "works" (Some (oa_types_params (self counted_ten)))).
Proof.
  split; [exact api_counts_only_first|]. split; [exact api_counts_only_second|].
  exact (get_oa_stats_needs_both_answers exact api_counts_only counted_ten 10 _ _
           (JInt 4) eq_refl ltac:(discriminate) api_counts_only_first
           eq_refl eq_refl eq_refl api_counts_only_second).
Defined.

Lemma counted_total_keeps_divisions_defined_witness :
  is_zero (total_publications (self (after_general_stats api_oa a_day fresh))) = false /\
  area_counts_nonzero exact api_oa
    (snd (get_oa_stats exact api_oa (after_general_stats api_oa a_day fresh))) /\
  safe (fst (run_full_analysis exact api_oa a_day fresh)).
Proof.
  split; [reflexivity|]. split; [apply api_oa_area_counts|].
  exact (proj2 (proj2 (proj2 (proj2
           (counted_total_keeps_divisions_defined exact api_oa a_day fresh))))
           eq_refl (api_oa_area_counts _)).
Defined.

Lemma api_nobody_answers :
  succeeds (first_answer api_nobody fresh "authors" authors_params)
           [("results", JList [someone; nobody])].
Proof. eexists. repeat split; reflexivity. Qed.

Lemma nobody_is_bad : Exists bad_institution (firstn 20 [someone; nobody]).
Proof.
  apply Exists_cons_tl, Exists_cons_hd. eexists _, JNull.
  split; [reflexivity|]. split; [reflexivity|discriminate].
Qed.

Lemma null_institution_raises_witness :
  succeeds (first_answer api_nobody fresh "authors" authors_params)
           [("results", JList [someone; nobody])] /\
  Exists bad_institution (firstn 20 [someone; nobody]) /\
  get_top_authors api_nobody fresh =
  (Raise AttributeError, asked fresh "authors" (Some authors_params)).
Proof.
  split; [exact api_nobody_answers|]. split; [exact nobody_is_bad|].
  exact (null_institution_raises api_nobody fresh _ _
           api_nobody_answers eq_refl nobody_is_bad).
Defined.

Lemma with_file_holds path j s :
  files (with_file path j s) !! path = Some (Document j).
Proof. apply lookup_insert_eq. Qed.

Lemma with_file_only path j path' :
  path' <> path -> unreadable (files (with_file path j fresh) !! path').
Proof.
  intros H. left. unfold with_file. cbn [files].
  rewrite lookup_insert_ne by congruence. reflexivity.
Qed.

Lemma unsaved path j path' :
  String.eqb path' path = false -> unreadable (files (with_file path j fresh) !! path').
Proof.
  intros H. apply with_file_only. intros ->. now rewrite String.eqb_refl in H.
Qed.

Lemma two_authors_plain : Forall plain_author two_authors.
Proof. repeat constructor; eexists _, _, _, _; repeat split; reflexivity. Qed.

Lemma summary_lists_every_author_witness :
  files authors_saved !! authors_path
    = Some (Document (JList (map JDict two_authors))) /\
  Forall plain_author two_authors /\
  exists v mas_citados,
    create_summary_analysis authors_saved
      = (Ret v, dumped summary_path v authors_saved) /\
    getitem v "autores_destacados" =
    Ret (JDict [("total_analizados", JInt 2);
                ("mas_productivos",
                 JList (map (project ["nombre"; "institucion"; "publicaciones_total"])
                            two_authors));
                ("mas_citados", JList mas_citados)]) /\
    descending citas_of mas_citados.
Proof.
  split; [apply with_file_holds|]. split; [exact two_authors_plain|].
  destruct (summary_lists_every_author authors_saved _ _
              (with_file_holds _ _ _) two_authors_plain
              (or_introl (unsaved authors_path _ institutions_path eq_refl))
              (or_introl (unsaved authors_path _ collab_path eq_refl)))
    as (v & c & Hrun & Hsection & _ & Hdesc).
  exists v, c. split; [exact Hrun|]. split; [exact Hsection|exact Hdesc].
Defined.

Lemma authors_without_citas_are_dropped_witness :
  files authors_uncited !! authors_path
    = Some (Document (JList (map JDict [[("nombre", JStr "A. Autora")]]))) /\
  exists v,
    create_summary_analysis authors_uncited
      = (Ret v, dumped summary_path v authors_uncited) /\
    getitem v "autores_destacados" = Ret default_authors.
Proof.
  split; [apply with_file_holds|].
  apply (authors_without_citas_are_dropped authors_uncited _ (with_file_holds _ _ _)).
  - repeat constructor.
  - left. now apply unsaved.
  - left. now apply unsaved.
Defined.

Lemma two_partners_plain : Forall plain_country two_partners.
Proof. repeat constructor; eexists _, _, _; repeat split; reflexivity. Qed.

Lemma summary_lists_every_country_witness :
  files partners_saved !! collab_path = Some (Document (JDict two_partners)) /\
  Forall plain_country two_partners /\
  exists v,
    create_summary_analysis partners_saved
      = (Ret v, dumped summary_path v partners_saved) /\
    getitem v "colaboracion_internacional" =
    Ret (JDict [("total_paises", JInt 2);
                ("principales_colaboradores",
                 JList [JDict [("pais", JStr "US"); ("publicaciones", JInt 5);
                               ("porcentaje", JFloat 50)];
                        JDict [("pais", JStr "CO"); ("publicaciones", JInt 2);
                               ("porcentaje", JFloat 20)]])]).
Proof.
  split; [apply with_file_holds|]. split; [exact two_partners_plain|].
  exact (summary_lists_every_country partners_saved _ _
           (with_file_holds _ _ _) two_partners_plain
           (or_introl (unsaved collab_path _ authors_path eq_refl))
           (or_introl (unsaved collab_path _ institutions_path eq_refl))).
Defined.

Lemma country_rows_are_named_by_code_witness :
  occurs country_prefix "US" = false /\
  collab_row ("https://openalex.org/countries/US", count_entry (JInt 5) (JFloat 50)) =
    Ret (JDict [("pais", JStr "US"); ("publicaciones", JInt 5);
                ("porcentaje", JFloat 50)]) /\
  collab_row ("US", count_entry (JInt 5) (JFloat 50)) =
    Ret (JDict [("pais", JStr "US"); ("publicaciones", JInt 5);
                ("porcentaje", JFloat 50)]).
Proof.
  split; [reflexivity|].
  exact (country_rows_are_named_by_code "US" (count_entry (JInt 5) (JFloat 50))
           _ _ eq_refl eq_refl eq_refl).
Defined.

Lemma ten_areas_pie :
  pie_data ten_areas =
  Ret {| columns := ["nombre"; "publicaciones"; "porcentaje"];
         rows := (map area_of [10; 9; 8; 7; 6; 5; 4; 3]%Z
                  ++ [other_areas_row (JFloat 3) (JFloat 20)])%list |}.
Proof. vm_compute. reflexivity. Qed.

Lemma ten_areas_sizes :
  Forall (fun r => is_size (cell "publicaciones" r) = true) (rows ten_areas).
Proof. repeat constructor. Qed.

Lemma pie_groups_the_smaller_areas_witness :
  pie_data ten_areas =
  Ret {| columns := ["nombre"; "publicaciones"; "porcentaje"];
         rows := (map area_of [10; 9; 8; 7; 6; 5; 4; 3]%Z
                  ++ [other_areas_row (JFloat 3) (JFloat 20)])%list |} /\
  Forall (fun r => is_size (cell "publicaciones" r) = true) (rows ten_areas) /\
  (pie_total "publicaciones"
     {| columns := ["nombre"; "publicaciones"; "porcentaje"];
        rows := (map area_of [10; 9; 8; 7; 6; 5; 4; 3]%Z
                 ++ [other_areas_row (JFloat 3) (JFloat 20)])%list |}
   == pie_total "publicaciones" ten_areas)%Q.
Proof.
  split; [exact ten_areas_pie|]. split; [exact ten_areas_sizes|].
  exact (proj2 (proj2 (proj2 (pie_groups_the_smaller_areas ten_areas _
                                ten_areas_pie ten_areas_sizes)))).
Defined.

Lemma api_home_answers :
  succeeds (first_answer api_home counted_ten "works" (collab_params (self counted_ten)))
           [("group_by", JList [item "EC" 9])].
Proof. eexists. repeat split; reflexivity. Qed.

Lemma home_only : Forall home_item [item "EC" 9].
Proof. repeat constructor. eexists. split; reflexivity. Qed.

Lemma collaboration_without_partner_raises_witness :
  succeeds (first_answer api_home counted_ten "works" (collab_params (self counted_ten)))
           [("group_by", JList [item "EC" 9])] /\
  Forall home_item [item "EC" 9] /\
  get_international_collaboration exact api_home counted_ten =
  (Raise (KeyError "publicaciones"),
   dumped collab_path (JDict [])
     (asked counted_ten "works" (Some (collab_params (self counted_ten))))).
Proof.
  split; [exact api_home_answers|]. split; [exact home_only|].
  exact (collaboration_without_partner_raises exact api_home counted_ten _ _
           api_home_answers eq_refl home_only).
Defined.

Definition an_institution : json :=
  JDict [("id", JStr "https://openalex.org/I1");
         ("display_name", JStr "Universidad");
         ("type", JStr "education");
         ("works_count", JInt 100); ("cited_by_count", JInt 300)].

(** An API that answers every request well. *)
Definition api_good (h : list request) (req : request) : http_result :=
  if String.eqb (fst req) "https://api.openalex.org/authors"
  then ok [("results", JList [someone])]
  else if String.eqb (fst req) "https://api.openalex.org/institutions"
  then ok [("results", JList [an_institution])]
  else match dict_lookup "group_by" (snd req) with
       | Some g =>
           if is_str "authorships.countries" g
           then ok [("group_by", JList [item "US" 5; item "EC" 9; item "CO" 2])]
           else ok [("group_by", JList [item "gold" 3; item "closed" 7])]
       | None => ok [("meta", JDict [("count", JInt 4)])]
       end.

Lemma an_institution_ok : Forall institution_ok [an_institution].
Proof.
  repeat constructor. eexists _, _. split; [reflexivity|].
  split; [reflexivity|].
  intros v H. vm_compute in H. injection H as <-. reflexivity.
Qed.

Lemma api_good_is_good : good_api api_good (base_url (self fresh)).
Proof.
  intros h params. repeat apply conj.
  - intros Hnone. unfold api_good. cbn [fst snd]. rewrite Hnone.
    eexists _, _, _. split; [eexists; repeat split; reflexivity|].
    repeat split; reflexivity.
  - intros Hsome. unfold api_good. cbn [fst snd].
    destruct (dict_lookup "group_by" params) as [g|]; [|discriminate].
    destruct (is_str "authorships.countries" g).
    + exists [("group_by", JList [item "US" 5; item "EC" 9; item "CO" 2])],
             [item "US" 5; item "EC" 9; item "CO" 2],
             [("US", 5%Z); ("EC", 9%Z); ("CO", 2%Z)].
      split; [eexists; repeat split; reflexivity|].
      split; [reflexivity|].
      split; [repeat constructor; eexists; repeat split; reflexivity|].
      split; [repeat constructor; simpl; intuition discriminate|].
      split; [repeat constructor|]. now constructor.
    + exists [("group_by", JList [item "gold" 3; item "closed" 7])],
             [item "gold" 3; item "closed" 7], gold_and_closed.
      split; [eexists; repeat split; reflexivity|].
      split; [reflexivity|].
      split; [exact gold_and_closed_items|].
      split; [exact gold_and_closed_distinct|].
      split; [repeat constructor|]. now constructor.
  - exists [("results", JList [someone])], someone, [].
    split; [eexists; repeat split; reflexivity|].
    split; [reflexivity|exact someone_ok].
  - exists [("results", JList [an_institution])], an_institution, [].
    split; [eexists; repeat split; reflexivity|].
    split; [reflexivity|exact an_institution_ok].
Qed.

Lemma run_full_analysis_completes_witness :
  good_api api_good (base_url (self fresh)) /\
  fst (run_full_analysis exact api_good a_day fresh) = Ret tt.
Proof.
  split; [exact api_good_is_good|].
  exact (proj1 (run_full_analysis_completes exact api_good a_day fresh
                  api_good_is_good)).
Defined.

(** Against [api_good] the run reaches the bounds: 45 requests, seven
    files, nine charts. *)
Example run_reaches_the_bounds :
  count is_get (trace (snd (run_full_analysis exact api_good a_day fresh))) = 45%nat /\
  count is_write (trace (snd (run_full_analysis exact api_good a_day fresh))) = 7%nat /\
  count is_render (trace (snd (run_full_analysis exact api_good a_day fresh))) = 9%nat.
Proof. repeat split; vm_compute; reflexivity. Qed.
